(** * AI accountant backend: extraction defaults, ledger store, repayment
      reconciliation and response rendering

    A shallow embedding of [services/openai.js], [services/supabase.js] and
    [server.js].  JavaScript values are modelled by [Js.JsValue]; the two
    external services (speech-to-text and the chat completion) are oracles
    whose answers are inputs of the model; the Supabase tables are lists of
    rows threaded through every store function.  The store functions come
    twice: as whole calls that succeed ([Supabase], [Server], [Store]),
    and call by call ([Calls]), where a call of the database can fail and
    the calls of several requests interleave. *)

From Stdlib Require Import ZArith QArith List String Ascii Bool Lia DecimalString Sorted Permutation.
Import ListNotations.
Open Scope string_scope.
Open Scope Z_scope.

(** ** The fragment of JavaScript the backend relies on *)

Module Js.

(** A finite number is kept in fixed point at scale 2, the scale of the
    ledger's [NUMERIC(15, 2)] columns: [Fin c] is the number [c / 100].
    Binary64 rounding is not modelled, arithmetic on finite numbers is
    exact. *)
Inductive JsNum : Type :=
| NaN
| Fin (c : Z).

(** Scalar values of a parsed JSON object; [JUndefined] is what reading an
    absent property yields. *)
Inductive JsValue : Type :=
| JUndefined
| JNull
| JBool (b : bool)
| JNumber (n : JsNum)
| JString (s : string).

Definition num (units : Z) : JsValue := JNumber (Fin (units * 100)).

(** ToBoolean *)
Definition truthy (v : JsValue) : bool :=
  match v with
  | JUndefined | JNull => false
  | JBool b => b
  | JNumber NaN => false
  | JNumber (Fin c) => negb (c =? 0)
  | JString s => negb (String.eqb s EmptyString)
  end.

(** [a || b] *)
Definition js_or (a b : JsValue) : JsValue := if truthy a then a else b.

(** [a === b] *)
Definition strict_eq (a b : JsValue) : bool :=
  match a, b with
  | JUndefined, JUndefined => true
  | JNull, JNull => true
  | JBool x, JBool y => Bool.eqb x y
  | JNumber (Fin x), JNumber (Fin y) => x =? y
  | JString x, JString y => String.eqb x y
  | _, _ => false
  end.

Definition digits (n : Z) : string :=
  NilZero.string_of_uint (N.to_uint (Z.to_N n)).

Definition two_digits (n : Z) : string :=
  digits (n / 10) ++ digits (n mod 10).

(** Number::toString, for magnitudes below 1e21 *)
Definition NumberToString (n : JsNum) : string :=
  match n with
  | NaN => "NaN"
  | Fin c =>
      let a := Z.abs c in
      let sign := if c <? 0 then "-" else EmptyString in
      let whole := digits (a / 100) in
      let frac := a mod 100 in
      if frac =? 0 then sign ++ whole
      else if frac mod 10 =? 0 then sign ++ whole ++ "." ++ digits (frac / 10)
      else sign ++ whole ++ "." ++ two_digits frac
  end.

(** Number.prototype.toFixed(2) *)
Definition toFixed2 (n : JsNum) : string :=
  match n with
  | NaN => "NaN"
  | Fin c =>
      let a := Z.abs c in
      (if c <? 0 then "-" else EmptyString) ++ digits (a / 100) ++ "." ++ two_digits (a mod 100)
  end.

(** ToString, as applied by template literals *)
Definition ToString (v : JsValue) : string :=
  match v with
  | JUndefined => "undefined"
  | JNull => "null"
  | JBool true => "true"
  | JBool false => "false"
  | JNumber n => NumberToString n
  | JString s => s
  end.

Definition is_space (c : ascii) : bool :=
  match c with
  | " "%char | "009"%char | "010"%char | "011"%char | "012"%char | "013"%char => true
  | _ => false
  end.

Fixpoint drop_spaces (s : list ascii) : list ascii :=
  match s with
  | c :: s' => if is_space c then drop_spaces s' else s
  | [] => []
  end.

Definition trim (s : list ascii) : list ascii :=
  rev (drop_spaces (rev (drop_spaces s))).

Definition digit_value (c : ascii) : option Z :=
  let n := Z.of_nat (nat_of_ascii c) in
  if (48 <=? n) && (n <=? 57) then Some (n - 48) else None.

(** Reads the longest run of decimal digits: its value, its length and the
    rest of the input. *)
Fixpoint read_digits (acc : Z) (len : nat) (s : list ascii) : Z * nat * list ascii :=
  match s with
  | c :: s' =>
      match digit_value c with
      | Some d => read_digits (acc * 10 + d) (S len) s'
      | None => (acc, len, s)
      end
  | [] => (acc, len, [])
  end.

(** The fraction digits of a literal as hundredths; [None] when the literal
    has a non-zero digit past the second place, or a non-digit. *)
Fixpoint read_fraction (place : nat) (s : list ascii) : option Z :=
  match s with
  | [] => Some 0
  | c :: s' =>
      match digit_value c, read_fraction (S place) s' with
      | Some d, Some r =>
          match place with
          | O => Some (d * 10 + r)
          | S O => Some (d + r)
          | _ => if d =? 0 then Some r else None
          end
      | _, _ => None
      end
  end.

Definition read_unsigned (s : list ascii) : JsNum :=
  let '(whole, len, rest) := read_digits 0 0 s in
  match rest with
  | [] => match len with O => NaN | _ => Fin (whole * 100) end
  | "."%char :: frac =>
      match len, frac with
      | O, [] => NaN
      | _, _ =>
          match read_fraction 0 frac with
          | Some f => Fin (whole * 100 + f)
          | None => NaN
          end
      end
  | _ => NaN
  end.

Definition negate (n : JsNum) : JsNum :=
  match n with
  | NaN => NaN
  | Fin c => Fin (- c)
  end.

(** StringToNumber on plain decimal literals.  Exponents, hexadecimal
    literals, [Infinity] and fractions finer than a hundredth denote numbers
    outside this number model; they are read as [NaN] here. *)
Definition StringToNumber (s : string) : JsNum :=
  match trim (list_ascii_of_string s) with
  | [] => Fin 0
  | "-"%char :: s' => negate (read_unsigned s')
  | "+"%char :: s' => read_unsigned s'
  | s' => read_unsigned s'
  end.

(** [Number(v)] *)
Definition Number (v : JsValue) : JsNum :=
  match v with
  | JUndefined => NaN
  | JNull => Fin 0
  | JBool true => Fin 100
  | JBool false => Fin 0
  | JNumber n => n
  | JString s => StringToNumber s
  end.

Definition num_add (a b : JsNum) : JsNum :=
  match a, b with
  | Fin x, Fin y => Fin (x + y)
  | _, _ => NaN
  end.

Definition num_sub (a b : JsNum) : JsNum :=
  match a, b with
  | Fin x, Fin y => Fin (x - y)
  | _, _ => NaN
  end.

(** [a <= b]: false as soon as one side is NaN *)
Definition num_le (a b : JsNum) : bool :=
  match a, b with
  | Fin x, Fin y => x <=? y
  | _, _ => false
  end.

(** [Math.max(a, b)] *)
Definition Math_max (a b : JsNum) : JsNum :=
  match a, b with
  | Fin x, Fin y => Fin (Z.max x y)
  | _, _ => NaN
  end.

End Js.

Import Js.

Infix "||'" := js_or (at level 50, left associativity).

(** ** services/openai.js *)

Module OpenAI.

(** The object [JSON.parse] returns for the completion's content.  A
    property the service left out reads as [JUndefined]. *)
Record ParsedData : Type := mkParsedData {
  p_intent : JsValue;
  p_lender_name : JsValue;
  p_loan_type : JsValue;
  p_principal_amount : JsValue;
  p_interest_rate : JsValue;
  p_tenure_months : JsValue;
  p_monthly_installment : JsValue;
  p_amount : JsValue;
  p_currency : JsValue;
  p_category : JsValue;
  p_notes : JsValue;
  p_type : JsValue;
  p_date : JsValue
}.

Record NewLoanData : Type := mkNewLoanData {
  nl_lender_name : JsValue;
  nl_loan_type : JsValue;
  nl_principal_amount : JsValue;
  nl_interest_rate : JsValue;
  nl_tenure_months : JsValue;
  nl_monthly_installment : JsValue;
  nl_currency : JsValue;
  nl_date : JsValue;
  nl_notes : JsValue
}.

Record RepaymentData : Type := mkRepaymentData {
  lr_lender_name : JsValue;
  lr_amount : JsValue;
  lr_currency : JsValue;
  lr_date : JsValue;
  lr_notes : JsValue
}.

Record TransactionData : Type := mkTransactionData {
  tx_amount : JsValue;
  tx_currency : JsValue;
  tx_category : JsValue;
  tx_notes : JsValue;
  tx_type : JsValue;
  tx_date : JsValue
}.

(** The three shapes [extractExpenseData] returns; the constructor is the
    [intent] property of the returned object. *)
Inductive Extracted : Type :=
| NewLoan (d : NewLoanData)
| LoanRepayment (d : RepaymentData)
| Transaction (d : TransactionData).

Definition intent_of (e : Extracted) : string :=
  match e with
  | NewLoan _ => "new_loan"
  | LoanRepayment _ => "loan_repayment"
  | Transaction _ => "transaction"
  end.

(** [extractExpenseData(text, userId)], from the line that parses the
    completion on.  [today] is [new Date().toISOString().split("T")[0]];
    [completion] is the parsed answer of the chat service, [None] when the
    call or [JSON.parse] threw, in which case the function throws too. *)
Definition extractExpenseData (today : string) (completion : option ParsedData)
    (text : JsValue) : option Extracted :=
  match completion with
  | None => None
  | Some parsedData =>
      let intent := p_intent parsedData ||' JString "transaction" in
      let defaultDate := JString today in
      if strict_eq intent (JString "new_loan") then
        Some (NewLoan {|
          nl_lender_name := p_lender_name parsedData ||' JString "Unknown";
          nl_loan_type :=
            if strict_eq (p_loan_type parsedData) (JString "personal")
            then JString "personal" else JString "bank";
          nl_principal_amount := p_principal_amount parsedData ||' num 0;
          nl_interest_rate := p_interest_rate parsedData ||' num 0;
          nl_tenure_months := p_tenure_months parsedData ||' JNull;
          nl_monthly_installment := p_monthly_installment parsedData ||' JNull;
          nl_currency := p_currency parsedData ||' JString "BDT";
          nl_date := p_date parsedData ||' defaultDate;
          nl_notes := p_notes parsedData ||' text |})
      else if strict_eq intent (JString "loan_repayment") then
        Some (LoanRepayment {|
          lr_lender_name := p_lender_name parsedData ||' JString "Unknown";
          lr_amount := p_amount parsedData ||' num 0;
          lr_currency := p_currency parsedData ||' JString "BDT";
          lr_date := p_date parsedData ||' defaultDate;
          lr_notes := p_notes parsedData ||' text |})
      else
        Some (Transaction {|
          tx_amount := p_amount parsedData ||' num 0;
          tx_currency := p_currency parsedData ||' JString "BDT";
          tx_category := p_category parsedData ||' JString "other";
          tx_notes := p_notes parsedData ||' text;
          tx_type :=
            if strict_eq (p_type parsedData) (JString "income")
            then JString "income" else JString "expense";
          tx_date := p_date parsedData ||' defaultDate |})
  end.

End OpenAI.

(** ** services/supabase.js *)

Module Supabase.

Import OpenAI.

Inductive LoanStatus : Type :=
| active
| paid_off.

Definition status_eqb (a b : LoanStatus) : bool :=
  match a, b with
  | active, active | paid_off, paid_off => true
  | _, _ => false
  end.

(** Rows hold the JSON values the client sent.  The casts and the
    constraint checks the database applies to a column are not modelled; a
    row's [id] and [created_at] are assigned by the store. *)
Record TransactionRow : Type := mkTransactionRow {
  t_id : nat;
  t_user_id : JsValue;
  t_amount : JsValue;
  t_currency : JsValue;
  t_category : JsValue;
  t_notes : JsValue;
  t_type : JsValue;
  t_date : JsValue;
  t_created_at : nat
}.

Record Loan : Type := mkLoan {
  l_id : nat;
  l_user_id : JsValue;
  l_lender_name : JsValue;
  l_loan_type : JsValue;
  l_principal_amount : JsValue;
  l_interest_rate : JsValue;
  l_tenure_months : JsValue;
  l_monthly_installment : JsValue;
  l_total_paid : JsValue;
  l_remaining_balance : JsValue;
  l_currency : JsValue;
  l_status : LoanStatus;
  l_start_date : JsValue;
  l_notes : JsValue;
  l_created_at : nat
}.

Record Feedback : Type := mkFeedback {
  f_id : nat;
  f_user_id : JsValue;
  f_user_name : JsValue;
  f_user_email : JsValue;
  f_rating : JsValue;
  f_comment : JsValue
}.

(** The three tables, and the counter that stands for [gen_random_uuid()]
    and [NOW()]: every insert takes the next value. *)
Record Db : Type := mkDb {
  transactions : list TransactionRow;
  loans : list Loan;
  feedback : list Feedback;
  next_id : nat
}.

Definition empty : Db := mkDb [] [] [] 0.

(** *** Filters of the query builder *)

(** [.eq(column, value)] *)
Definition eq_filter (column value : JsValue) : bool := strict_eq column value.

Definition lower (c : ascii) : ascii :=
  let n := nat_of_ascii c in
  if ((65 <=? n) && (n <=? 90))%nat then ascii_of_nat (n + 32) else c.

Definition backslash : ascii := ascii_of_nat 92.

(** The REST layer reads [*] in a pattern as [%]. *)
Definition star (c : ascii) : ascii :=
  if Ascii.eqb c "*" then "%"%char else c.

(** SQL [LIKE]: [%] matches any run of characters, [_] any one character,
    and a backslash takes the next pattern character literally. *)
Fixpoint like (p s : list ascii) {struct p} : bool :=
  match p with
  | [] => match s with [] => true | _ :: _ => false end
  | c :: p' =>
      if Ascii.eqb c "%" then
        (fix any (s : list ascii) : bool :=
           like p' s || match s with [] => false | _ :: s' => any s' end) s
      else if Ascii.eqb c "_" then
        match s with [] => false | _ :: s' => like p' s' end
      else if Ascii.eqb c backslash then
        match p' with
        | [] => false
        | e :: p'' =>
            match s with [] => false | d :: s' => Ascii.eqb e d && like p'' s' end
        end
      else
        match s with [] => false | d :: s' => Ascii.eqb c d && like p' s' end
  end.

(** [.ilike(column, pattern)]: [LIKE] on the lower-cased text (ASCII
    letters only in this model). *)
Definition ilike (column : JsValue) (pattern : string) : bool :=
  like (map lower (map star (list_ascii_of_string pattern)))
       (map lower (list_ascii_of_string (ToString column))).

(** *** Transactions *)

Record NewTransaction : Type := mkNewTransaction {
  userId : JsValue;
  amount : JsValue;
  currency : JsValue;
  category : JsValue;
  notes : JsValue;
  type : JsValue;
  date : JsValue
}.

Definition saveTransaction (db : Db) (data : NewTransaction) : Db :=
  let row := {|
    t_id := next_id db;
    t_user_id := userId data;
    t_amount := amount data;
    t_currency := currency data;
    t_category := category data;
    t_notes := notes data;
    t_type := type data;
    t_date := date data;
    t_created_at := next_id db |} in
  {| transactions := (transactions db ++ [row])%list;
     loans := loans db;
     feedback := feedback db;
     next_id := S (next_id db) |}.

Fixpoint insert_by {A : Type} (before : A -> A -> bool) (x : A) (l : list A) : list A :=
  match l with
  | [] => [x]
  | y :: l' => if before x y then x :: l else y :: insert_by before x l'
  end.

Definition sort_by {A : Type} (before : A -> A -> bool) (l : list A) : list A :=
  fold_right (insert_by before) [] l.

(** [.order("date", desc).order("created_at", desc)]; dates compare as text *)
Definition newer_transaction (a b : TransactionRow) : bool :=
  let da := ToString (t_date a) in
  let db := ToString (t_date b) in
  String.ltb db da || (String.eqb da db && (t_created_at b <=? t_created_at a)%nat).

Definition getTransactions (db : Db) (userId : JsValue) (limit : nat) : list TransactionRow :=
  firstn limit
    (sort_by newer_transaction
       (filter (fun t => eq_filter (t_user_id t) userId) (transactions db))).

Definition deleteTransaction (db : Db) (transactionId : nat) : Db :=
  {| transactions := filter (fun t => negb (t_id t =? transactionId)%nat) (transactions db);
     loans := loans db;
     feedback := feedback db;
     next_id := next_id db |}.

(** *** Loans *)

(** [saveLoan({ userId, ...extractedData })] returns the inserted row. *)
Definition saveLoan (db : Db) (userId : JsValue) (data : NewLoanData) : Db * Loan :=
  let loan := {|
    l_id := next_id db;
    l_user_id := userId;
    l_lender_name := nl_lender_name data;
    l_loan_type := nl_loan_type data;
    l_principal_amount := nl_principal_amount data;
    l_interest_rate := nl_interest_rate data ||' num 0;
    l_tenure_months := nl_tenure_months data ||' JNull;
    l_monthly_installment := nl_monthly_installment data ||' JNull;
    l_total_paid := num 0;
    l_remaining_balance := nl_principal_amount data;
    l_currency := nl_currency data ||' JString "BDT";
    l_status := active;
    l_start_date := nl_date data;
    l_notes := nl_notes data ||' JNull;
    l_created_at := next_id db |} in
  ({| transactions := transactions db;
      loans := (loans db ++ [loan])%list;
      feedback := feedback db;
      next_id := S (next_id db) |}, loan).

Definition getLoans (db : Db) (userId : JsValue) : list Loan :=
  sort_by (fun a b => (l_created_at b <=? l_created_at a)%nat)
    (filter (fun l => eq_filter (l_user_id l) userId) (loans db)).

Definition deleteLoan (db : Db) (loanId : nat) : Db :=
  {| transactions := transactions db;
     loans := filter (fun l => negb (l_id l =? loanId)%nat) (loans db);
     feedback := feedback db;
     next_id := next_id db |}.

(** *** Repayments *)

(** [{ ...loan, total_paid, remaining_balance, status }] *)
Definition with_balance (loan : Loan) (total_paid remaining_balance : JsValue)
    (status : LoanStatus) : Loan :=
  {| l_id := l_id loan;
     l_user_id := l_user_id loan;
     l_lender_name := l_lender_name loan;
     l_loan_type := l_loan_type loan;
     l_principal_amount := l_principal_amount loan;
     l_interest_rate := l_interest_rate loan;
     l_tenure_months := l_tenure_months loan;
     l_monthly_installment := l_monthly_installment loan;
     l_total_paid := total_paid;
     l_remaining_balance := remaining_balance;
     l_currency := l_currency loan;
     l_status := status;
     l_start_date := l_start_date loan;
     l_notes := l_notes loan;
     l_created_at := l_created_at loan |}.

(** The candidate query of [recordLoanRepayment]:
    [.eq("user_id", userId).eq("status", "active").ilike("lender_name", `%${lenderName}%`)],
    rows in table order. *)
Definition activeLoansMatching (db : Db) (userId lenderName : JsValue) : list Loan :=
  filter (fun l =>
            eq_filter (l_user_id l) userId
            && status_eqb (l_status l) active
            && ilike (l_lender_name l) ("%" ++ ToString lenderName ++ "%"))
         (loans db).

(** [.update({ total_paid, remaining_balance, status }).eq("id", loanId)] *)
Definition updateLoan (db : Db) (loanId : nat) (total_paid remaining_balance : JsValue)
    (status : LoanStatus) : Db :=
  {| transactions := transactions db;
     loans := map (fun l => if (l_id l =? loanId)%nat
                            then with_balance l total_paid remaining_balance status
                            else l) (loans db);
     feedback := feedback db;
     next_id := next_id db |}.

Record RepaymentResult : Type := mkRepaymentResult {
  loan : option Loan;
  message : string
}.

Definition dquote : string := String (ascii_of_nat 34) EmptyString.

(** The function as a whole: its three calls of the database succeed and
    no call of another request falls between them.  [Calls.perform] below
    has the calls one at a time, each of which can fail. *)
Definition recordLoanRepayment (db : Db) (userId lenderName amount date currency : JsValue)
    : Db * RepaymentResult :=
  match activeLoansMatching db userId lenderName with
  | [] =>
      let db' := saveTransaction db {|
        userId := userId;
        amount := amount;
        currency := currency ||' JString "BDT";
        category := JString "loan_repayment";
        notes := JString ("Loan repayment to " ++ ToString lenderName
                          ++ " (no matching loan found)");
        type := JString "expense";
        date := date |} in
      (db', {| loan := None;
               message := "No active loan found for " ++ dquote ++ ToString lenderName
                          ++ dquote ++ ". Recorded as expense." |})
  | loan0 :: _ =>
      let newTotalPaid := num_add (Number (l_total_paid loan0)) (Number amount) in
      let newRemaining := num_sub (Number (l_remaining_balance loan0)) (Number amount) in
      let newStatus := if num_le newRemaining (Fin 0) then paid_off else active in
      let db1 := updateLoan db (l_id loan0) (JNumber newTotalPaid)
                   (JNumber (Math_max (Fin 0) newRemaining)) newStatus in
      let db2 := saveTransaction db1 {|
        userId := userId;
        amount := amount;
        currency := currency ||' JString "BDT";
        category := JString "loan_repayment";
        notes := JString ("Loan repayment to " ++ ToString (l_lender_name loan0));
        type := JString "expense";
        date := date |} in
      (db2, {| loan := Some (with_balance loan0 (JNumber newTotalPaid)
                               (JNumber (Math_max (Fin 0) newRemaining)) newStatus);
               message :=
                 match newStatus with
                 | paid_off => "Loan from " ++ ToString (l_lender_name loan0) ++ " fully paid off!"
                 | active => "Repayment recorded. Remaining: "
                             ++ toFixed2 (Math_max (Fin 0) newRemaining) ++ " "
                             ++ ToString (l_currency loan0)
                 end |})
  end.

(** *** Feedback *)

Definition saveFeedback (db : Db) (userId userName userEmail rating comment : JsValue) : Db :=
  {| transactions := transactions db;
     loans := loans db;
     feedback := (feedback db ++ [{|
       f_id := next_id db;
       f_user_id := userId;
       f_user_name := userName ||' JNull;
       f_user_email := userEmail ||' JNull;
       f_rating := rating;
       f_comment := comment ||' JNull |}])%list;
     next_id := S (next_id db) |}.

End Supabase.

(** ** server.js *)

Module Server.

Import OpenAI Supabase.

(** [req.body] of [POST /api/process], and whether a file was uploaded. *)
Record Request : Type := mkRequest {
  mode : JsValue;
  text : JsValue;
  body_userId : JsValue;
  file : bool
}.

(** What the outside world answers during one request: the calendar day,
    the transcript of the uploaded audio and the parsed chat completion
    ([None] when the service call throws). *)
Record Services : Type := mkServices {
  today : string;
  transcription : option string;
  completion : option ParsedData
}.

Inductive Response : Type :=
| BadRequest (error : string)
| ServerError (error : string)
| Reply (output : string) (data : Extracted).

Definition generateResponseMessage (data : TransactionData) : string :=
  if negb (truthy (tx_amount data)) || negb (truthy (tx_type data)) then
    "I couldn't extract the transaction details. Please provide the amount and specify if it's an expense or income."
  else
    let emoji := if strict_eq (tx_type data) (JString "expense") then "💸" else "💰" in
    let action :=
      if strict_eq (tx_type data) (JString "expense")
      then "recorded expense" else "recorded income" in
    emoji ++ " Successfully " ++ action ++ ": "
      ++ ToString (tx_currency data ||' JString "BDT") ++ " "
      ++ ToString (tx_amount data)
      ++ " for " ++ ToString (tx_category data ||' JString "other")
      ++ (if truthy (tx_notes data) then " (" ++ ToString (tx_notes data) ++ ")"
          else EmptyString)
      ++ " on " ++ ToString (tx_date data ||' JString "today").

Definition generateLoanResponseMessage (data : NewLoanData) : string :=
  let type :=
    if strict_eq (nl_loan_type data) (JString "personal")
    then "personal loan" else "bank loan" in
  let msg := "🏦 Loan recorded: " ++ ToString (nl_currency data ||' JString "BDT") ++ " "
             ++ ToString (nl_principal_amount data) ++ " " ++ type ++ " from "
             ++ ToString (nl_lender_name data) in
  let msg := if truthy (nl_interest_rate data)
             then msg ++ " at " ++ ToString (nl_interest_rate data) ++ "% interest"
             else msg in
  let msg := if truthy (nl_tenure_months data)
             then msg ++ " for " ++ ToString (nl_tenure_months data) ++ " months"
             else msg in
  msg ++ " on " ++ ToString (nl_date data ||' JString "today").

Definition generateRepaymentResponseMessage (data : RepaymentData)
    (result : RepaymentResult) : string :=
  match loan result with
  | Some l =>
      let statusMsg :=
        match l_status l with
        | paid_off => "🎉 This loan is now fully paid off!"
        | active => "Remaining balance: " ++ ToString (l_currency l) ++ " "
                    ++ toFixed2 (Number (l_remaining_balance l))
        end in
      "💰 Repayment recorded: " ++ ToString (lr_currency data ||' JString "BDT") ++ " "
        ++ ToString (lr_amount data) ++ " to " ++ ToString (lr_lender_name data)
        ++ ". " ++ statusMsg
  | None =>
      "💰 Repayment of " ++ ToString (lr_currency data ||' JString "BDT") ++ " "
        ++ ToString (lr_amount data) ++ " to " ++ ToString (lr_lender_name data)
        ++ " recorded as expense (no matching active loan found)."
  end.

(** The three branches of the handler once the extraction has returned. *)
Definition dispatch (svc : Services) (db : Db) (userId inputText : JsValue)
    (extractedData : Extracted) : Db * string :=
  match extractedData with
  | NewLoan d =>
      if truthy (nl_principal_amount d) then
        let '(db1, _) := saveLoan db userId d in
        let db2 := saveTransaction db1 {|
          userId := userId;
          amount := nl_principal_amount d;
          currency := nl_currency d ||' JString "BDT";
          category := JString "loan";
          notes := JString ("Loan from " ++ ToString (nl_lender_name d));
          type := JString "income";
          date := nl_date d ||' JString (today svc) |} in
        (db2, generateLoanResponseMessage d)
      else
        (db, "I couldn't extract the loan details. Please provide the loan amount and lender name.")
  | LoanRepayment d =>
      if truthy (lr_amount d) && truthy (lr_lender_name d) then
        let '(db1, result) :=
          recordLoanRepayment db userId (lr_lender_name d) (lr_amount d)
            (lr_date d ||' JString (today svc)) (lr_currency d ||' JString "BDT") in
        (db1, generateRepaymentResponseMessage d result)
      else
        (db, "I couldn't extract the repayment details. Please provide the amount and which loan it's for.")
  | Transaction d =>
      let db1 :=
        if truthy (tx_amount d) && truthy (tx_type d) then
          saveTransaction db {|
            userId := userId;
            amount := tx_amount d;
            currency := tx_currency d ||' JString "BDT";
            category := tx_category d ||' JString "other";
            notes := tx_notes d ||' inputText;
            type := tx_type d;
            date := tx_date d ||' JString (today svc) |}
        else db in
      (db1, generateResponseMessage d)
  end.

(** [app.post("/api/process", ...)], with store calls that succeed; the
    handler's answer to a store call that throws is in [Calls.handle]. *)
Definition process (svc : Services) (db : Db) (req : Request) : Db * Response :=
  if negb (truthy (body_userId req)) then (db, BadRequest "userId is required")
  else
    let inputText : Response + JsValue :=
      if strict_eq (mode req) (JString "voice") && file req then
        match transcription svc with
        | Some t => inr (JString t)
        | None => inl (ServerError "Failed to process request")
        end
      else if strict_eq (mode req) (JString "text") && truthy (text req) then
        inr (text req)
      else inl (BadRequest "Invalid mode or missing data") in
    match inputText with
    | inl early => (db, early)
    | inr inputText =>
        match extractExpenseData (today svc) (completion svc) inputText with
        | None => (db, ServerError "Failed to process request")
        | Some extractedData =>
            let '(db', response) := dispatch svc db (body_userId req) inputText extractedData in
            (db', Reply response extractedData)
        end
    end.

End Server.

(** ** The store interface as a transition system *)

Module Store.

Import OpenAI Supabase.

(** One constructor for each function [services/supabase.js] exports. *)
Inductive Op : Type :=
| SaveTransaction (data : NewTransaction)
| GetTransactions (userId : JsValue) (limit : nat)
| DeleteTransaction (transactionId : nat)
| GetTransactionSummary (userId startDate endDate : JsValue)
| SaveLoan (userId : JsValue) (data : NewLoanData)
| GetLoans (userId : JsValue)
| DeleteLoan (loanId : nat)
| RecordLoanRepayment (userId lenderName amount date currency : JsValue)
| SaveFeedback (userId userName userEmail rating comment : JsValue).

(** The effect of a whole call on the tables, when it succeeds and runs
    without the calls of another request in between; the three queries
    only read. *)
Definition step (db : Db) (op : Op) : Db :=
  match op with
  | SaveTransaction data => saveTransaction db data
  | GetTransactions _ _ => db
  | DeleteTransaction transactionId => deleteTransaction db transactionId
  | GetTransactionSummary _ _ _ => db
  | SaveLoan userId data => fst (saveLoan db userId data)
  | GetLoans _ => db
  | DeleteLoan loanId => deleteLoan db loanId
  | RecordLoanRepayment userId lenderName amount date currency =>
      fst (recordLoanRepayment db userId lenderName amount date currency)
  | SaveFeedback userId userName userEmail rating comment =>
      saveFeedback db userId userName userEmail rating comment
  end.

Definition run (db : Db) (ops : list Op) : Db := fold_left step ops db.

Fixpoint nodupb (l : list nat) : bool :=
  match l with
  | [] => true
  | x :: l' => negb (existsb (Nat.eqb x) l') && nodupb l'
  end.

(** [loans.id] is a primary key drawn from the counter. *)
Definition wf (db : Db) : bool :=
  nodupb (map l_id (loans db))
  && forallb (fun l => (l_id l <? next_id db)%nat) (loans db).

Definition loanById (db : Db) (loanId : nat) : option Loan :=
  find (fun l => (l_id l =? loanId)%nat) (loans db).

End Store.

(** ** Vocabulary of the specification *)

Module Spec.

Import OpenAI Supabase.

Fixpoint prefixb (p s : list ascii) : bool :=
  match p, s with
  | [], _ => true
  | _ :: _, [] => false
  | c :: p', d :: s' => Ascii.eqb c d && prefixb p' s'
  end.

Fixpoint containsb (p s : list ascii) : bool :=
  prefixb p s || match s with [] => false | _ :: s' => containsb p s' end.

(** Case-insensitive substring test. *)
Definition contains_ci (needle hay : string) : bool :=
  containsb (map lower (list_ascii_of_string needle))
            (map lower (list_ascii_of_string hay)).

(** Substring test, case-sensitive. *)
Definition contains (needle hay : string) : bool :=
  containsb (list_ascii_of_string needle) (list_ascii_of_string hay).

(** A lender name with none of the characters a [LIKE] pattern gives a
    meaning to. *)
Definition plain_char (c : ascii) : bool :=
  negb (Ascii.eqb c "%" || Ascii.eqb c "_" || Ascii.eqb c backslash || Ascii.eqb c "*").

Definition plain (name : string) : bool :=
  forallb plain_char (list_ascii_of_string name).

Definition digit_of (c : ascii) : option nat :=
  let n := nat_of_ascii c in
  if ((48 <=? n) && (n <=? 57))%nat then Some (n - 48)%nat else None.

Definition leap_year (y : nat) : bool :=
  ((y mod 4 =? 0) && negb (y mod 100 =? 0) || (y mod 400 =? 0))%nat.

Definition days_in_month (y m : nat) : nat :=
  match m with
  | 1 | 3 | 5 | 7 | 8 | 10 | 12 => 31
  | 4 | 6 | 9 | 11 => 30
  | 2 => if leap_year y then 29 else 28
  | _ => 0
  end%nat.

(** A valid calendar date in the [YYYY-MM-DD] form the ledger uses. *)
Definition isCalendarDate (v : JsValue) : bool :=
  match v with
  | JString s =>
      match list_ascii_of_string s with
      | [y1; y2; y3; y4; h1; m1; m2; h2; d1; d2] =>
          match digit_of y1, digit_of y2, digit_of y3, digit_of y4,
                digit_of m1, digit_of m2, digit_of d1, digit_of d2 with
          | Some a, Some b, Some c, Some d, Some e, Some f, Some g, Some h =>
              let y := (a * 1000 + b * 100 + c * 10 + d)%nat in
              let m := (e * 10 + f)%nat in
              let day := (g * 10 + h)%nat in
              Ascii.eqb h1 "-" && Ascii.eqb h2 "-"
              && (1 <=? day)%nat && (day <=? days_in_month y m)%nat
          | _, _, _, _, _, _, _, _ => false
          end
      | _ => false
      end
  | _ => false
  end.

Definition isNonEmptyString (v : JsValue) : bool :=
  match v with
  | JString s => negb (String.eqb s EmptyString)
  | _ => false
  end.

Definition currency_of (e : Extracted) : JsValue :=
  match e with
  | NewLoan d => nl_currency d
  | LoanRepayment d => lr_currency d
  | Transaction d => tx_currency d
  end.

Definition date_of (e : Extracted) : JsValue :=
  match e with
  | NewLoan d => nl_date d
  | LoanRepayment d => lr_date d
  | Transaction d => tx_date d
  end.

End Spec.

Import OpenAI Supabase Server Store Spec.

(** ** Sample data *)

Module Fixtures.

Definition anchor : string := "2025-11-22".

Definition base (intent amount date : JsValue) : ParsedData :=
  {| p_intent := intent;
     p_lender_name := JUndefined;
     p_loan_type := JUndefined;
     p_principal_amount := JUndefined;
     p_interest_rate := JUndefined;
     p_tenure_months := JUndefined;
     p_monthly_installment := JUndefined;
     p_amount := amount;
     p_currency := JString "BDT";
     p_category := JString "shopping";
     p_notes := JString "shopping";
     p_type := JString "expense";
     p_date := date |}.

(** The answer the prompt gives for "Spent 200 on shopping today". *)
Definition spent_200 : ParsedData :=
  base (JString "transaction") (num 200) (JString anchor).

Definition spent_abc : ParsedData :=
  base (JString "transaction") (JString "abc") (JString anchor).

Definition spent_nothing : ParsedData :=
  base JUndefined JUndefined JUndefined.

Definition spent_yesterday : ParsedData :=
  base (JString "transaction") (num 300) (JString "yesterday").

Definition repaid (lender : JsValue) : ParsedData :=
  {| p_intent := JString "loan_repayment";
     p_lender_name := lender;
     p_loan_type := JUndefined;
     p_principal_amount := JUndefined;
     p_interest_rate := JUndefined;
     p_tenure_months := JUndefined;
     p_monthly_installment := JUndefined;
     p_amount := num 2000;
     p_currency := JString "BDT";
     p_category := JUndefined;
     p_notes := JUndefined;
     p_type := JUndefined;
     p_date := JString anchor |}.

Definition answering (p : ParsedData) : Services :=
  {| today := anchor; transcription := None; completion := Some p |}.

Definition typed (words : string) : Request :=
  {| mode := JString "text";
     text := JString words;
     body_userId := JString "user-a";
     file := false |}.

Definition loan_of (id : nat) (user lender : string) (paid remaining : Z)
    (status : LoanStatus) : Loan :=
  {| l_id := id;
     l_user_id := JString user;
     l_lender_name := JString lender;
     l_loan_type := JString "bank";
     l_principal_amount := num (paid + remaining);
     l_interest_rate := num 0;
     l_tenure_months := JNull;
     l_monthly_installment := JNull;
     l_total_paid := num paid;
     l_remaining_balance := num remaining;
     l_currency := JString "BDT";
     l_status := status;
     l_start_date := JString anchor;
     l_notes := JNull;
     l_created_at := id |}.

Definition expense_of (id : nat) (user : string) (amount : Z) : TransactionRow :=
  {| t_id := id;
     t_user_id := JString user;
     t_amount := num amount;
     t_currency := JString "BDT";
     t_category := JString "food";
     t_notes := JString "lunch";
     t_type := JString "expense";
     t_date := JString anchor;
     t_created_at := id |}.

(** user-a owes BRAC Bank 50000 and has settled with Rahim; user-b has one
    loan and one expense of their own. *)
Definition ledger : Db :=
  {| transactions := [expense_of 3 "user-a" 200; expense_of 4 "user-b" 120];
     loans := [loan_of 0 "user-a" "BRAC Bank" 0 50000 active;
               loan_of 1 "user-a" "Rahim" 5000 0 paid_off;
               loan_of 2 "user-b" "City Bank" 1000 9000 active];
     feedback := [];
     next_id := 5 |}.

Definition entry (id : nat) (user : string) (amount : Z) (category type date : string)
    : TransactionRow :=
  {| t_id := id;
     t_user_id := JString user;
     t_amount := num amount;
     t_currency := JString "BDT";
     t_category := JString category;
     t_notes := JNull;
     t_type := JString type;
     t_date := JString date;
     t_created_at := id |}.

(** The same ledger later in the month: user-a has two food expenses and
    a loan received in November, and a purchase made in October. *)
Definition busy : Db :=
  {| transactions := [expense_of 3 "user-a" 200;
                      expense_of 4 "user-b" 120;
                      entry 5 "user-a" 50 "food" "expense" "2025-11-03";
                      entry 6 "user-a" 50000 "loan" "income" "2025-11-10";
                      entry 7 "user-a" 999 "shopping" "expense" "2025-10-31"];
     loans := loans ledger;
     feedback := [];
     next_id := 8 |}.

(** A repayment to "BRAC_Bank", spelt with an underscore: a name none of
    the stored lender names contains. *)
Definition underscore_repayment : Db * RepaymentResult :=
  recordLoanRepayment ledger (JString "user-a") (JString "BRAC_Bank") (num 2000)
    (JString anchor) (JString "BDT").

Definition took_loan : ParsedData :=
  {| p_intent := JString "new_loan";
     p_lender_name := JString "BRAC Bank";
     p_loan_type := JString "bank";
     p_principal_amount := num 50000;
     p_interest_rate := num 12;
     p_tenure_months := num 24;
     p_monthly_installment := JNull;
     p_amount := JUndefined;
     p_currency := JString "BDT";
     p_category := JUndefined;
     p_notes := JString "Loan from BRAC Bank";
     p_type := JUndefined;
     p_date := JString anchor |}.

Definition repaid_in_full (lender : string) : ParsedData :=
  {| p_intent := JString "loan_repayment";
     p_lender_name := JString lender;
     p_loan_type := JUndefined;
     p_principal_amount := JUndefined;
     p_interest_rate := JUndefined;
     p_tenure_months := JUndefined;
     p_monthly_installment := JUndefined;
     p_amount := num 50000;
     p_currency := JString "BDT";
     p_category := JUndefined;
     p_notes := JUndefined;
     p_type := JUndefined;
     p_date := JString anchor |}.

(** The store after user-a reported the BRAC Bank loan to an empty
    ledger. *)
Definition after_loan : Db :=
  fst (process (answering took_loan) empty (typed "I took a 50000 BDT loan from BRAC Bank")).

End Fixtures.

(** ** More of the JavaScript fragment *)

Module JsMore.

(** [a < b] on numbers: false as soon as one side is NaN *)
Definition num_lt (a b : JsNum) : bool :=
  match a, b with
  | Fin x, Fin y => x <? y
  | _, _ => false
  end.

(** [a + b]: concatenation as soon as one operand is a string, addition of
    the operands' numbers otherwise.  The sum is exact here; that of
    binary64 numbers is exact on whole numbers up to 2^53, see
    [Ledger.adds_exactly]. *)
Definition js_plus (a b : JsValue) : JsValue :=
  match a, b with
  | JString _, _ | _, JString _ => JString (ToString a ++ ToString b)
  | _, _ => JNumber (num_add (Number a) (Number b))
  end.

(** [a - b] *)
Definition js_minus (a b : JsValue) : JsValue :=
  JNumber (num_sub (Number a) (Number b)).

End JsMore.

(** ** services/supabase.js: the summary *)

Module Summary.

Import Supabase JsMore.

(** A row of [.select("amount, type, category, currency")]. *)
Record Row : Type := mkRow {
  amount : JsValue;
  type : JsValue;
  category : JsValue;
  currency : JsValue
}.

Record Totals : Type := mkTotals {
  expense : JsValue;
  income : JsValue
}.

(** [summary.byCategory]: the own properties of the object, by key.  The
    order in which the keys are enumerated is not modelled. *)
Definition ByCategory : Type := list (string * Totals).

Record Summary : Type := mkSummary {
  totalExpense : JsValue;
  totalIncome : JsValue;
  byCategory : ByCategory;
  transactions : list Row;
  balance : JsValue
}.

Fixpoint own (o : ByCategory) (key : string) : option Totals :=
  match o with
  | [] => None
  | (k, v) :: o' => if String.eqb k key then Some v else own o' key
  end.

Fixpoint put (o : ByCategory) (key : string) (v : Totals) : ByCategory :=
  match o with
  | [] => [(key, v)]
  | (k, w) :: o' => if String.eqb k key then (k, v) :: o' else (k, w) :: put o' key v
  end.

(** The properties an object literal inherits; reading one of them on
    [summary.byCategory] yields a built-in object, which is truthy. *)
Definition inherited : list string :=
  ["constructor"; "__defineGetter__"; "__defineSetter__"; "hasOwnProperty";
   "__lookupGetter__"; "__lookupSetter__"; "isPrototypeOf"; "propertyIsEnumerable";
   "toString"; "valueOf"; "__proto__"; "toLocaleString"].

Definition is_inherited (key : string) : bool := existsb (String.eqb key) inherited.

(** [.gte("date", value)] and [.lte("date", value)]; dates compare as
    text here, which is the order of the days for dates in the form
    [YYYY-MM-DD], see [Ledger.calendar_dates]. *)
Definition gte (column value : JsValue) : bool :=
  String.leb (ToString value) (ToString column).

Definition lte (column value : JsValue) : bool :=
  String.leb (ToString column) (ToString value).

(** The query of [getTransactionSummary], rows in table order. *)
Definition selected (db : Db) (userId startDate endDate : JsValue) : list Row :=
  let query := filter (fun t => eq_filter (t_user_id t) userId) (Supabase.transactions db) in
  let query := if truthy startDate
               then filter (fun t => gte (t_date t) startDate) query else query in
  let query := if truthy endDate
               then filter (fun t => lte (t_date t) endDate) query else query in
  map (fun t => {| amount := t_amount t; type := t_type t;
                   category := t_category t; currency := t_currency t |}) query.

(** The body of the [forEach] callback on the three running values.  When
    the category names an inherited property the update lands on a
    built-in object and the own properties stay as they are; the effect on
    the built-in objects is not tracked. *)
Definition visit (acc : JsValue * JsValue * ByCategory) (transaction : Row)
    : JsValue * JsValue * ByCategory :=
  let '(totalExpense, totalIncome, byCategory) := acc in
  let totalExpense :=
    if strict_eq (type transaction) (JString "expense")
    then js_plus totalExpense (amount transaction) else totalExpense in
  let totalIncome :=
    if strict_eq (type transaction) (JString "expense") then totalIncome
    else if strict_eq (type transaction) (JString "income")
    then js_plus totalIncome (amount transaction) else totalIncome in
  let key := ToString (category transaction) in
  let byCategory :=
    match own byCategory key with
    | Some _ => byCategory
    | None => if is_inherited key then byCategory
              else put byCategory key {| expense := num 0; income := num 0 |}
    end in
  let byCategory :=
    match own byCategory key with
    | Some t =>
        if strict_eq (type transaction) (JString "expense")
        then put byCategory key {| expense := js_plus (expense t) (amount transaction);
                                   income := income t |}
        else put byCategory key {| expense := expense t;
                                   income := js_plus (income t) (amount transaction) |}
    | None => byCategory
    end in
  (totalExpense, totalIncome, byCategory).

Definition getTransactionSummary (db : Db) (userId startDate endDate : JsValue) : Summary :=
  let data := selected db userId startDate endDate in
  let '(totalExpense, totalIncome, byCategory) :=
    fold_left visit data (num 0, num 0, []) in
  {| totalExpense := totalExpense;
     totalIncome := totalIncome;
     byCategory := byCategory;
     transactions := data;
     balance := js_minus totalIncome totalExpense |}.

End Summary.

(** ** server.js: the feedback route and the listings *)

Module Routes.

Import Supabase JsMore.

(** [req.body] of [POST /api/feedback] *)
Record FeedbackBody : Type := mkFeedbackBody {
  userId : JsValue;
  userName : JsValue;
  userEmail : JsValue;
  rating : JsValue;
  comment : JsValue
}.

Inductive FeedbackResponse : Type :=
| Rejected (error : string)
| Submitted (message : string).

(** [app.post("/api/feedback", ...)] *)
Definition feedback (db : Db) (body : FeedbackBody) : Db * FeedbackResponse :=
  if negb (truthy (userId body)) then (db, Rejected "userId is required")
  else if negb (truthy (rating body))
          || num_lt (Number (rating body)) (Fin 100)
          || num_lt (Fin 500) (Number (rating body))
  then (db, Rejected "rating must be between 1 and 5")
  else (saveFeedback db (userId body) (userName body) (userEmail body)
          (rating body) (comment body),
        Submitted "Feedback submitted successfully").

(** [app.get("/api/transactions/:userId", ...)]: the listing with the
    default limit. *)
Definition listTransactions (db : Db) (userId : JsValue) : list TransactionRow :=
  getTransactions db userId 100.

End Routes.

(** ** The first revision of the service *)

Module V1.

Import OpenAI Supabase Server.

(** [extractExpenseData] before intents were introduced. *)
Definition extractExpenseData (today : string) (completion : option ParsedData)
    (text : JsValue) : option TransactionData :=
  match completion with
  | None => None
  | Some parsedData =>
      Some {|
        tx_amount := p_amount parsedData ||' num 0;
        tx_currency := p_currency parsedData ||' JString "BDT";
        tx_category := p_category parsedData ||' JString "other";
        tx_notes := p_notes parsedData ||' text;
        tx_type :=
          if strict_eq (p_type parsedData) (JString "income")
          then JString "income" else JString "expense";
        tx_date := p_date parsedData ||' JString today |}
  end.

Inductive Response : Type :=
| BadRequest (error : string)
| ServerError (error : string)
| Reply (output : string) (data : TransactionData).

(** [generateResponseMessage] of the first [server.js]; the two emoji
    literals are the bytes that revision holds. *)
Definition generateResponseMessage (data : TransactionData) : string :=
  if negb (truthy (tx_amount data)) || negb (truthy (tx_type data)) then
    "I couldn't extract the transaction details. Please provide the amount and specify if it's an expense or income."
  else
    let emoji := if strict_eq (tx_type data) (JString "expense") then "ðŸ’¸" else "ðŸ’°" in
    let action :=
      if strict_eq (tx_type data) (JString "expense")
      then "recorded expense" else "recorded income" in
    emoji ++ " Successfully " ++ action ++ ": "
      ++ ToString (tx_currency data ||' JString "BDT") ++ " "
      ++ ToString (tx_amount data)
      ++ " for " ++ ToString (tx_category data ||' JString "other")
      ++ (if truthy (tx_notes data) then " (" ++ ToString (tx_notes data) ++ ")"
          else EmptyString)
      ++ " on " ++ ToString (tx_date data ||' JString "today").

(** [app.post("/api/process", ...)] of the first [server.js] *)
Definition process (svc : Services) (db : Db) (req : Request) : Db * Response :=
  if negb (truthy (body_userId req)) then (db, BadRequest "userId is required")
  else
    let inputText : Response + JsValue :=
      if strict_eq (mode req) (JString "voice") && file req then
        match transcription svc with
        | Some t => inr (JString t)
        | None => inl (ServerError "Failed to process request")
        end
      else if strict_eq (mode req) (JString "text") && truthy (text req) then
        inr (text req)
      else inl (BadRequest "Invalid mode or missing data") in
    match inputText with
    | inl early => (db, early)
    | inr inputText =>
        match extractExpenseData (today svc) (completion svc) inputText with
        | None => (db, ServerError "Failed to process request")
        | Some expenseData =>
            let db1 :=
              if truthy (tx_amount expenseData) && truthy (tx_type expenseData) then
                saveTransaction db {|
                  userId := body_userId req;
                  amount := tx_amount expenseData;
                  currency := tx_currency expenseData ||' JString "BDT";
                  category := tx_category expenseData ||' JString "other";
                  notes := tx_notes expenseData ||' inputText;
                  type := tx_type expenseData;
                  date := tx_date expenseData ||' JString (today svc) |}
              else db in
            (db1, Reply (generateResponseMessage expenseData) expenseData)
        end
    end.

End V1.

(** ** More vocabulary *)

Module Ledger.

Import OpenAI Supabase Store.

(** Row ids of the transactions table are a primary key drawn from the
    counter, like those of the loans table. *)
Definition wf_transactions (db : Db) : bool :=
  nodupb (map t_id (Supabase.transactions db))
  && forallb (fun t => (t_id t <? next_id db)%nat) (Supabase.transactions db).

(** The sum of the amounts of the rows of one type, in hundredths; a row
    whose amount is no finite number counts for nothing. *)
Definition finite (v : JsValue) : option Z :=
  match v with
  | JNumber (Fin c) => Some c
  | _ => None
  end.

Fixpoint total (kind : string) (rows : list Summary.Row) : Z :=
  match rows with
  | [] => 0
  | r :: rows' =>
      (if strict_eq (Summary.type r) (JString kind)
       then match finite (Summary.amount r) with Some c => c | None => 0 end
       else 0) + total kind rows'
  end.

Definition all_finite (rows : list Summary.Row) : bool :=
  forallb (fun r => match finite (Summary.amount r) with Some _ => true | None => false end)
    rows.

Definition has_category (key : string) (rows : list Summary.Row) : bool :=
  existsb (fun r => String.eqb (ToString (Summary.category r)) key) rows.

(** The sum of the amounts of the rows of one category that are expenses
    ([of_expense]) or are not, in hundredths. *)
Fixpoint category_total (of_expense : bool) (key : string) (rows : list Summary.Row) : Z :=
  match rows with
  | [] => 0
  | r :: rows' =>
      (if String.eqb (ToString (Summary.category r)) key
          && Bool.eqb (strict_eq (Summary.type r) (JString "expense")) of_expense
       then match finite (Summary.amount r) with Some c => c | None => 0 end
       else 0) + category_total of_expense key rows'
  end.

(** JavaScript adds binary64 numbers: the sum of whole numbers is exact as
    long as no sum exceeds 2^53 in absolute value.  The rows add exactly
    when their amounts are whole numbers whose absolute values add up to
    no more than that (amounts are in hundredths here). *)
Definition whole (v : JsValue) : bool :=
  match v with
  | JNumber (Fin c) => c mod 100 =? 0
  | _ => false
  end.

Fixpoint magnitude (rows : list Summary.Row) : Z :=
  match rows with
  | [] => 0
  | r :: rows' =>
      match finite (Summary.amount r) with Some c => Z.abs c | None => 0 end
      + magnitude rows'
  end.

Definition adds_exactly (rows : list Summary.Row) : bool :=
  forallb (fun r => whole (Summary.amount r)) rows
  && (magnitude rows <=? 100 * 2 ^ 53).

(** The [DATE] column gives dates back as [YYYY-MM-DD].  The dates of the
    user's rows are in that form, and so is each bound of the range that
    is given. *)
Definition calendar_dates (db : Db) (userId startDate endDate : JsValue) : bool :=
  forallb (fun t => negb (eq_filter (t_user_id t) userId) || Spec.isCalendarDate (t_date t))
    (Supabase.transactions db)
  && (negb (truthy startDate) || Spec.isCalendarDate startDate)
  && (negb (truthy endDate) || Spec.isCalendarDate endDate).

(** The day a date in that form names, as the number yyyymmdd. *)
Definition day_number (v : JsValue) : Z :=
  match v with
  | JString s =>
      match list_ascii_of_string s with
      | [y1; y2; y3; y4; _; m1; m2; _; d1; d2] =>
          match Spec.digit_of y1, Spec.digit_of y2, Spec.digit_of y3, Spec.digit_of y4,
                Spec.digit_of m1, Spec.digit_of m2, Spec.digit_of d1, Spec.digit_of d2 with
          | Some a, Some b, Some c, Some d, Some e, Some f, Some g, Some h =>
              Z.of_nat a * 10000000 + Z.of_nat b * 1000000 + Z.of_nat c * 100000
              + Z.of_nat d * 10000 + Z.of_nat e * 1000 + Z.of_nat f * 100
              + Z.of_nat g * 10 + Z.of_nat h
          | _, _, _, _, _, _, _, _ => 0
          end
      | _ => 0
      end
  | _ => 0
  end.

(** The day of [date] is not before that of [startDate] and not after
    that of [endDate], for each bound that is given. *)
Definition within (startDate endDate date : JsValue) : bool :=
  (negb (truthy startDate) || (day_number startDate <=? day_number date))
  && (negb (truthy endDate) || (day_number date <=? day_number endDate)).

(** The user's rows dated within the range, as the summary reads them. *)
Definition dated_rows (db : Db) (userId startDate endDate : JsValue) : list Summary.Row :=
  map (fun t => {| Summary.amount := t_amount t; Summary.type := t_type t;
                   Summary.category := t_category t; Summary.currency := t_currency t |})
    (filter (fun t => eq_filter (t_user_id t) userId
                      && within startDate endDate (t_date t))
       (Supabase.transactions db)).

(** The normalised record read back as a completion. *)
Definition as_completion (e : Extracted) : ParsedData :=
  match e with
  | NewLoan d =>
      {| p_intent := JString "new_loan";
         p_lender_name := nl_lender_name d;
         p_loan_type := nl_loan_type d;
         p_principal_amount := nl_principal_amount d;
         p_interest_rate := nl_interest_rate d;
         p_tenure_months := nl_tenure_months d;
         p_monthly_installment := nl_monthly_installment d;
         p_amount := JUndefined;
         p_currency := nl_currency d;
         p_category := JUndefined;
         p_notes := nl_notes d;
         p_type := JUndefined;
         p_date := nl_date d |}
  | LoanRepayment d =>
      {| p_intent := JString "loan_repayment";
         p_lender_name := lr_lender_name d;
         p_loan_type := JUndefined;
         p_principal_amount := JUndefined;
         p_interest_rate := JUndefined;
         p_tenure_months := JUndefined;
         p_monthly_installment := JUndefined;
         p_amount := lr_amount d;
         p_currency := lr_currency d;
         p_category := JUndefined;
         p_notes := lr_notes d;
         p_type := JUndefined;
         p_date := lr_date d |}
  | Transaction d =>
      {| p_intent := JString "transaction";
         p_lender_name := JUndefined;
         p_loan_type := JUndefined;
         p_principal_amount := JUndefined;
         p_interest_rate := JUndefined;
         p_tenure_months := JUndefined;
         p_monthly_installment := JUndefined;
         p_amount := tx_amount d;
         p_currency := tx_currency d;
         p_category := tx_category d;
         p_notes := tx_notes d;
         p_type := tx_type d;
         p_date := tx_date d |}
  end.

End Ledger.

(** ** Amounts finer than a hundredth *)

Module Decimal.

Import Supabase.

(** [Js.JsNum] holds whole hundredths, the scale of the [NUMERIC(15,2)]
    columns, but the amount of a repayment comes from a JSON document and
    can be finer.  Here are lines 178-180 and 187 of [recordLoanRepayment]
    on rational numbers, and what the columns keep of the values the update
    sends.  The numbers are exact; the rounding of binary64 arithmetic,
    far below a hundredth, is not modelled. *)

Definition newTotalPaid (total_paid amount : Q) : Q := (total_paid + amount)%Q.

Definition newRemaining (remaining_balance amount : Q) : Q :=
  (remaining_balance - amount)%Q.

(** [newRemaining <= 0 ? "paid_off" : "active"] *)
Definition newStatus (newRemaining : Q) : LoanStatus :=
  if Qle_bool newRemaining 0 then paid_off else active.

(** [Math.max(0, newRemaining)] *)
Definition Math_max_0 (newRemaining : Q) : Q :=
  if Qle_bool newRemaining 0 then 0%Q else newRemaining.

(** What a [NUMERIC(15,2)] column keeps of a number, in hundredths: the
    nearest hundredth, a tie going away from zero. *)
Definition numeric_15_2 (q : Q) : Z :=
  let n := Qnum q in
  let d := Zpos (Qden q) in
  if 0 <=? n then (200 * n + d) / (2 * d) else - ((200 * - n + d) / (2 * d)).

(** The three columns of the loan row after the update of lines 183-190,
    amounts in hundredths. *)
Record Columns : Type := mkColumns {
  total_paid : Z;
  remaining_balance : Z;
  status : LoanStatus
}.

Definition update (total_paid remaining_balance amount : Q) : Columns :=
  {| total_paid := numeric_15_2 (newTotalPaid total_paid amount);
     remaining_balance := numeric_15_2 (Math_max_0 (newRemaining remaining_balance amount));
     status := newStatus (newRemaining remaining_balance amount) |}.

(** A number of whole hundredths. *)
Definition hundredths (c : Z) : Q := Qmake c 100.

End Decimal.

(** ** Store calls, one at a time *)

Module Calls.

Import OpenAI Supabase Server Store.

(** [recordLoanRepayment] awaits three calls of the database (the select of
    lines 154-159, the update of lines 183-190, the insert of
    [saveTransaction]) and the new-loan branch of the handler awaits
    [saveLoan] and then [saveTransaction]; every other exported function
    awaits one call.  While a function awaits, the calls of other requests
    are served, and a call can answer with an error, which the function
    throws.  [Pending] is a function in progress: the call it is about to
    make, with what it has read so far. *)
Inductive Pending : Type :=
| Select (userId lenderName amount date currency : JsValue)
| Update (loan0 : Loan) (userId amount date currency : JsValue)
| InsertTransaction (data : NewTransaction)
| InsertLoan (userId : JsValue) (data : NewLoanData) (next : option NewTransaction)
| Query
| DeleteTransactionRow (transactionId : nat)
| DeleteLoanRow (loanId : nat)
| InsertFeedback (userId userName userEmail rating comment : JsValue)
| Returned
| Thrown.

(** What starts a function: a call of an exported function, or the
    new-loan branch of the handler, [saveLoan] followed by the
    [saveTransaction] of the money received. *)
Inductive Task : Type :=
| Invoke (op : Op)
| Originate (userId : JsValue) (data : NewLoanData) (today : string).

Definition first_call (t : Task) : Pending :=
  match t with
  | Invoke (SaveTransaction data) => InsertTransaction data
  | Invoke (GetTransactions _ _) => Query
  | Invoke (DeleteTransaction transactionId) => DeleteTransactionRow transactionId
  | Invoke (GetTransactionSummary _ _ _) => Query
  | Invoke (SaveLoan userId data) => InsertLoan userId data None
  | Invoke (GetLoans _) => Query
  | Invoke (DeleteLoan loanId) => DeleteLoanRow loanId
  | Invoke (RecordLoanRepayment userId lenderName amount date currency) =>
      Select userId lenderName amount date currency
  | Invoke (SaveFeedback userId userName userEmail rating comment) =>
      InsertFeedback userId userName userEmail rating comment
  | Originate userId data today =>
      InsertLoan userId data
        (Some {| userId := userId;
                 amount := nl_principal_amount data;
                 currency := nl_currency data ||' JString "BDT";
                 category := JString "loan";
                 notes := JString ("Loan from " ++ ToString (nl_lender_name data));
                 type := JString "income";
                 date := nl_date data ||' JString today |})
  end.

(** The pending call succeeds.  The update is computed from [loan0], the
    row as the select returned it, and is addressed by its id alone. *)
Definition perform (db : Db) (p : Pending) : Db * Pending :=
  match p with
  | Select userId lenderName amount date currency =>
      match activeLoansMatching db userId lenderName with
      | [] =>
          (db, InsertTransaction {|
                 userId := userId;
                 amount := amount;
                 currency := currency ||' JString "BDT";
                 category := JString "loan_repayment";
                 notes := JString ("Loan repayment to " ++ ToString lenderName
                                   ++ " (no matching loan found)");
                 type := JString "expense";
                 date := date |})
      | loan0 :: _ => (db, Update loan0 userId amount date currency)
      end
  | Update loan0 userId amount date currency =>
      let newTotalPaid := num_add (Number (l_total_paid loan0)) (Number amount) in
      let newRemaining := num_sub (Number (l_remaining_balance loan0)) (Number amount) in
      let newStatus := if num_le newRemaining (Fin 0) then paid_off else active in
      (updateLoan db (l_id loan0) (JNumber newTotalPaid)
         (JNumber (Math_max (Fin 0) newRemaining)) newStatus,
       InsertTransaction {|
         userId := userId;
         amount := amount;
         currency := currency ||' JString "BDT";
         category := JString "loan_repayment";
         notes := JString ("Loan repayment to " ++ ToString (l_lender_name loan0));
         type := JString "expense";
         date := date |})
  | InsertTransaction data => (saveTransaction db data, Returned)
  | InsertLoan userId data next =>
      (fst (saveLoan db userId data),
       match next with
       | Some income => InsertTransaction income
       | None => Returned
       end)
  | Query => (db, Returned)
  | DeleteTransactionRow transactionId => (deleteTransaction db transactionId, Returned)
  | DeleteLoanRow loanId => (deleteLoan db loanId, Returned)
  | InsertFeedback userId userName userEmail rating comment =>
      (saveFeedback db userId userName userEmail rating comment, Returned)
  | Returned => (db, Returned)
  | Thrown => (db, Thrown)
  end.

(** The pending call answers with an error: nothing is written and the
    function throws. *)
Definition throw (p : Pending) : Pending :=
  match p with
  | Returned => Returned
  | _ => Thrown
  end.

Definition advance (ok : bool) (db : Db) (p : Pending) : Db * Pending :=
  if ok then perform db p else (db, throw p).

(** *** One function on its own *)

(** [oks] tells, call by call, whether the call succeeds; a missing entry
    is a success. *)
Fixpoint alone (calls : nat) (oks : list bool) (db : Db) (p : Pending) : Db * Pending :=
  match calls with
  | O => (db, p)
  | S calls' =>
      let '(db', p') := advance (hd true oks) db p in
      alone calls' (tl oks) db' p'
  end.

(** No function makes more than three calls. *)
Definition finish (oks : list bool) (db : Db) (p : Pending) : Db * Pending :=
  alone 3 oks db p.

(** How a function run on its own can end, against what it writes when
    every call succeeds: it returns having written all of it, or it throws
    having added no row and no feedback, with the loans either untouched
    or already written. *)
Definition ends (db : Db) (whole : Db) (f : Db * Pending) : Prop :=
  snd f = Returned /\ fst f = whole
  \/ snd f = Thrown
     /\ transactions (fst f) = transactions db
     /\ feedback (fst f) = feedback db
     /\ (loans (fst f) = loans db \/ loans (fst f) = loans whole).

(** *** The handler with a store that can fail *)

(** What the handler asks of the store once the extraction has returned,
    if anything: the three branches of [Server.dispatch]. *)
Definition task (svc : Services) (userId inputText : JsValue) (extractedData : Extracted)
    : option Task :=
  match extractedData with
  | NewLoan d =>
      if truthy (nl_principal_amount d) then Some (Originate userId d (today svc))
      else None
  | LoanRepayment d =>
      if truthy (lr_amount d) && truthy (lr_lender_name d) then
        Some (Invoke (RecordLoanRepayment userId (lr_lender_name d) (lr_amount d)
                        (lr_date d ||' JString (today svc))
                        (lr_currency d ||' JString "BDT")))
      else None
  | Transaction d =>
      if truthy (tx_amount d) && truthy (tx_type d) then
        Some (Invoke (SaveTransaction {|
                        userId := userId;
                        amount := tx_amount d;
                        currency := tx_currency d ||' JString "BDT";
                        category := tx_category d ||' JString "other";
                        notes := tx_notes d ||' inputText;
                        type := tx_type d;
                        date := tx_date d ||' JString (today svc) |}))
      else None
  end.

(** [app.post("/api/process", ...)]: as [Server.process], but a store call
    that throws is caught by the handler's [catch], which answers 500 and
    undoes nothing. *)
Definition handle (svc : Services) (oks : list bool) (db : Db) (req : Request)
    : Db * Response :=
  if negb (truthy (body_userId req)) then (db, BadRequest "userId is required")
  else
    let inputText : Response + JsValue :=
      if strict_eq (mode req) (JString "voice") && file req then
        match transcription svc with
        | Some t => inr (JString t)
        | None => inl (ServerError "Failed to process request")
        end
      else if strict_eq (mode req) (JString "text") && truthy (text req) then
        inr (text req)
      else inl (BadRequest "Invalid mode or missing data") in
    match inputText with
    | inl early => (db, early)
    | inr inputText =>
        match extractExpenseData (today svc) (completion svc) inputText with
        | None => (db, ServerError "Failed to process request")
        | Some extractedData =>
            let response :=
              snd (dispatch svc db (body_userId req) inputText extractedData) in
            match task svc (body_userId req) inputText extractedData with
            | None => (db, Reply response extractedData)
            | Some t =>
                let '(db', p) := finish oks db (first_call t) in
                match p with
                | Thrown => (db', ServerError "Failed to process request")
                | _ => (db', Reply response extractedData)
                end
            end
        end
    end.

(** [app.post("/api/feedback", ...)]: as [Routes.feedback], but the insert
    can fail, which the route's [catch] answers with 500. *)
Inductive FeedbackAnswer : Type :=
| Answered (response : Routes.FeedbackResponse)
| Failed (error : string).

Definition feedbackRoute (ok : bool) (db : Db) (body : Routes.FeedbackBody)
    : Db * FeedbackAnswer :=
  if negb (truthy (Routes.userId body))
  then (db, Answered (Routes.Rejected "userId is required"))
  else if negb (truthy (Routes.rating body))
          || JsMore.num_lt (Number (Routes.rating body)) (Fin 100)
          || JsMore.num_lt (Fin 500) (Number (Routes.rating body))
  then (db, Answered (Routes.Rejected "rating must be between 1 and 5"))
  else
    let '(db', p) :=
      advance ok db (InsertFeedback (Routes.userId body) (Routes.userName body)
                       (Routes.userEmail body) (Routes.rating body)
                       (Routes.comment body)) in
    match p with
    | Thrown => (db', Failed "Failed to save feedback")
    | _ => (db', Answered (Routes.Submitted "Feedback submitted successfully"))
    end.

(** *** Functions in progress side by side *)

Record System : Type := mkSystem {
  store : Db;
  in_flight : list Pending
}.

(** A function is started, or the [i]-th function in progress gets the
    answer to its pending call. *)
Inductive Event : Type :=
| Start (t : Task)
| Answer (i : nat) (ok : bool).

Fixpoint put {A : Type} (i : nat) (x : A) (l : list A) : list A :=
  match l, i with
  | [], _ => []
  | _ :: l', O => x :: l'
  | y :: l', S i' => y :: put i' x l'
  end.

Definition react (s : System) (e : Event) : System :=
  match e with
  | Start t => {| store := store s; in_flight := (in_flight s ++ [first_call t])%list |}
  | Answer i ok =>
      match nth_error (in_flight s) i with
      | Some p =>
          let '(db', p') := advance ok (store s) p in
          {| store := db'; in_flight := put i p' (in_flight s) |}
      | None => s
      end
  end.

Definition play (s : System) (events : list Event) : System := fold_left react events s.

(** Whole calls one after another: each function is started and gets its
    three answers before the next one starts; [n] functions have been
    started before. *)
Fixpoint one_by_one (n : nat) (ops : list Op) : list Event :=
  match ops with
  | [] => []
  | op :: ops' =>
      Start (Invoke op) :: Answer n true :: Answer n true :: Answer n true
      :: one_by_one (S n) ops'
  end.

(** The function in progress is about to write the update of the loan
    with this id. *)
Definition updates (loanId : nat) (p : Pending) : bool :=
  match p with
  | Update loan0 _ _ _ _ => (l_id loan0 =? loanId)%nat
  | _ => false
  end.

(** The function in progress is about to delete the loan with this id. *)
Definition deletes (loanId : nat) (p : Pending) : bool :=
  match p with
  | DeleteLoanRow id => (id =? loanId)%nat
  | _ => false
  end.

Definition starts_delete (loanId : nat) (e : Event) : bool :=
  match e with
  | Start (Invoke (DeleteLoan id)) => (id =? loanId)%nat
  | _ => false
  end.

(** Every row carrying the id of [l] is [l] itself, the id has been handed
    out, and no function in progress is about to write an update of [l]. *)
Definition settled (l : Loan) (s : System) : Prop :=
  (forall l', In l' (loans (store s)) -> l_id l' = l_id l -> l' = l)
  /\ (l_id l < next_id (store s))%nat
  /\ existsb (updates (l_id l)) (in_flight s) = false.

End Calls.

(** ** Overlapping repayments *)

Module Overlap.

Import Calls.

Definition at_rest : System := {| store := Fixtures.ledger; in_flight := [] |}.

Definition repayment (lender : string) (units : Z) : Task :=
  Invoke (RecordLoanRepayment (JString "user-a") (JString lender) (num units)
            (JString Fixtures.anchor) (JString "BDT")).

(** An instalment and a payoff of the same loan are started; both selects
    are answered before either update is sent. *)
Definition both_read : list Event :=
  [Start (repayment "brac" 2000); Start (repayment "BRAC Bank" 50000);
   Answer 0 true; Answer 1 true].

Definition payoff_written : list Event := (both_read ++ [Answer 1 true])%list.

Definition stale_written : list Event := (payoff_written ++ [Answer 0 true])%list.

(** Two repayments whose lender names are both contained in the name of
    the paid-off loan, "a" also in that of the active one: their calls
    interleave and the insert of the second fails. *)
Definition rahim_again : list Event :=
  [Start (repayment "a" 100); Start (repayment "rahim" 200);
   Answer 1 true; Answer 0 true; Answer 0 true; Answer 1 false; Answer 0 true].

End Overlap.

(** * Properties *)

(** ** JavaScript values *)

Section JsFacts.

Lemma or_truthy (a b : JsValue) : truthy a = true -> a ||' b = a.
Proof. unfold js_or. now intros ->. Qed.

Lemma or_falsy (a b : JsValue) : truthy a = false -> a ||' b = b.
Proof. unfold js_or. now intros ->. Qed.

Lemma truthy_or (a b : JsValue) : truthy (a ||' b) = truthy a || truthy b.
Proof. unfold js_or. destruct (truthy a) eqn:E; simpl; auto. Qed.

Lemma truthy_or_default (a b : JsValue) : truthy b = true -> truthy (a ||' b) = true.
Proof. intros H. rewrite truthy_or, H. apply orb_true_r. Qed.

(** The values [||] replaces by its right operand. *)
Lemma falsy_values (v : JsValue) :
  truthy v = false <->
  v = JUndefined \/ v = JNull \/ v = JBool false \/ v = JNumber NaN
  \/ v = JNumber (Fin 0) \/ v = JString EmptyString.
Proof.
  split.
  - destruct v as [| |[|]|[|c]|s]; simpl; intros H; try discriminate; auto 6.
    + apply negb_false_iff, Z.eqb_eq in H. subst. auto 6.
    + apply negb_false_iff, String.eqb_eq in H. subst. auto 7.
  - intros [->|[->|[->|[->|[->| ->]]]]]; reflexivity.
Qed.

Lemma strict_eq_string (v : JsValue) (s : string) :
  strict_eq v (JString s) = true <-> v = JString s.
Proof.
  destruct v as [| |b|[|c]|t]; simpl; split; intros H; try discriminate; auto.
  - apply String.eqb_eq in H. now subst.
  - injection H as ->. apply String.eqb_refl.
Qed.

Lemma strict_eq_string_false (v : JsValue) (s : string) :
  strict_eq v (JString s) = false <-> v <> JString s.
Proof.
  rewrite <- strict_eq_string. destruct (strict_eq v (JString s)); split; congruence.
Qed.

Lemma or_non_empty_string (v : JsValue) (d : string) :
  isNonEmptyString (JString d) = true ->
  (v = JUndefined \/ exists s, v = JString s) ->
  isNonEmptyString (v ||' JString d) = true.
Proof.
  intros Hd [->|[s ->]]; [exact Hd|].
  unfold js_or. simpl. destruct (String.eqb s EmptyString) eqn:E; simpl; [exact Hd|now rewrite E].
Qed.

Lemma append_assoc (a b c : string) : (a ++ b) ++ c = a ++ (b ++ c).
Proof. induction a as [|x a IH]; simpl; [reflexivity|now rewrite IH]. Qed.

Lemma list_ascii_of_string_app (a b : string) :
  list_ascii_of_string (a ++ b) = (list_ascii_of_string a ++ list_ascii_of_string b)%list.
Proof. induction a as [|x a IH]; simpl; [reflexivity|now rewrite IH]. Qed.

Lemma ToString_or (v : JsValue) (s : string) :
  ToString (v ||' JString s) = if truthy v then ToString v else s.
Proof. unfold js_or. now destruct (truthy v). Qed.

End JsFacts.

(** ** Extraction defaults *)

Section ExtractionFacts.

Variable today : string.
Variable text : JsValue.

(** The discriminator the three-way branch of [extractExpenseData] sees. *)
Lemma extract_new_loan (p : ParsedData) :
  p_intent p = JString "new_loan" ->
  exists d, extractExpenseData today (Some p) text = Some (NewLoan d).
Proof. intros H. unfold extractExpenseData. rewrite H. simpl. eauto. Qed.

Lemma extract_loan_repayment (p : ParsedData) :
  p_intent p = JString "loan_repayment" ->
  extractExpenseData today (Some p) text =
  Some (LoanRepayment {|
    lr_lender_name := p_lender_name p ||' JString "Unknown";
    lr_amount := p_amount p ||' num 0;
    lr_currency := p_currency p ||' JString "BDT";
    lr_date := p_date p ||' JString today;
    lr_notes := p_notes p ||' text |}).
Proof. intros H. unfold extractExpenseData. rewrite H. reflexivity. Qed.

Lemma intent_default_other (v : JsValue) (s : string) :
  v <> JString s -> s <> "transaction" ->
  strict_eq (v ||' JString "transaction") (JString s) = false.
Proof.
  intros Hv Hs. apply strict_eq_string_false. unfold js_or.
  destruct (truthy v); [exact Hv|]. intros E. injection E as E. now symmetry in E.
Qed.

Lemma extract_transaction (p : ParsedData) :
  p_intent p <> JString "new_loan" ->
  p_intent p <> JString "loan_repayment" ->
  extractExpenseData today (Some p) text =
  Some (Transaction {|
    tx_amount := p_amount p ||' num 0;
    tx_currency := p_currency p ||' JString "BDT";
    tx_category := p_category p ||' JString "other";
    tx_notes := p_notes p ||' text;
    tx_type := if strict_eq (p_type p) (JString "income")
               then JString "income" else JString "expense";
    tx_date := p_date p ||' JString today |}).
Proof.
  intros H1 H2. unfold extractExpenseData.
  rewrite (intent_default_other _ _ H1), (intent_default_other _ _ H2) by discriminate.
  reflexivity.
Qed.

Lemma extract_total (p : ParsedData) :
  exists e, extractExpenseData today (Some p) text = Some e
            /\ currency_of e = p_currency p ||' JString "BDT"
            /\ date_of e = p_date p ||' JString today.
Proof.
  unfold extractExpenseData.
  destruct (strict_eq _ (JString "new_loan")); [eexists; repeat split|].
  destruct (strict_eq _ (JString "loan_repayment")); eexists; repeat split.
Qed.

End ExtractionFacts.

(** ** The handler *)

Section HandlerFacts.

Variable svc : Services.
Variable db : Db.

(** A request either stops before the extraction or replies with what
    [dispatch] computed. *)
Lemma process_cases (req : Request) :
  (exists r, process svc db req = (db, r))
  \/ exists inputText e,
       extractExpenseData (today svc) (completion svc) inputText = Some e
       /\ process svc db req =
          (fst (dispatch svc db (body_userId req) inputText e),
           Reply (snd (dispatch svc db (body_userId req) inputText e)) e).
Proof.
  unfold process.
  destruct (negb (truthy (body_userId req))); [left; eauto|].
  match goal with |- context [match ?x with inl _ => _ | inr _ => _ end] =>
    destruct x as [early|inputText] end; [left; eauto|].
  destruct (extractExpenseData _ _ inputText) as [e|] eqn:E; [|left; eauto].
  right. exists inputText, e. split; [exact E|].
  destruct (dispatch _ _ _ _ _); reflexivity.
Qed.

Lemma process_text (req : Request) (e : Extracted) :
  truthy (body_userId req) = true ->
  mode req = JString "text" ->
  truthy (text req) = true ->
  extractExpenseData (today svc) (completion svc) (text req) = Some e ->
  process svc db req =
  (fst (dispatch svc db (body_userId req) (text req) e),
   Reply (snd (dispatch svc db (body_userId req) (text req) e)) e).
Proof.
  intros Hu Hm Ht He. unfold process. rewrite Hu, Hm, Ht. simpl. rewrite He.
  destruct (dispatch _ _ _ _ _); reflexivity.
Qed.

Lemma dispatch_transaction_loans (userId inputText : JsValue) (d : TransactionData) :
  loans (fst (dispatch svc db userId inputText (Transaction d))) = loans db.
Proof. simpl. destruct (truthy (tx_amount d) && truthy (tx_type d)); reflexivity. Qed.

Lemma dispatch_no_amount (userId inputText : JsValue) (d : TransactionData) :
  truthy (tx_amount d) = false ->
  fst (dispatch svc db userId inputText (Transaction d)) = db.
Proof. intros H. simpl. now rewrite H. Qed.

End HandlerFacts.

(** ** Store calls that fail *)

Section FailingCalls.

Import Calls.

Lemma alone_returned (n : nat) (oks : list bool) (db : Db) :
  alone n oks db Returned = (db, Returned).
Proof.
  revert oks. induction n as [|n IH]; intros oks; [reflexivity|].
  cbn [alone]. unfold advance. destruct (hd true oks); cbn; apply IH.
Qed.

Lemma alone_thrown (n : nat) (oks : list bool) (db : Db) :
  alone n oks db Thrown = (db, Thrown).
Proof.
  revert oks. induction n as [|n IH]; intros oks; [reflexivity|].
  cbn [alone]. unfold advance. destruct (hd true oks); cbn; apply IH.
Qed.

Ltac by_outcomes oks :=
  let o1 := fresh "o" in let o2 := fresh "o" in let o3 := fresh "o" in
  unfold finish;
  destruct oks as [|o1 [|o2 [|o3 oks]]];
  try destruct o1; try destruct o2; try destruct o3;
  cbn [alone hd tl advance perform throw].

Lemma finish_select (db : Db) (userId lenderName amount date currency : JsValue)
    (oks : list bool) :
  ends db (fst (recordLoanRepayment db userId lenderName amount date currency))
    (finish oks db (Select userId lenderName amount date currency)).
Proof.
  unfold ends, recordLoanRepayment.
  by_outcomes oks;
    destruct (activeLoansMatching db userId lenderName) as [|c rest];
    cbn [alone hd tl advance perform throw fst snd];
    try (left; split; reflexivity);
    right; (split; [reflexivity|]); cbn; auto.
Qed.



(** With calls that succeed, every exported function run on its own
    writes what the whole call writes. *)
Lemma finish_invoke (db : Db) (op : Op) :
  finish [] db (first_call (Invoke op)) = (step db op, Returned).
Proof.
  destruct op; cbn [first_call step]; try reflexivity.
  unfold finish, recordLoanRepayment. cbn [alone hd tl advance perform].
  destruct (activeLoansMatching _ _ _); reflexivity.
Qed.


(** The handler either stops before the extraction, as [process] does, or
    goes on to the store with the record extracted. *)
Lemma handle_cases (svc : Services) (db : Db) (req : Request) (oks : list bool) :
  (exists r, handle svc oks db req = (db, r) /\ process svc db req = (db, r)
             /\ forall output data, r <> Reply output data)
  \/ exists inputText e,
       extractExpenseData (today svc) (completion svc) inputText = Some e
       /\ process svc db req =
          (fst (dispatch svc db (body_userId req) inputText e),
           Reply (snd (dispatch svc db (body_userId req) inputText e)) e)
       /\ handle svc oks db req =
          match task svc (body_userId req) inputText e with
          | None => (db, Reply (snd (dispatch svc db (body_userId req) inputText e)) e)
          | Some t =>
              match snd (finish oks db (first_call t)) with
              | Thrown => (fst (finish oks db (first_call t)),
                           ServerError "Failed to process request")
              | _ => (fst (finish oks db (first_call t)),
                      Reply (snd (dispatch svc db (body_userId req) inputText e)) e)
              end
          end.
Proof.
  unfold handle, process.
  destruct (negb (truthy (body_userId req)));
    [left; eexists; repeat split; discriminate|].
  match goal with |- context [match ?x with inl _ => _ | inr _ => _ end] =>
    destruct x as [early|inputText] eqn:Hx end.
  - left. exists early. repeat split. intros output data ->.
    destruct (strict_eq (mode req) (JString "voice") && file req);
      [destruct (transcription svc); discriminate|].
    destruct (strict_eq (mode req) (JString "text") && truthy (text req)); discriminate.
  - destruct (extractExpenseData _ _ inputText) as [e|] eqn:E;
      [|left; eexists; repeat split; discriminate].
    right. exists inputText, e. split; [exact E|]. split.
    + destruct (dispatch _ _ _ _ _); reflexivity.
    + destruct (task _ _ _ _); [|reflexivity].
      destruct (finish _ _ _) as [db' p]. now destruct p.
Qed.

End FailingCalls.

(** C8: a completion whose [intent] is missing, or is a string other than
    "new_loan" and "loan_repayment", is normalised to a transaction record,
    and handling it leaves the loans table as it was. *)
Theorem unrecognised_intent_is_transaction
    (today : string) (text : JsValue) (p : ParsedData) :
  (p_intent p = JUndefined
   \/ exists s, p_intent p = JString s /\ s <> "new_loan" /\ s <> "loan_repayment") ->
  (exists d, extractExpenseData today (Some p) text = Some (Transaction d))
  /\ forall svc db req, completion svc = Some p ->
       loans (fst (process svc db req)) = loans db.
Proof.
  intros H.
  assert (H1 : p_intent p <> JString "new_loan")
    by (destruct H as [->|(s & -> & ? & ?)]; congruence).
  assert (H2 : p_intent p <> JString "loan_repayment")
    by (destruct H as [->|(s & -> & ? & ?)]; congruence).
  split.
  - rewrite (extract_transaction today text p H1 H2). eauto.
  - intros svc db req Hc.
    destruct (process_cases svc db req) as [[r ->]|(i & e & He & ->)]; [reflexivity|].
    rewrite Hc, (extract_transaction _ _ p H1 H2) in He. injection He as <-.
    apply dispatch_transaction_loans.
Qed.

Lemma unrecognised_intent_is_transaction_witness :
  (p_intent Fixtures.spent_nothing = JUndefined
   \/ exists s, p_intent Fixtures.spent_nothing = JString s
                /\ s <> "new_loan" /\ s <> "loan_repayment")
  /\ (exists d, extractExpenseData Fixtures.anchor (Some Fixtures.spent_nothing)
                  (JString "hello") = Some (Transaction d)).
Proof.
  split; [left; reflexivity|].
  apply (unrecognised_intent_is_transaction Fixtures.anchor (JString "hello")
           Fixtures.spent_nothing).
  left; reflexivity.
Defined.

(** C3, as stated, fails on the date: the completion's date is kept
    whenever it is truthy, so a date that is no calendar date reaches the
    normalised record unchanged. *)
Lemma unparseable_date_passes_through :
  exists e,
    extractExpenseData Fixtures.anchor (Some Fixtures.spent_yesterday)
      (JString "Spent 300 yesterday") = Some e
    /\ date_of e = JString "yesterday"
    /\ isCalendarDate (date_of e) = false
    /\ isCalendarDate (JString Fixtures.anchor) = true.
Proof. eexists. repeat split. Qed.

(** C3, amended: the normalised currency is truthy, "BDT" when the
    completion's currency is absent or falsy and the completion's value
    otherwise, hence a non-empty string whenever the completion gave a
    string or nothing; the normalised date is the anchor date when the
    completion's date is absent or falsy and the completion's value,
    unchanged, otherwise, hence a calendar date whenever the completion's
    date was one or was absent. *)
Theorem currency_and_date_defaults (today : string) (text : JsValue) (p : ParsedData) :
  exists e,
    extractExpenseData today (Some p) text = Some e
    /\ truthy (currency_of e) = true
    /\ (truthy (p_currency p) = false -> currency_of e = JString "BDT")
    /\ (truthy (p_currency p) = true -> currency_of e = p_currency p)
    /\ ((p_currency p = JUndefined \/ exists s, p_currency p = JString s) ->
        isNonEmptyString (currency_of e) = true)
    /\ (truthy (p_date p) = false -> date_of e = JString today)
    /\ (truthy (p_date p) = true -> date_of e = p_date p)
    /\ (isCalendarDate (JString today) = true ->
        truthy (p_date p) = false \/ isCalendarDate (p_date p) = true ->
        isCalendarDate (date_of e) = true).
Proof.
  destruct (extract_total today text p) as (e & He & Hc & Hd).
  exists e. rewrite Hc, Hd. split; [exact He|].
  split; [now apply truthy_or_default|].
  split; [apply or_falsy|].
  split; [apply or_truthy|].
  split; [now apply or_non_empty_string|].
  split; [apply or_falsy|].
  split; [apply or_truthy|].
  intros Ht [Hf|Hv].
  - now rewrite or_falsy.
  - rewrite or_truthy; [exact Hv|].
    destruct (p_date p) as [| |b|n|s]; try discriminate Hv.
    destruct s; [discriminate Hv|reflexivity].
Qed.

Lemma currency_and_date_defaults_witness :
  exists e,
    extractExpenseData Fixtures.anchor (Some Fixtures.spent_nothing) (JString "hello") = Some e
    /\ truthy (currency_of e) = true
    /\ date_of e = JString Fixtures.anchor.
Proof.
  destruct (currency_and_date_defaults Fixtures.anchor (JString "hello")
              Fixtures.spent_nothing) as (e & He & Hc & _ & _ & _ & Hd & _).
  exists e. split; [exact He|]. split; [exact Hc|]. apply Hd. reflexivity.
Defined.

(** C4, as stated, fails on a non-numeric amount: the string "abc" is
    truthy, so the default does not apply and the normalised amount is the
    string itself, not 0. *)
Lemma non_numeric_amount_is_kept :
  Number (p_amount Fixtures.spent_abc) = NaN
  /\ exists d,
       extractExpenseData Fixtures.anchor (Some Fixtures.spent_abc)
         (JString "Spent abc") = Some (Transaction d)
       /\ tx_amount d = JString "abc"
       /\ tx_amount d <> num 0.
Proof.
  split; [reflexivity|].
  eexists. split; [reflexivity|]. split; [reflexivity|discriminate].
Qed.

(** C4, amended: when the amount of a transaction-intent completion is
    absent or falsy (null, zero, false, the empty string), the normalised
    amount is 0 and handling the request leaves the store as it was: the
    handler asks nothing of the store, so no failing call changes its
    answer; every truthy amount, numeric or not, is kept unchanged as the
    normalised amount, which is then not 0. *)
Theorem amount_is_defaulted_only_when_falsy (svc : Services) (db : Db) (req : Request)
    (p : ParsedData) :
  completion svc = Some p ->
  p_intent p <> JString "new_loan" ->
  p_intent p <> JString "loan_repayment" ->
  (truthy (p_amount p) = false ->
   (forall text, exists d,
       extractExpenseData (today svc) (Some p) text = Some (Transaction d)
       /\ tx_amount d = num 0)
   /\ fst (process svc db req) = db
   /\ forall oks, Calls.handle svc oks db req = process svc db req)
  /\ (truthy (p_amount p) = true ->
      forall text, exists d,
        extractExpenseData (today svc) (Some p) text = Some (Transaction d)
        /\ tx_amount d = p_amount p
        /\ tx_amount d <> num 0).
Proof.
  intros Hc H1 H2. split; intros Ha.
  - split; [|split].
    + intros text. rewrite (extract_transaction _ text p H1 H2).
      eexists. split; [reflexivity|]. simpl. now apply or_falsy.
    + destruct (process_cases svc db req) as [[r ->]|(i & e & He & ->)]; [reflexivity|].
      rewrite Hc, (extract_transaction _ _ p H1 H2) in He. injection He as <-.
      apply dispatch_no_amount. simpl. now rewrite or_falsy.
    + intros oks.
      destruct (handle_cases svc db req oks)
        as [(r & -> & -> & _)|(i & e & He & -> & ->)]; [reflexivity|].
      rewrite Hc, (extract_transaction _ _ p H1 H2) in He. injection He as <-.
      cbn [Calls.task tx_amount dispatch fst]. rewrite (or_falsy _ _ Ha). reflexivity.
  - intros text. rewrite (extract_transaction _ text p H1 H2).
    eexists. split; [reflexivity|]. simpl. rewrite (or_truthy _ _ Ha).
    split; [reflexivity|]. intros E. rewrite E in Ha. discriminate Ha.
Qed.

Lemma amount_is_defaulted_only_when_falsy_witness :
  completion (Fixtures.answering Fixtures.spent_nothing) = Some Fixtures.spent_nothing
  /\ truthy (p_amount Fixtures.spent_nothing) = false
  /\ fst (process (Fixtures.answering Fixtures.spent_nothing) Fixtures.ledger
            (Fixtures.typed "hello")) = Fixtures.ledger
  /\ truthy (p_amount Fixtures.spent_abc) = true
  /\ exists d,
       extractExpenseData Fixtures.anchor (Some Fixtures.spent_abc) (JString "Spent abc")
       = Some (Transaction d)
       /\ tx_amount d = JString "abc".
Proof.
  split; [reflexivity|]. split; [reflexivity|]. split.
  - apply (amount_is_defaulted_only_when_falsy (Fixtures.answering Fixtures.spent_nothing)
             Fixtures.ledger (Fixtures.typed "hello") Fixtures.spent_nothing);
      simpl; (reflexivity || discriminate).
  - split; [reflexivity|].
    destruct (amount_is_defaulted_only_when_falsy (Fixtures.answering Fixtures.spent_abc)
                Fixtures.ledger (Fixtures.typed "Spent abc") Fixtures.spent_abc
                eq_refl) as [_ Hk]; [discriminate|discriminate|].
    destruct (Hk eq_refl (JString "Spent abc")) as (d & Hd & Ha & _).
    exists d. split; [exact Hd|exact Ha].
Defined.

(** ** Response rendering *)

(** C9, as stated, fails on the date slot: a date equal to the anchor date
    is printed as it is, the word "today" only stands for a missing date. *)
Lemma anchor_date_is_printed :
  exists d,
    extractExpenseData Fixtures.anchor (Some Fixtures.spent_200)
      (JString "Spent 200 on shopping today") = Some (Transaction d)
    /\ tx_date d = JString Fixtures.anchor
    /\ generateResponseMessage d =
       "💸 Successfully recorded expense: BDT 200 for shopping (shopping) on 2025-11-22"
    /\ generateResponseMessage d <>
       "💸 Successfully recorded expense: BDT 200 for shopping (shopping) on today".
Proof.
  eexists. split; [reflexivity|]. split; [reflexivity|]. split; [reflexivity|].
  vm_compute. discriminate.
Qed.

(** C9, amended: each rendered message is a function of the formatter's
    arguments alone, and the date slot of the transaction message shows the
    record's date when that is truthy and the word "today" otherwise. *)
Theorem response_message_date_slot :
  (forall d d', d = d' -> generateResponseMessage d = generateResponseMessage d')
  /\ (forall d d', d = d' -> generateLoanResponseMessage d = generateLoanResponseMessage d')
  /\ (forall d r d' r', d = d' -> r = r' ->
        generateRepaymentResponseMessage d r = generateRepaymentResponseMessage d' r')
  /\ forall d,
       truthy (tx_amount d) = true -> truthy (tx_type d) = true ->
       exists head,
         generateResponseMessage d =
         head ++ " on " ++ (if truthy (tx_date d) then ToString (tx_date d) else "today").
Proof.
  split; [now intros d d' <-|].
  split; [now intros d d' <-|].
  split; [now intros d r d' r' <- <-|].
  intros d Ha Ht. unfold generateResponseMessage. rewrite Ha, Ht. cbn [negb orb].
  rewrite (ToString_or (tx_date d)).
  exists ((if strict_eq (tx_type d) (JString "expense") then "💸" else "💰")
          ++ " Successfully "
          ++ (if strict_eq (tx_type d) (JString "expense")
              then "recorded expense" else "recorded income")
          ++ ": " ++ ToString (tx_currency d ||' JString "BDT") ++ " "
          ++ ToString (tx_amount d)
          ++ " for " ++ ToString (tx_category d ||' JString "other")
          ++ (if truthy (tx_notes d) then " (" ++ ToString (tx_notes d) ++ ")"
              else EmptyString)).
  rewrite !append_assoc. reflexivity.
Qed.

Lemma response_message_date_slot_witness :
  exists d head,
    extractExpenseData Fixtures.anchor (Some Fixtures.spent_200)
      (JString "Spent 200 on shopping today") = Some (Transaction d)
    /\ generateResponseMessage d = head ++ " on " ++ "2025-11-22".
Proof.
  eexists. 
  destruct response_message_date_slot as (_ & _ & _ & H).
  destruct (H {| tx_amount := num 200; tx_currency := JString "BDT";
                 tx_category := JString "shopping"; tx_notes := JString "shopping";
                 tx_type := JString "expense"; tx_date := JString Fixtures.anchor |}
              eq_refl eq_refl) as [head Hh].
  exists head. split; [reflexivity|exact Hh].
Defined.

(** ** The lender filter *)

Section LikeFacts.

Lemma like_percent (p s : list ascii) :
  like ("%"%char :: p) s =
  like p s || match s with [] => false | _ :: s' => like ("%"%char :: p) s' end.
Proof. destruct s; reflexivity. Qed.

Lemma like_plain_char (c : ascii) (p s : list ascii) :
  plain_char c = true ->
  like (c :: p) s =
  match s with [] => false | d :: s' => Ascii.eqb c d && like p s' end.
Proof.
  unfold plain_char. intros H. apply negb_true_iff in H.
  apply orb_false_iff in H as [H H4]. apply orb_false_iff in H as [H H3].
  apply orb_false_iff in H as [H1 H2].
  simpl. now rewrite H1, H2, H3.
Qed.

Lemma like_only_percent (s : list ascii) : like ["%"%char] s = true.
Proof.
  induction s as [|d s IH]; [reflexivity|].
  rewrite like_percent, IH. apply orb_true_r.
Qed.

Lemma like_plain_prefix (p s : list ascii) :
  forallb plain_char p = true ->
  like (p ++ ["%"%char]) s = prefixb p s.
Proof.
  revert s. induction p as [|c p IH]; intros s H.
  - apply like_only_percent.
  - simpl in H. apply andb_true_iff in H as [Hc Hp].
    change ((c :: p) ++ ["%"%char])%list with (c :: (p ++ ["%"%char]))%list.
    rewrite like_plain_char by exact Hc.
    destruct s as [|d s]; [reflexivity|]. simpl. now rewrite IH.
Qed.

(** Between two [%], a pattern without special characters is a substring
    test. *)
Lemma like_plain_contains (p s : list ascii) :
  forallb plain_char p = true ->
  like ("%"%char :: p ++ ["%"%char]) s = containsb p s.
Proof.
  intros H. induction s as [|d s IH].
  - rewrite like_percent, like_plain_prefix by exact H. reflexivity.
  - rewrite like_percent, like_plain_prefix, IH by exact H. reflexivity.
Qed.

Lemma plain_char_star (c : ascii) : plain_char c = true -> star c = c.
Proof.
  unfold plain_char, star. intros H. apply negb_true_iff in H.
  apply orb_false_iff in H as [_ H]. now rewrite H.
Qed.

Lemma plain_char_lower (c : ascii) : plain_char c = true -> plain_char (lower c) = true.
Proof. destruct c as [[] [] [] [] [] [] [] []]; vm_compute; trivial. Qed.

Lemma plain_pattern (name : list ascii) :
  forallb plain_char name = true ->
  map lower (map star name) = map lower name
  /\ forallb plain_char (map lower name) = true.
Proof.
  induction name as [|c name IH]; simpl; [auto|].
  intros H. apply andb_true_iff in H as [Hc Hn].
  destruct (IH Hn) as [E F].
  rewrite E, F, plain_char_star, plain_char_lower by exact Hc. auto.
Qed.

(** For a lender name without [%], [_], [*] and backslash the filter
    [.ilike("lender_name", `%${lenderName}%`)] is the case-insensitive
    substring test. *)
Lemma ilike_plain (column : JsValue) (name : string) :
  plain name = true ->
  ilike column ("%" ++ name ++ "%") = contains_ci name (ToString column).
Proof.
  intros H. unfold ilike, contains_ci.
  change ("%" ++ name ++ "%") with (String "%" (name ++ "%")).
  cbn [list_ascii_of_string]. rewrite list_ascii_of_string_app.
  cbn [list_ascii_of_string map]. rewrite !map_app. cbn [map].
  destruct (plain_pattern _ H) as [E F]. rewrite E.
  change (lower (star "%")) with "%"%char.
  now apply like_plain_contains.
Qed.

Lemma activeLoansMatching_In (db : Db) (userId lenderName : JsValue) (l : Loan) :
  In l (activeLoansMatching db userId lenderName) <->
  In l (loans db)
  /\ eq_filter (l_user_id l) userId = true
  /\ l_status l = active
  /\ ilike (l_lender_name l) ("%" ++ ToString lenderName ++ "%") = true.
Proof.
  unfold activeLoansMatching. rewrite filter_In, !andb_true_iff.
  assert (S : status_eqb (l_status l) active = true <-> l_status l = active)
    by (destruct (l_status l); simpl; split; congruence).
  rewrite S. tauto.
Qed.

End LikeFacts.

(** ** Repayment requests *)

Lemma amount_zero_iff (v : JsValue) :
  truthy (v ||' num 0) = false <-> v ||' num 0 = num 0.
Proof.
  unfold js_or. destruct (truthy v) eqn:E; split; intros H; try reflexivity.
  - congruence.
  - rewrite H in E. discriminate E.
Qed.

(** C10, as stated, fails on the type of the lender: a completion that
    gives a number as lender name keeps that number, which is no string. *)
Lemma numeric_lender_is_kept :
  exists d,
    extractExpenseData Fixtures.anchor (Some (Fixtures.repaid (num 42)))
      (JString "Repaid 2000") = Some (LoanRepayment d)
    /\ lr_lender_name d = num 42
    /\ isNonEmptyString (lr_lender_name d) = false.
Proof. eexists. repeat split. Qed.

(** C10, amended: the normalised lender of a loan_repayment extraction is
    truthy: "Unknown" when the completion's lender is absent or falsy, the
    completion's value otherwise, hence a non-empty string whenever the
    completion gave a string or nothing.  So the handler answers "couldn't
    extract the repayment details" exactly when the amount is 0, and calls
    the reconciler otherwise; with no lender extracted the candidates are
    the user's active loans whose lender name contains "Unknown", compared
    case-insensitively. *)
Theorem repayment_lender_never_missing
    (svc : Services) (db : Db) (userId inputText text : JsValue) (p : ParsedData) :
  p_intent p = JString "loan_repayment" ->
  exists d,
    extractExpenseData (today svc) (Some p) text = Some (LoanRepayment d)
    /\ truthy (lr_lender_name d) = true
    /\ (truthy (p_lender_name p) = false -> lr_lender_name d = JString "Unknown")
    /\ (truthy (p_lender_name p) = true -> lr_lender_name d = p_lender_name p)
    /\ ((p_lender_name p = JUndefined \/ exists s, p_lender_name p = JString s) ->
        isNonEmptyString (lr_lender_name d) = true)
    /\ (lr_amount d = num 0 ->
        dispatch svc db userId inputText (LoanRepayment d) =
        (db, "I couldn't extract the repayment details. Please provide the amount and which loan it's for."))
    /\ (lr_amount d <> num 0 ->
        let r := recordLoanRepayment db userId (lr_lender_name d) (lr_amount d)
                   (lr_date d ||' JString (today svc))
                   (lr_currency d ||' JString "BDT") in
        dispatch svc db userId inputText (LoanRepayment d) =
        (fst r, generateRepaymentResponseMessage d (snd r)))
    /\ (truthy (p_lender_name p) = false ->
        forall l,
          In l (activeLoansMatching db userId (lr_lender_name d)) <->
          In l (loans db)
          /\ eq_filter (l_user_id l) userId = true
          /\ l_status l = active
          /\ contains_ci "Unknown" (ToString (l_lender_name l)) = true).
Proof.
  intros Hi. rewrite (extract_loan_repayment _ text p Hi).
  eexists. split; [reflexivity|]. cbn [lr_lender_name lr_amount lr_date lr_currency].
  assert (Ht : truthy (p_lender_name p ||' JString "Unknown") = true)
    by now apply truthy_or_default.
  split; [exact Ht|].
  split; [apply or_falsy|].
  split; [apply or_truthy|].
  split; [now apply or_non_empty_string|].
  split; [|split].
  - intros Hz. apply amount_zero_iff in Hz.
    cbn [dispatch lr_amount lr_lender_name]. now rewrite Hz.
  - intros Hz.
    assert (Ha : truthy (p_amount p ||' num 0) = true).
    { destruct (truthy (p_amount p ||' num 0)) eqn:E; [reflexivity|].
      now apply amount_zero_iff in E. }
    cbn [dispatch lr_amount lr_lender_name lr_date lr_currency].
    rewrite Ha, Ht. cbn [andb]. now destruct (recordLoanRepayment _ _ _ _ _ _).
  - intros Hf l. rewrite (or_falsy _ _ Hf), activeLoansMatching_In.
    cbn [ToString]. now rewrite ilike_plain.
Qed.

Lemma repayment_lender_never_missing_witness :
  p_intent (Fixtures.repaid JUndefined) = JString "loan_repayment"
  /\ exists d,
       extractExpenseData Fixtures.anchor (Some (Fixtures.repaid JUndefined))
         (JString "Repaid 2000") = Some (LoanRepayment d)
       /\ lr_lender_name d = JString "Unknown".
Proof.
  split; [reflexivity|].
  destruct (repayment_lender_never_missing
              (Fixtures.answering (Fixtures.repaid JUndefined)) Fixtures.ledger
              (JString "user-a") (JString "Repaid 2000") (JString "Repaid 2000")
              (Fixtures.repaid JUndefined) eq_refl)
    as (d & He & _ & Hu & _).
  exists d. split; [exact He|]. apply Hu. reflexivity.
Defined.

(** ** The loans table *)

Section LoanFacts.

Lemma nodupb_unique {A : Type} (f : A -> nat) (l : list A) (a b : A) :
  nodupb (map f l) = true -> In a l -> In b l -> f a = f b -> a = b.
Proof.
  induction l as [|x l IH]; simpl; [contradiction|].
  intros H. apply andb_true_iff in H as [Hx Hl]. apply negb_true_iff in Hx.
  assert (Hn : forall y, In y l -> f x <> f y).
  { intros y Hy E.
    assert (existsb (Nat.eqb (f x)) (map f l) = true); [|congruence].
    apply existsb_exists. exists (f y). split; [now apply in_map|now apply Nat.eqb_eq]. }
  intros [->|Ha] [->|Hb] E; auto.
  - now apply Hn in E.
  - symmetry in E. now apply Hn in E.
Qed.

Lemma wf_unique (db : Db) (a b : Loan) :
  wf db = true -> In a (loans db) -> In b (loans db) -> l_id a = l_id b -> a = b.
Proof.
  unfold wf. intros H. apply andb_true_iff in H as [H _]. now apply nodupb_unique.
Qed.

Lemma wf_bounded (db : Db) (a : Loan) :
  wf db = true -> In a (loans db) -> (l_id a < next_id db)%nat.
Proof.
  unfold wf. intros H Ha. apply andb_true_iff in H as [_ H].
  rewrite forallb_forall in H. now apply Nat.ltb_lt, H.
Qed.

Lemma l_id_with_balance (l : Loan) (tp rb : JsValue) (st : LoanStatus) :
  l_id (with_balance l tp rb st) = l_id l.
Proof. reflexivity. Qed.

(** After the update, looking the id up finds a row carrying the new
    balance. *)
Lemma loanById_updateLoan (db : Db) (l : Loan) (tp rb : JsValue) (st : LoanStatus) :
  In l (loans db) ->
  exists x,
    In x (loans db) /\ l_id x = l_id l
    /\ loanById (updateLoan db (l_id l) tp rb st) (l_id l) = Some (with_balance x tp rb st).
Proof.
  unfold loanById, updateLoan. cbn [loans].
  induction (loans db) as [|y ys IH]; [contradiction|].
  intros Hin. cbn [map find].
  destruct (l_id y =? l_id l)%nat eqn:E.
  - exists y. rewrite l_id_with_balance, E. apply Nat.eqb_eq in E. simpl. auto.
  - rewrite E. destruct Hin as [->|Hin]; [now rewrite Nat.eqb_refl in E|].
    destruct (IH Hin) as (x & Hx & Hid & Hf). exists x. simpl. auto.
Qed.

Lemma activeLoansMatching_head (db : Db) (userId lenderName : JsValue)
    (loan0 : Loan) (rest : list Loan) :
  activeLoansMatching db userId lenderName = loan0 :: rest ->
  In loan0 (loans db) /\ l_status loan0 = active /\ eq_filter (l_user_id loan0) userId = true.
Proof.
  intros H.
  assert (Hin : In loan0 (activeLoansMatching db userId lenderName))
    by (rewrite H; now left).
  apply activeLoansMatching_In in Hin. tauto.
Qed.

(** The two branches of [recordLoanRepayment]. *)
Lemma recordLoanRepayment_no_match (db : Db) (userId lenderName amount date currency : JsValue) :
  activeLoansMatching db userId lenderName = [] ->
  recordLoanRepayment db userId lenderName amount date currency =
  (saveTransaction db {|
     userId := userId;
     amount := amount;
     currency := currency ||' JString "BDT";
     category := JString "loan_repayment";
     notes := JString ("Loan repayment to " ++ ToString lenderName
                       ++ " (no matching loan found)");
     type := JString "expense";
     date := date |},
   {| loan := None;
      message := "No active loan found for " ++ dquote ++ ToString lenderName
                 ++ dquote ++ ". Recorded as expense." |}).
Proof. intros H. unfold recordLoanRepayment. now rewrite H. Qed.

Lemma recordLoanRepayment_match (db : Db) (userId lenderName amount date currency : JsValue)
    (loan0 : Loan) (rest : list Loan) :
  activeLoansMatching db userId lenderName = loan0 :: rest ->
  let newTotalPaid := num_add (Number (l_total_paid loan0)) (Number amount) in
  let newRemaining := num_sub (Number (l_remaining_balance loan0)) (Number amount) in
  let newStatus := if num_le newRemaining (Fin 0) then paid_off else active in
  let r := recordLoanRepayment db userId lenderName amount date currency in
  loans (fst r) =
    loans (updateLoan db (l_id loan0) (JNumber newTotalPaid)
             (JNumber (Math_max (Fin 0) newRemaining)) newStatus)
  /\ loan (snd r) =
     Some (with_balance loan0 (JNumber newTotalPaid)
             (JNumber (Math_max (Fin 0) newRemaining)) newStatus).
Proof. intros H. unfold recordLoanRepayment. rewrite H. split; reflexivity. Qed.

Lemma loanById_loans (db db' : Db) (id : nat) :
  loans db = loans db' -> loanById db id = loanById db' id.
Proof. unfold loanById. now intros ->. Qed.

(** What a repayment stores for the matched loan. *)
Lemma repayment_stored (db : Db) (userId lenderName amount date currency : JsValue)
    (loan0 : Loan) (rest : list Loan) :
  activeLoansMatching db userId lenderName = loan0 :: rest ->
  let newTotalPaid := num_add (Number (l_total_paid loan0)) (Number amount) in
  let newRemaining := num_sub (Number (l_remaining_balance loan0)) (Number amount) in
  let newStatus := if num_le newRemaining (Fin 0) then paid_off else active in
  exists x,
    In x (loans db) /\ l_id x = l_id loan0
    /\ loanById (fst (recordLoanRepayment db userId lenderName amount date currency))
         (l_id loan0) =
       Some (with_balance x (JNumber newTotalPaid)
               (JNumber (Math_max (Fin 0) newRemaining)) newStatus).
Proof.
  intros H ntp nr ns.
  destruct (recordLoanRepayment_match db userId lenderName amount date currency _ _ H)
    as [Hl _].
  destruct (activeLoansMatching_head _ _ _ _ _ H) as [Hin _].
  destruct (loanById_updateLoan db loan0 (JNumber ntp)
              (JNumber (Math_max (Fin 0) nr)) ns Hin) as (x & Hx & Hid & Hf).
  exists x. split; [exact Hx|]. split; [exact Hid|].
  rewrite <- Hf. apply loanById_loans. exact Hl.
Qed.

End LoanFacts.



(** *** Amounts finer than a hundredth *)

Section DecimalFacts.

Lemma round_to_hundredths (k : Z) : (200 * (k * 100) + 10000) / (2 * 10000) = k.
Proof. symmetry. apply (Z.div_unique _ _ k 10000); lia. Qed.

(** The column keeps a number of whole hundredths as it is. *)
Lemma numeric_15_2_hundredths (k : Z) :
  Decimal.numeric_15_2 (Qmake (k * 100) 10000) = k.
Proof.
  unfold Decimal.numeric_15_2. cbn [Qnum Qden]. change (Z.pos 10000) with 10000.
  destruct (Z.leb_spec 0 (k * 100)).
  - apply round_to_hundredths.
  - replace (200 * - (k * 100)) with (200 * (- k * 100)) by lia.
    rewrite round_to_hundredths. lia.
Qed.

(** On whole hundredths the rational reading of lines 178-190 gives what
    [recordLoanRepayment] stores. *)
Lemma decimal_update_on_hundredths (T R A : Z) :
  let u := Decimal.update (Decimal.hundredths T) (Decimal.hundredths R)
             (Decimal.hundredths A) in
  Fin (Decimal.total_paid u) = num_add (Fin T) (Fin A)
  /\ Fin (Decimal.remaining_balance u) = Math_max (Fin 0) (num_sub (Fin R) (Fin A))
  /\ Decimal.status u =
     if num_le (num_sub (Fin R) (Fin A)) (Fin 0) then paid_off else active.
Proof.
  cbn [num_add num_sub num_le Math_max].
  unfold Decimal.update, Decimal.newTotalPaid, Decimal.newRemaining, Decimal.newStatus,
    Decimal.Math_max_0, Decimal.hundredths.
  cbn [Decimal.total_paid Decimal.remaining_balance Decimal.status].
  assert (E : Qle_bool (Qmake R 100 - Qmake A 100) 0 = (R - A <=? 0)).
  { unfold Qle_bool, Qminus, Qplus, Qopp. cbn [Qnum Qden].
    apply eq_true_iff_eq. rewrite !Z.leb_le. lia. }
  rewrite E. split; [|split; [|reflexivity]]; f_equal.
  - unfold Qplus. cbn [Qnum Qden].
    replace (T * Z.pos 100 + A * Z.pos 100) with ((T + A) * 100) by lia.
    apply numeric_15_2_hundredths.
  - destruct (Z.leb_spec (R - A) 0).
    + rewrite Z.max_l by lia. reflexivity.
    + rewrite Z.max_r by lia. unfold Qminus, Qplus, Qopp. cbn [Qnum Qden].
      replace (R * Z.pos 100 + - A * Z.pos 100) with ((R - A) * 100) by lia.
      apply numeric_15_2_hundredths.
Qed.

End DecimalFacts.

(** C5, as stated, fails on an amount finer than a hundredth.  With 0.01
    left, a repayment of 0.006 (not more than what is left) leaves 0.004,
    which is above 0, so the status sent is active, while the column keeps
    the balance as 0.00: the stored loan is active with nothing left to
    pay.  And with nothing paid of 100.00, a repayment of 0.005 is kept as
    0.01 paid and 100.00 left, which no longer add up to the principal. *)
Lemma sub_cent_repayment_keeps_loan_active :
  (Qle_bool (Qmake 6 1000) (Decimal.hundredths 1) = true
   /\ Decimal.status (Decimal.update 0 (Decimal.hundredths 1) (Qmake 6 1000)) = active
   /\ Decimal.remaining_balance
        (Decimal.update 0 (Decimal.hundredths 1) (Qmake 6 1000)) = 0)
  /\ (Qle_bool (Qmake 5 1000) (Decimal.hundredths 10000) = true
      /\ Decimal.total_paid
           (Decimal.update 0 (Decimal.hundredths 10000) (Qmake 5 1000)) = 1
      /\ Decimal.remaining_balance
           (Decimal.update 0 (Decimal.hundredths 10000) (Qmake 5 1000)) = 10000
      /\ 1 + 10000 <> 0 + 10000).
Proof.
  split; [split; [reflexivity|split; reflexivity]|].
  split; [reflexivity|]. split; [reflexivity|]. split; [reflexivity|discriminate].
Qed.

(** C5, amended: when the amount of the repayment and the amounts of the
    loan are numbers of whole hundredths, a repayment of
    A <= remaining_balance on a loan with
    total_paid + remaining_balance = principal_amount keeps that equation,
    and after any repayment the stored loan is paid_off if and only if its
    remaining_balance is 0, which is when the amount reaches what was
    left. *)
Theorem repayment_preserves_balance_invariant
    (db : Db) (userId lenderName amount date currency : JsValue)
    (loan0 : Loan) (rest : list Loan) :
  wf db = true ->
  activeLoansMatching db userId lenderName = loan0 :: rest ->
  exists stored,
    loanById (fst (recordLoanRepayment db userId lenderName amount date currency))
      (l_id loan0) = Some stored
    /\ (forall T R P A : Z,
          Number (l_total_paid loan0) = Fin T ->
          Number (l_remaining_balance loan0) = Fin R ->
          Number (l_principal_amount loan0) = Fin P ->
          Number amount = Fin A ->
          T + R = P -> A <= R ->
          exists T' R',
            Number (l_total_paid stored) = Fin T'
            /\ Number (l_remaining_balance stored) = Fin R'
            /\ Number (l_principal_amount stored) = Fin P
            /\ T' + R' = P)
    /\ (forall R A : Z,
          Number (l_remaining_balance loan0) = Fin R ->
          Number amount = Fin A ->
          (l_status stored = paid_off <-> Number (l_remaining_balance stored) = Fin 0)
          /\ (l_status stored = paid_off <-> R - A <= 0)).
Proof.
  intros Hwf H.
  destruct (repayment_stored db userId lenderName amount date currency _ _ H)
    as (x & Hx & Hid & Hf).
  destruct (activeLoansMatching_head _ _ _ _ _ H) as [Hin _].
  assert (x = loan0) by now apply (wf_unique db). subst x.
  eexists. split; [exact Hf|].
  cbn [with_balance l_total_paid l_remaining_balance l_principal_amount l_status Number].
  split.
  - intros T R P A HT HR HP HA Hinv Hle. rewrite HT, HR, HA.
    cbn [num_add num_sub Math_max]. exists (T + A), (Z.max 0 (R - A)).
    repeat split; [exact HP|lia].
  - intros R A HR HA. rewrite HR, HA. cbn [num_sub num_le Math_max].
    destruct (Z.leb_spec (R - A) 0).
    + split; (split; [intros _|reflexivity]); [f_equal|]; lia.
    + split; (split; [discriminate|]); [intros E; injection E as E|]; lia.
Qed.

Lemma repayment_preserves_balance_invariant_witness :
  wf Fixtures.ledger = true
  /\ exists stored,
       loanById (fst (recordLoanRepayment Fixtures.ledger (JString "user-a")
                        (JString "brac") (num 50000) (JString Fixtures.anchor)
                        (JString "BDT"))) 0 = Some stored
       /\ (l_status stored = paid_off <-> Number (l_remaining_balance stored) = Fin 0).
Proof.
  split; [reflexivity|].
  destruct (repayment_preserves_balance_invariant Fixtures.ledger (JString "user-a")
              (JString "brac") (num 50000) (JString Fixtures.anchor) (JString "BDT")
              (Fixtures.loan_of 0 "user-a" "BRAC Bank" 0 50000 active) []
              eq_refl eq_refl)
    as (stored & Hf & _ & Hs).
  exists stored. split; [exact Hf|].
  exact (proj1 (Hs 5000000 5000000 eq_refl eq_refl)).
Defined.

(** ** Paid-off loans *)

(** *** Calls of several requests, interleaved *)

Section PaidOffCalls.

Import Calls.

Variable l : Loan.
Hypothesis l_paid_off : l_status l = paid_off.

Lemma perform_keeps_paid_off (db : Db) (p : Pending) :
  (forall l', In l' (loans db) -> l_id l' = l_id l -> l' = l) ->
  (l_id l < next_id db)%nat ->
  updates (l_id l) p = false ->
  (forall l', In l' (loans (fst (perform db p))) -> l_id l' = l_id l -> l' = l)
  /\ (l_id l < next_id (fst (perform db p)))%nat
  /\ updates (l_id l) (snd (perform db p)) = false.
Proof.
  intros Hsame Hlt Hp.
  destruct p as [u ln a d c|loan0 u a d c|data|u data next| |tid|lid|u un ue r c| |];
    cbn [perform].
  - destruct (activeLoansMatching db u ln) as [|loan0 rest] eqn:Hm; cbn [fst snd updates].
    + auto.
    + split; [exact Hsame|]. split; [exact Hlt|].
      apply Nat.eqb_neq. intros E.
      destruct (activeLoansMatching_head _ _ _ _ _ Hm) as (Hin0 & Hact & _).
      assert (loan0 = l) by now apply Hsame. subst loan0. congruence.
  - cbn [fst snd updates]. cbn [updates] in Hp. apply Nat.eqb_neq in Hp.
    split; [|split; [exact Hlt|reflexivity]].
    intros l' Hin E. cbn [updateLoan loans] in Hin.
    apply in_map_iff in Hin as (x & Hx & Hin).
    destruct (l_id x =? l_id loan0)%nat eqn:Ex.
    + subst l'. rewrite l_id_with_balance in E. apply Nat.eqb_eq in Ex. congruence.
    + subst l'. now apply Hsame.
  - cbn. split; [exact Hsame|]. split; [lia|reflexivity].
  - cbn [fst snd saveLoan loans next_id]. split; [|split; [lia|now destruct next]].
    intros l' Hin E. apply in_app_iff in Hin as [Hin|[<-|[]]]; [now apply Hsame|].
    cbn in E. lia.
  - cbn. auto.
  - cbn. auto.
  - cbn [fst snd deleteLoan loans next_id updates]. split; [|auto].
    intros l' Hin E. apply filter_In in Hin as [Hin _]. now apply Hsame.
  - cbn. split; [exact Hsame|]. split; [lia|reflexivity].
  - cbn. auto.
  - cbn. auto.
Qed.

Lemma updates_throw (p : Pending) : updates (l_id l) (throw p) = false.
Proof. now destruct p. Qed.

Lemma existsb_put {A : Type} (f : A -> bool) (i : nat) (x : A) (rows : list A) :
  existsb f rows = false -> f x = false -> existsb f (put i x rows) = false.
Proof.
  revert i. induction rows as [|y rows IH]; intros i H Hx; [now destruct i|].
  cbn [existsb] in H. apply orb_false_iff in H as [Hy Hr].
  destruct i; cbn [put existsb].
  - now rewrite Hx, Hr.
  - now rewrite Hy, IH.
Qed.

Lemma existsb_nth_error {A : Type} (f : A -> bool) (i : nat) (x : A) (rows : list A) :
  existsb f rows = false -> nth_error rows i = Some x -> f x = false.
Proof.
  intros H Hn. apply nth_error_In in Hn.
  destruct (f x) eqn:E; [|reflexivity].
  assert (existsb f rows = true) by (apply existsb_exists; eauto). congruence.
Qed.

Lemma react_keeps_paid_off (s : System) (e : Event) : settled l s -> settled l (react s e).
Proof.
  intros (Hsame & Hlt & Hno). destruct e as [t|i ok]; cbn [react].
  - split; [exact Hsame|]. split; [exact Hlt|]. cbn [in_flight].
    rewrite existsb_app, Hno. cbn [existsb].
    destruct t as [[]|]; reflexivity.
  - destruct (nth_error (in_flight s) i) as [p|] eqn:Hn; [|now repeat split].
    pose proof (existsb_nth_error _ _ _ _ Hno Hn) as Hp.
    unfold advance. destruct ok.
    + destruct (perform_keeps_paid_off (store s) p Hsame Hlt Hp) as (H1 & H2 & H3).
      destruct (perform (store s) p) as [db' p']. cbn [fst snd] in H1, H2, H3.
      split; [exact H1|]. split; [exact H2|]. cbn [in_flight]. now apply existsb_put.
    + split; [exact Hsame|]. split; [exact Hlt|]. cbn [in_flight].
      apply existsb_put; [exact Hno|apply updates_throw].
Qed.

Lemma play_keeps_paid_off (events : list Event) (s : System) :
  settled l s -> settled l (play s events).
Proof.
  revert s. induction events as [|e events IH]; intros s H; [exact H|].
  apply (IH (react s e)). now apply react_keeps_paid_off.
Qed.

End PaidOffCalls.

Section OneByOne.

Import Calls.

Lemma put_last {A : Type} (x y : A) (rows : list A) :
  put (List.length rows) y (rows ++ [x]) = (rows ++ [y])%list.
Proof. induction rows as [|z rows IH]; cbn; [reflexivity|now rewrite IH]. Qed.

Lemma nth_error_last {A : Type} (x : A) (rows : list A) :
  nth_error (rows ++ [x]) (List.length rows) = Some x.
Proof. induction rows as [|z rows IH]; cbn; [reflexivity|exact IH]. Qed.

Lemma react_last (db : Db) (fs : list Pending) (p : Pending) (ok : bool) :
  react {| store := db; in_flight := fs ++ [p] |} (Answer (List.length fs) ok)
  = {| store := fst (advance ok db p); in_flight := fs ++ [snd (advance ok db p)] |}.
Proof.
  cbn [react store in_flight]. rewrite nth_error_last.
  destruct (advance ok db p) as [db' p']. cbn [fst snd]. now rewrite put_last.
Qed.

(** Whole calls one after another are one of the interleavings. *)
Lemma play_one_by_one (ops : list Op) (db : Db) (fs : list Pending) :
  exists fs',
    play {| store := db; in_flight := fs |} (one_by_one (List.length fs) ops)
    = {| store := run db ops; in_flight := fs' |}.
Proof.
  revert db fs. induction ops as [|op ops IH]; intros db fs; [now exists fs|].
  cbn [one_by_one play fold_left run].
  change (react {| store := db; in_flight := fs |} (Start (Invoke op)))
    with {| store := db; in_flight := fs ++ [first_call (Invoke op)] |}.
  rewrite !react_last.
  pose proof (finish_invoke db op) as F. unfold finish in F. cbn [alone hd tl] in F.
  destruct (advance true db (first_call (Invoke op))) as [db1 p1]. cbn [fst snd].
  destruct (advance true db1 p1) as [db2 p2]. cbn [fst snd].
  destruct (advance true db2 p2) as [db3 p3]. cbn [fst snd].
  injection F as -> ->.
  destruct (IH (step db op) (fs ++ [Returned])%list) as [fs' E].
  rewrite length_app, Nat.add_1_r in E. exists fs'. exact E.
Qed.

End OneByOne.

(** C6, as stated, fails when two repayments overlap: both read the loan
    of user-a while it is active; the second pays it off; the update of
    the first, computed from the row it read and addressed by id alone,
    then writes active over paid_off, and the candidate query returns the
    loan again. *)
Lemma stale_update_reactivates_paid_off_loan :
  (exists paid,
      loanById (Calls.store (Calls.play Overlap.at_rest Overlap.payoff_written)) 0
      = Some paid
      /\ l_status paid = paid_off
      /\ l_remaining_balance paid = num 0)
  /\ (exists again,
        loanById (Calls.store (Calls.play Overlap.at_rest Overlap.stale_written)) 0
        = Some again
        /\ l_status again = active
        /\ l_total_paid again = num 2000
        /\ l_remaining_balance again = num 48000)
  /\ map l_id
       (activeLoansMatching (Calls.store (Calls.play Overlap.at_rest Overlap.stale_written))
          (JString "user-a") (JString "brac")) = [0%nat].
Proof.
  split; [eexists; split; [reflexivity|split; reflexivity]|].
  split; [eexists; split; [reflexivity|repeat split]|reflexivity].
Qed.

(** C6, amended: once a loan is paid_off and no repayment that read it
    earlier is still to write its update, then whatever functions are
    started afterwards and however their calls interleave, succeed or
    fail, the row with its id stays the same paid_off row for as long as
    it exists, the candidate query of the reconciler never returns it, and
    no repayment comes to hold it for an update. *)
Theorem paid_off_is_final (s : Calls.System) (events : list Calls.Event) (l : Loan) :
  wf (Calls.store s) = true ->
  In l (loans (Calls.store s)) ->
  l_status l = paid_off ->
  existsb (Calls.updates (l_id l)) (Calls.in_flight s) = false ->
  (forall l', In l' (loans (Calls.store (Calls.play s events))) -> l_id l' = l_id l ->
     l' = l /\ l_status l' = paid_off)
  /\ (forall userId lenderName m,
        In m (activeLoansMatching (Calls.store (Calls.play s events)) userId lenderName) ->
        l_id m <> l_id l)
  /\ existsb (Calls.updates (l_id l)) (Calls.in_flight (Calls.play s events)) = false.
Proof.
  intros Hwf Hin Hp Hno.
  destruct (play_keeps_paid_off l Hp events s) as (Hsame & _ & Hno').
  { split; [|split; [now apply wf_bounded|exact Hno]].
    intros l' Hl' E. now apply (wf_unique (Calls.store s)). }
  split; [|split; [|exact Hno']].
  - intros l' Hl' E. assert (l' = l) by now apply Hsame. now subst.
  - intros userId lenderName m Hm E.
    apply activeLoansMatching_In in Hm as (Hm & _ & Hact & _).
    assert (m = l) by now apply Hsame. subst. congruence.
Qed.

(** In particular no sequence of whole calls of the store's functions
    changes a paid-off loan or makes it a candidate. *)
Corollary whole_calls_keep_paid_off (db : Db) (ops : list Op) (l : Loan) :
  wf db = true ->
  In l (loans db) ->
  l_status l = paid_off ->
  (forall l', In l' (loans (run db ops)) -> l_id l' = l_id l ->
     l' = l /\ l_status l' = paid_off)
  /\ (forall userId lenderName m,
        In m (activeLoansMatching (run db ops) userId lenderName) ->
        l_id m <> l_id l).
Proof.
  intros Hwf Hin Hp.
  destruct (play_one_by_one ops db []) as [fs' E].
  destruct (play_keeps_paid_off l Hp (Calls.one_by_one 0 ops)
              {| Calls.store := db; Calls.in_flight := [] |}) as (Hsame & _).
  { split; [|split; [now apply wf_bounded|reflexivity]].
    intros l' Hl' Ei. now apply (wf_unique db). }
  cbn [List.length] in E. rewrite E in Hsame. cbn [Calls.store] in Hsame.
  split.
  - intros l' Hl' Ei. assert (l' = l) by now apply Hsame. now subst.
  - intros userId lenderName m Hm Ei.
    apply activeLoansMatching_In in Hm as (Hm & _ & Hact & _).
    assert (m = l) by now apply Hsame. subst. congruence.
Qed.

Lemma paid_off_is_final_witness :
  wf Fixtures.ledger = true
  /\ loanById (Calls.store (Calls.play Overlap.at_rest Overlap.rahim_again)) 1
     = Some (Fixtures.loan_of 1 "user-a" "Rahim" 5000 0 paid_off)
  /\ map l_id
       (activeLoansMatching (Calls.store (Calls.play Overlap.at_rest Overlap.rahim_again))
          (JString "user-a") (JString "a")) = [0%nat]
  /\ forall l',
       In l' (loans (Calls.store (Calls.play Overlap.at_rest Overlap.rahim_again))) ->
       l_id l' = 1%nat ->
       l' = Fixtures.loan_of 1 "user-a" "Rahim" 5000 0 paid_off /\ l_status l' = paid_off.
Proof.
  split; [reflexivity|]. split; [reflexivity|]. split; [reflexivity|].
  apply (paid_off_is_final Overlap.at_rest Overlap.rahim_again
           (Fixtures.loan_of 1 "user-a" "Rahim" 5000 0 paid_off));
    [reflexivity|simpl; tauto|reflexivity|reflexivity].
Defined.

(** ** Repayments that match no loan *)

Section NoMatch.

Lemma prefixb_app (p b : list ascii) : prefixb p (p ++ b) = true.
Proof. induction p as [|c p IH]; simpl; [reflexivity|]. now rewrite Ascii.eqb_refl. Qed.

Lemma containsb_prefix (p s : list ascii) : prefixb p s = true -> containsb p s = true.
Proof. destruct s; simpl; now intros ->. Qed.

Lemma containsb_app (p a b : list ascii) : containsb p (a ++ p ++ b) = true.
Proof.
  induction a as [|x a IH]; cbn [app].
  - apply containsb_prefix, prefixb_app.
  - cbn [containsb]. rewrite IH. apply orb_true_r.
Qed.

Lemma no_match_note (name : string) :
  contains "no matching loan found"
    ("Loan repayment to " ++ name ++ " (no matching loan found)") = true.
Proof.
  unfold contains. rewrite !list_ascii_of_string_app.
  change (list_ascii_of_string " (no matching loan found)")
    with ([" "; "("]%char ++ list_ascii_of_string "no matching loan found" ++ [")"%char])%list.
  rewrite !app_assoc, <- app_assoc. apply containsb_app.
Qed.

(** When the candidate query returns nothing the repayment is booked as an
    expense on its own: the loans table is untouched, one row is appended
    to the transactions and the result carries no loan. *)
Lemma unmatched_repayment_is_plain_expense
    (db : Db) (userId lenderName amount date currency : JsValue) :
  activeLoansMatching db userId lenderName = [] ->
  loans (fst (recordLoanRepayment db userId lenderName amount date currency)) = loans db
  /\ loan (snd (recordLoanRepayment db userId lenderName amount date currency)) = None
  /\ exists row,
       transactions (fst (recordLoanRepayment db userId lenderName amount date currency))
       = (transactions db ++ [row])%list
       /\ t_user_id row = userId
       /\ t_amount row = amount
       /\ t_type row = JString "expense"
       /\ t_category row = JString "loan_repayment"
       /\ exists s, t_notes row = JString s
                    /\ contains "no matching loan found" s = true.
Proof.
  intros H. rewrite recordLoanRepayment_no_match by exact H.
  split; [reflexivity|]. split; [reflexivity|].
  eexists. split; [reflexivity|]. repeat (split; [reflexivity|]).
  eexists. split; [reflexivity|]. apply no_match_note.
Qed.

(** A lender name without pattern characters that is a substring of no
    active loan of the user selects no candidate. *)
Lemma plain_lender_without_substring_match
    (db : Db) (userId lenderName : JsValue) :
  plain (ToString lenderName) = true ->
  (forall l, In l (loans db) -> eq_filter (l_user_id l) userId = true ->
             l_status l = active ->
             contains_ci (ToString lenderName) (ToString (l_lender_name l)) = false) ->
  activeLoansMatching db userId lenderName = [].
Proof.
  intros Hp Hn.
  destruct (activeLoansMatching db userId lenderName) as [|x xs] eqn:E; [reflexivity|].
  assert (Hx : In x (activeLoansMatching db userId lenderName)) by (rewrite E; now left).
  apply activeLoansMatching_In in Hx as (Hin & Hu & Ha & Hl).
  rewrite ilike_plain in Hl by exact Hp.
  rewrite (Hn x Hin Hu Ha) in Hl. discriminate Hl.
Qed.

End NoMatch.

(** C7 on a lender name with an underscore: no stored lender name contains
    "BRAC_Bank", whatever the case, yet the query pattern matches
    "BRAC Bank"; the loan is charged and returned, and the expense is
    booked against it. *)
Theorem underscore_lender_reaches_a_loan :
  forallb (fun l => negb (contains_ci "BRAC_Bank" (ToString (l_lender_name l))))
    (loans Fixtures.ledger) = true
  /\ loan (snd Fixtures.underscore_repayment)
     = Some (Fixtures.loan_of 0 "user-a" "BRAC Bank" 2000 48000 active)
  /\ loanById (fst Fixtures.underscore_repayment) 0
     = Some (Fixtures.loan_of 0 "user-a" "BRAC Bank" 2000 48000 active)
  /\ loanById Fixtures.ledger 0
     = Some (Fixtures.loan_of 0 "user-a" "BRAC Bank" 0 50000 active)
  /\ map t_notes (transactions (fst Fixtures.underscore_repayment))
     = [JString "lunch"; JString "lunch"; JString "Loan repayment to BRAC Bank"].
Proof. repeat split. Qed.

(** ** Ownership *)

(** Neither deletion looks at the owner of the rows it removes. *)
Lemma deleteTransaction_any_owner (db : Db) (transactionId : nat) (t : TransactionRow) :
  In t (transactions (deleteTransaction db transactionId)) <->
  In t (transactions db) /\ t_id t <> transactionId.
Proof.
  cbn. rewrite filter_In, negb_true_iff, Nat.eqb_neq. tauto.
Qed.

Lemma deleteLoan_any_owner (db : Db) (loanId : nat) (l : Loan) :
  In l (loans (deleteLoan db loanId)) <-> In l (loans db) /\ l_id l <> loanId.
Proof.
  cbn. rewrite filter_In, negb_true_iff, Nat.eqb_neq. tauto.
Qed.

Lemma In_firstn {A : Type} (n : nat) (l : list A) (x : A) :
  In x (firstn n l) -> In x l.
Proof. intros H. rewrite <- (firstn_skipn n l). apply in_or_app. now left. Qed.

Lemma In_insert_by {A : Type} (before : A -> A -> bool) (y : A) (l : list A) (x : A) :
  In x (insert_by before y l) -> x = y \/ In x l.
Proof.
  induction l as [|w l IH]; cbn [insert_by]; intros H.
  - destruct H as [<-|[]]. now left.
  - destruct (before y w).
    + destruct H as [<-|H]; [now left|now right].
    + destruct H as [<-|H]; [right; now left|].
      destruct (IH H); [now left|right; now right].
Qed.

Lemma In_sort_by {A : Type} (before : A -> A -> bool) (l : list A) (x : A) :
  In x (sort_by before l) -> In x l.
Proof.
  unfold sort_by. induction l as [|y l IH]; cbn [fold_right]; [auto|].
  intros H. destruct (In_insert_by _ _ _ _ H) as [->|H']; [now left|right; now apply IH].
Qed.

Lemma eq_filter_true (a b : JsValue) : eq_filter a b = true -> a = b.
Proof.
  unfold eq_filter.
  destruct a as [| |x|[|x]|x], b as [| |y|[|y]|y]; simpl; intros H;
    try discriminate; try reflexivity.
  - now apply Bool.eqb_prop in H as ->.
  - now apply Z.eqb_eq in H as ->.
  - now apply String.eqb_eq in H as ->.
Qed.

(** The two listings, by contrast, only return rows of the user asked
    for. *)
Lemma getTransactions_own_rows (db : Db) (userId : JsValue) (limit : nat) (t : TransactionRow) :
  In t (getTransactions db userId limit) -> In t (transactions db) /\ t_user_id t = userId.
Proof.
  unfold getTransactions. intros H.
  apply In_firstn, In_sort_by, filter_In in H as [Hin H].
  split; [exact Hin|now apply eq_filter_true].
Qed.

Lemma getLoans_own_rows (db : Db) (userId : JsValue) (l : Loan) :
  In l (getLoans db userId) -> In l (loans db) /\ l_user_id l = userId.
Proof.
  unfold getLoans. intros H.
  apply In_sort_by, filter_In in H as [Hin H].
  split; [exact Hin|now apply eq_filter_true].
Qed.

(** C2 on the two deletions: they select by row id alone.  In the sample
    ledger transaction 4 and loan 2 belong to user-b; the listings of
    user-a do not show them, and deleting by those ids removes them. *)
Theorem delete_by_id_ignores_owner :
  In (Fixtures.expense_of 4 "user-b" 120) (transactions Fixtures.ledger)
  /\ getTransactions Fixtures.ledger (JString "user-a") 100
     = [Fixtures.expense_of 3 "user-a" 200]
  /\ transactions (deleteTransaction Fixtures.ledger 4)
     = [Fixtures.expense_of 3 "user-a" 200]
  /\ In (Fixtures.loan_of 2 "user-b" "City Bank" 1000 9000 active) (loans Fixtures.ledger)
  /\ map l_id (getLoans Fixtures.ledger (JString "user-a")) = [1; 0]%nat
  /\ map l_id (loans (deleteLoan Fixtures.ledger 2)) = [0; 1]%nat.
Proof. repeat split; simpl; tauto. Qed.

(** ** The end-to-end scenarios of the specification *)

Example scenario_spent_200 :
  process (Fixtures.answering Fixtures.spent_200) empty
    (Fixtures.typed "Spent 200 on shopping today")
  = ({| transactions :=
          [{| t_id := 0; t_user_id := JString "user-a"; t_amount := num 200;
              t_currency := JString "BDT"; t_category := JString "shopping";
              t_notes := JString "shopping"; t_type := JString "expense";
              t_date := JString "2025-11-22"; t_created_at := 0 |}];
        loans := []; feedback := []; next_id := 1 |},
     Reply "💸 Successfully recorded expense: BDT 200 for shopping (shopping) on 2025-11-22"
       (Transaction {| tx_amount := num 200; tx_currency := JString "BDT";
                       tx_category := JString "shopping"; tx_notes := JString "shopping";
                       tx_type := JString "expense"; tx_date := JString "2025-11-22" |})).
Proof. reflexivity. Qed.

Example scenario_new_loan :
  map (fun l => (l_lender_name l, l_remaining_balance l, l_total_paid l, l_status l))
    (loans Fixtures.after_loan)
  = [(JString "BRAC Bank", num 50000, num 0, active)]
  /\ map (fun t => (t_amount t, t_category t, t_type t)) (transactions Fixtures.after_loan)
     = [(num 50000, JString "loan", JString "income")].
Proof. split; reflexivity. Qed.

Example scenario_full_repayment :
  let r := process (Fixtures.answering (Fixtures.repaid_in_full "BRAC Bank"))
             Fixtures.after_loan (Fixtures.typed "Repaid 50000 to BRAC Bank") in
  map (fun l => (l_remaining_balance l, l_total_paid l, l_status l)) (loans (fst r))
  = [(num 0, num 50000, paid_off)]
  /\ map (fun t => (t_amount t, t_category t, t_type t)) (transactions (fst r))
     = [(num 50000, JString "loan", JString "income");
        (num 50000, JString "loan_repayment", JString "expense")]
  /\ snd r = Reply "💰 Repayment recorded: BDT 50000 to BRAC Bank. 🎉 This loan is now fully paid off!"
               (LoanRepayment {| lr_lender_name := JString "BRAC Bank";
                                 lr_amount := num 50000; lr_currency := JString "BDT";
                                 lr_date := JString "2025-11-22";
                                 lr_notes := JString "Repaid 50000 to BRAC Bank" |}).
Proof. repeat split. Qed.

Example scenario_no_matching_loan :
  let r := process (Fixtures.answering (Fixtures.repaid_in_full "Rahim"))
             Fixtures.after_loan (Fixtures.typed "Repaid 50000 to Rahim") in
  loans (fst r) = loans Fixtures.after_loan
  /\ map (fun t => (t_amount t, t_category t, t_notes t)) (transactions (fst r))
     = [(num 50000, JString "loan", JString "Loan from BRAC Bank");
        (num 50000, JString "loan_repayment",
         JString "Loan repayment to Rahim (no matching loan found)")].
Proof. repeat split. Qed.

(** * Further properties of the code *)

(** ** Extraction *)

Section MoreExtraction.

Variable today : string.
Variable text : JsValue.

Lemma or_idempotent (a b : JsValue) : (a ||' b) ||' b = a ||' b.
Proof.
  unfold js_or. destruct (truthy a) eqn:E; [now rewrite E|].
  now destruct (truthy b).
Qed.

Lemma extract_new_loan_record (p : ParsedData) :
  p_intent p = JString "new_loan" ->
  extractExpenseData today (Some p) text =
  Some (NewLoan {|
    nl_lender_name := p_lender_name p ||' JString "Unknown";
    nl_loan_type := if strict_eq (p_loan_type p) (JString "personal")
                    then JString "personal" else JString "bank";
    nl_principal_amount := p_principal_amount p ||' num 0;
    nl_interest_rate := p_interest_rate p ||' num 0;
    nl_tenure_months := p_tenure_months p ||' JNull;
    nl_monthly_installment := p_monthly_installment p ||' JNull;
    nl_currency := p_currency p ||' JString "BDT";
    nl_date := p_date p ||' JString today;
    nl_notes := p_notes p ||' text |}).
Proof. intros H. unfold extractExpenseData. rewrite H. reflexivity. Qed.

(** The three shapes, by what the completion's intent is. *)
Lemma extract_by_intent (p : ParsedData) :
  (p_intent p = JString "new_loan"
   /\ exists d, extractExpenseData today (Some p) text = Some (NewLoan d))
  \/ (p_intent p = JString "loan_repayment"
      /\ exists d, extractExpenseData today (Some p) text = Some (LoanRepayment d))
  \/ (p_intent p <> JString "new_loan" /\ p_intent p <> JString "loan_repayment"
      /\ exists d, extractExpenseData today (Some p) text = Some (Transaction d)).
Proof.
  destruct (strict_eq (p_intent p) (JString "new_loan")) eqn:E1.
  - apply strict_eq_string in E1. left. split; [exact E1|].
    rewrite (extract_new_loan_record p E1). eauto.
  - apply strict_eq_string_false in E1.
    destruct (strict_eq (p_intent p) (JString "loan_repayment")) eqn:E2.
    + apply strict_eq_string in E2. right; left. split; [exact E2|].
      rewrite (extract_loan_repayment today text p E2). eauto.
    + apply strict_eq_string_false in E2. right; right.
      rewrite (extract_transaction today text p E1 E2). eauto.
Qed.

End MoreExtraction.

(** X1: whatever the completion holds, the extracted record fits the
    columns it is written to: a transaction's type is "income" or
    "expense" and a new loan's loan_type is "personal" or "bank" (the two
    values the CHECK constraints admit), currency, category and lender
    name are truthy, and an amount or principal is truthy or the number
    0. *)
Theorem extracted_record_is_well_formed (today : string) (text : JsValue) (p : ParsedData) :
  exists e,
    extractExpenseData today (Some p) text = Some e
    /\ match e with
       | NewLoan d =>
           (nl_loan_type d = JString "personal" \/ nl_loan_type d = JString "bank")
           /\ (nl_loan_type d = JString "personal" <-> p_loan_type p = JString "personal")
           /\ truthy (nl_lender_name d) = true
           /\ truthy (nl_currency d) = true
           /\ (truthy (nl_principal_amount d) = true \/ nl_principal_amount d = num 0)
           /\ (truthy (nl_interest_rate d) = true \/ nl_interest_rate d = num 0)
           /\ (truthy (nl_tenure_months d) = true \/ nl_tenure_months d = JNull)
           /\ (truthy (nl_monthly_installment d) = true \/ nl_monthly_installment d = JNull)
       | LoanRepayment d =>
           truthy (lr_lender_name d) = true
           /\ truthy (lr_currency d) = true
           /\ (truthy (lr_amount d) = true \/ lr_amount d = num 0)
       | Transaction d =>
           (tx_type d = JString "income" \/ tx_type d = JString "expense")
           /\ (tx_type d = JString "income" <-> p_type p = JString "income")
           /\ truthy (tx_currency d) = true
           /\ truthy (tx_category d) = true
           /\ (truthy (tx_amount d) = true \/ tx_amount d = num 0)
       end.
Proof.
  assert (D : forall v d, truthy (v ||' d) = true \/ v ||' d = d).
  { intros v d. unfold js_or. destruct (truthy v) eqn:E; auto. }
  assert (K : forall v s t, s <> t ->
            ((if strict_eq v (JString s) then JString s else JString t) = JString s
             <-> v = JString s)).
  { intros v s t Hst. rewrite <- (strict_eq_string v s).
    destruct (strict_eq v (JString s)); split; congruence. }
  destruct (extract_by_intent today text p) as [[Hi _]|[[Hi _]|(H1 & H2 & _)]].
  - rewrite (extract_new_loan_record today text p Hi). eexists. split; [reflexivity|].
    cbn [nl_loan_type nl_lender_name nl_currency nl_principal_amount nl_interest_rate
         nl_tenure_months nl_monthly_installment].
    split; [destruct (strict_eq _ _); auto|].
    split; [apply K; discriminate|].
    split; [now apply truthy_or_default|]. split; [now apply truthy_or_default|].
    repeat split; apply D.
  - rewrite (extract_loan_repayment today text p Hi). eexists. split; [reflexivity|].
    cbn [lr_lender_name lr_currency lr_amount].
    split; [now apply truthy_or_default|]. split; [now apply truthy_or_default|apply D].
  - rewrite (extract_transaction today text p H1 H2). eexists. split; [reflexivity|].
    cbn [tx_type tx_currency tx_category tx_amount].
    split; [destruct (strict_eq _ _); auto|].
    split; [apply K; discriminate|].
    split; [now apply truthy_or_default|]. split; [now apply truthy_or_default|apply D].
Qed.

(** X2: normalising is idempotent: reading an extracted record back as a
    completion and extracting again, with the same text and on the same
    day, returns the record unchanged. *)
Theorem extraction_is_idempotent (today : string) (text : JsValue) (p : ParsedData)
    (e : Extracted) :
  extractExpenseData today (Some p) text = Some e ->
  extractExpenseData today (Some (Ledger.as_completion e)) text = Some e.
Proof.
  assert (K : forall v s t, s <> t ->
            (if strict_eq (if strict_eq v (JString s) then JString s else JString t)
                          (JString s)
             then JString s else JString t)
            = (if strict_eq v (JString s) then JString s else JString t)).
  { intros v s t Hst. destruct (strict_eq v (JString s)); simpl.
    - now rewrite String.eqb_refl.
    - apply String.eqb_neq in Hst. rewrite String.eqb_sym in Hst. now rewrite Hst. }
  intros H.
  destruct (extract_by_intent today text p) as [[Hi _]|[[Hi _]|(H1 & H2 & _)]].
  - rewrite (extract_new_loan_record today text p Hi) in H. injection H as <-.
    rewrite extract_new_loan_record by reflexivity.
    cbn [Ledger.as_completion p_lender_name p_loan_type p_principal_amount p_interest_rate
         p_tenure_months p_monthly_installment p_currency p_date p_notes
         nl_lender_name nl_loan_type nl_principal_amount nl_interest_rate
         nl_tenure_months nl_monthly_installment nl_currency nl_date nl_notes].
    rewrite !or_idempotent, K by discriminate. reflexivity.
  - rewrite (extract_loan_repayment today text p Hi) in H. injection H as <-.
    rewrite extract_loan_repayment by reflexivity.
    cbn [Ledger.as_completion p_lender_name p_amount p_currency p_date p_notes
         lr_lender_name lr_amount lr_currency lr_date lr_notes].
    rewrite !or_idempotent. reflexivity.
  - rewrite (extract_transaction today text p H1 H2) in H. injection H as <-.
    rewrite extract_transaction by (cbn; discriminate).
    cbn [Ledger.as_completion p_amount p_currency p_category p_type p_date p_notes
         tx_amount tx_currency tx_category tx_type tx_date tx_notes].
    rewrite !or_idempotent, K by discriminate. reflexivity.
Qed.

Lemma extraction_is_idempotent_witness :
  exists e,
    extractExpenseData Fixtures.anchor (Some Fixtures.spent_nothing) (JString "hello") = Some e
    /\ extractExpenseData Fixtures.anchor (Some (Ledger.as_completion e)) (JString "hello")
       = Some e.
Proof.
  eexists. split; [reflexivity|].
  apply (extraction_is_idempotent Fixtures.anchor (JString "hello") Fixtures.spent_nothing).
  reflexivity.
Defined.

(** ** The handler *)

(** X4: the current service handles every completion without a loan
    intent as the first revision did: the same store afterwards, the same
    error answers, and a reply carrying the same record, now tagged as a
    transaction; the two reply messages differ in nothing but the bytes
    of the leading emoji. *)
Theorem first_revision_is_preserved (svc : Services) (db : Db) (req : Request) :
  (forall p, completion svc = Some p ->
     p_intent p <> JString "new_loan" /\ p_intent p <> JString "loan_repayment") ->
  fst (process svc db req) = fst (V1.process svc db req)
  /\ match snd (V1.process svc db req) with
     | V1.BadRequest e => snd (process svc db req) = BadRequest e
     | V1.ServerError e => snd (process svc db req) = ServerError e
     | V1.Reply output data =>
         output = V1.generateResponseMessage data
         /\ snd (process svc db req)
            = Reply (generateResponseMessage data) (Transaction data)
         /\ exists old_emoji new_emoji rest,
              V1.generateResponseMessage data = old_emoji ++ rest
              /\ generateResponseMessage data = new_emoji ++ rest
              /\ (old_emoji = new_emoji
                  \/ (old_emoji = "ðŸ’¸" /\ new_emoji = "💸")
                  \/ (old_emoji = "ðŸ’°" /\ new_emoji = "💰"))
     end.
Proof.
  assert (M : forall d, exists old_emoji new_emoji rest,
              V1.generateResponseMessage d = old_emoji ++ rest
              /\ generateResponseMessage d = new_emoji ++ rest
              /\ (old_emoji = new_emoji
                  \/ (old_emoji = "ðŸ’¸" /\ new_emoji = "💸")
                  \/ (old_emoji = "ðŸ’°" /\ new_emoji = "💰"))).
  { intros d. unfold V1.generateResponseMessage, generateResponseMessage.
    destruct (negb (truthy (tx_amount d)) || negb (truthy (tx_type d))).
    - exists EmptyString, EmptyString. eexists. repeat split. now left.
    - destruct (strict_eq (tx_type d) (JString "expense")); do 3 eexists;
        (split; [reflexivity|split; [reflexivity|]]); auto. }
  intros H. unfold process, V1.process.
  destruct (negb (truthy (body_userId req))); [now split|].
  destruct (strict_eq (mode req) (JString "voice") && file req).
  - destruct (transcription svc) as [t|]; [|now split].
    destruct (completion svc) as [p|] eqn:Hc; [|now split].
    destruct (H p eq_refl) as [H1 H2].
    rewrite (extract_transaction _ _ p H1 H2). cbn [V1.extractExpenseData dispatch].
    destruct (truthy _ && truthy _); (split; [reflexivity|]); cbn [snd]; auto.
  - destruct (strict_eq (mode req) (JString "text") && truthy (text req)); [|now split].
    destruct (completion svc) as [p|] eqn:Hc; [|now split].
    destruct (H p eq_refl) as [H1 H2].
    rewrite (extract_transaction _ _ p H1 H2). cbn [V1.extractExpenseData dispatch].
    destruct (truthy _ && truthy _); (split; [reflexivity|]); cbn [snd]; auto.
Qed.

Lemma first_revision_is_preserved_witness :
  fst (process (Fixtures.answering Fixtures.spent_200) Fixtures.ledger
         (Fixtures.typed "Spent 200 on shopping today"))
  = fst (V1.process (Fixtures.answering Fixtures.spent_200) Fixtures.ledger
           (Fixtures.typed "Spent 200 on shopping today")).
Proof.
  apply (first_revision_is_preserved (Fixtures.answering Fixtures.spent_200)
           Fixtures.ledger (Fixtures.typed "Spent 200 on shopping today")).
  intros p Hp. injection Hp as <-. split; discriminate.
Defined.

Section ReplyFacts.

Variable svc : Services.
Variable db : Db.
Variable req : Request.

(** Where a reply comes from. *)
Lemma process_reply_inv (output : string) (e : Extracted) :
  snd (process svc db req) = Reply output e ->
  exists p inputText,
    completion svc = Some p
    /\ extractExpenseData (today svc) (Some p) inputText = Some e
    /\ process svc db req =
       (fst (dispatch svc db (body_userId req) inputText e),
        Reply (snd (dispatch svc db (body_userId req) inputText e)) e)
    /\ output = snd (dispatch svc db (body_userId req) inputText e).
Proof.
  assert (R : forall inputText,
            snd (match extractExpenseData (today svc) (completion svc) inputText with
                 | Some extractedData =>
                     let '(db', response) :=
                       dispatch svc db (body_userId req) inputText extractedData in
                     (db', Reply response extractedData)
                 | None => (db, ServerError "Failed to process request")
                 end) = Reply output e ->
            exists p,
              completion svc = Some p
              /\ extractExpenseData (today svc) (Some p) inputText = Some e
              /\ match extractExpenseData (today svc) (completion svc) inputText with
                 | Some extractedData =>
                     let '(db', response) :=
                       dispatch svc db (body_userId req) inputText extractedData in
                     (db', Reply response extractedData)
                 | None => (db, ServerError "Failed to process request")
                 end =
                 (fst (dispatch svc db (body_userId req) inputText e),
                  Reply (snd (dispatch svc db (body_userId req) inputText e)) e)
              /\ output = snd (dispatch svc db (body_userId req) inputText e)).
  { intros inputText. destruct (completion svc) as [p|]; [|discriminate].
    destruct (extract_total (today svc) inputText p) as (e' & He & _). rewrite He.
    destruct (dispatch svc db (body_userId req) inputText e') as [db' response] eqn:D.
    cbn. intros E. injection E as <- <-. exists p. rewrite D. auto. }
  unfold process.
  destruct (negb (truthy (body_userId req))); [discriminate|].
  destruct (strict_eq (mode req) (JString "voice") && file req).
  - destruct (transcription svc) as [t|]; [|discriminate].
    intros E. destruct (R _ E) as (p & ? & ? & ? & ?). exists p, (JString t). auto.
  - destruct (strict_eq (mode req) (JString "text") && truthy (text req)); [|discriminate].
    intros E. destruct (R _ E) as (p & ? & ? & ? & ?). exists p, (text req). auto.
Qed.

End ReplyFacts.

Lemma extract_inv (today : string) (text : JsValue) (p : ParsedData) (e : Extracted) :
  extractExpenseData today (Some p) text = Some e ->
  match e with
  | NewLoan d =>
      d = {| nl_lender_name := p_lender_name p ||' JString "Unknown";
             nl_loan_type := if strict_eq (p_loan_type p) (JString "personal")
                             then JString "personal" else JString "bank";
             nl_principal_amount := p_principal_amount p ||' num 0;
             nl_interest_rate := p_interest_rate p ||' num 0;
             nl_tenure_months := p_tenure_months p ||' JNull;
             nl_monthly_installment := p_monthly_installment p ||' JNull;
             nl_currency := p_currency p ||' JString "BDT";
             nl_date := p_date p ||' JString today;
             nl_notes := p_notes p ||' text |}
  | LoanRepayment d =>
      d = {| lr_lender_name := p_lender_name p ||' JString "Unknown";
             lr_amount := p_amount p ||' num 0;
             lr_currency := p_currency p ||' JString "BDT";
             lr_date := p_date p ||' JString today;
             lr_notes := p_notes p ||' text |}
  | Transaction d =>
      d = {| tx_amount := p_amount p ||' num 0;
             tx_currency := p_currency p ||' JString "BDT";
             tx_category := p_category p ||' JString "other";
             tx_notes := p_notes p ||' text;
             tx_type := if strict_eq (p_type p) (JString "income")
                        then JString "income" else JString "expense";
             tx_date := p_date p ||' JString today |}
  end.
Proof.
  intros H.
  destruct (extract_by_intent today text p) as [[Hi _]|[[Hi _]|(H1 & H2 & _)]].
  - rewrite (extract_new_loan_record today text p Hi) in H. now injection H as <-.
  - rewrite (extract_loan_repayment today text p Hi) in H. now injection H as <-.
  - rewrite (extract_transaction today text p H1 H2) in H. now injection H as <-.
Qed.

(** X5: the defaults the handler applies a second time never change a
    value: when the handler replies, what it did to the store is the call
    made with exactly the fields of the record it replies with, or nothing
    at all when the amount (the principal for a new loan) is 0. *)
Theorem handler_acts_on_the_replied_record
    (svc : Services) (db : Db) (req : Request) (output : string) (e : Extracted) :
  snd (process svc db req) = Reply output e ->
  match e with
  | Transaction d =>
      output = generateResponseMessage d
      /\ fst (process svc db req) =
         if truthy (tx_amount d) then
           saveTransaction db {|
             userId := body_userId req; amount := tx_amount d;
             currency := tx_currency d; category := tx_category d;
             notes := tx_notes d; type := tx_type d; date := tx_date d |}
         else db
  | LoanRepayment d =>
      if truthy (lr_amount d) then
        fst (process svc db req) =
          fst (recordLoanRepayment db (body_userId req) (lr_lender_name d) (lr_amount d)
                 (lr_date d) (lr_currency d))
        /\ output =
           generateRepaymentResponseMessage d
             (snd (recordLoanRepayment db (body_userId req) (lr_lender_name d)
                     (lr_amount d) (lr_date d) (lr_currency d)))
      else fst (process svc db req) = db /\ lr_amount d = num 0
  | NewLoan d =>
      if truthy (nl_principal_amount d) then
        output = generateLoanResponseMessage d
        /\ fst (process svc db req) =
           saveTransaction (fst (saveLoan db (body_userId req) d)) {|
             userId := body_userId req; amount := nl_principal_amount d;
             currency := nl_currency d; category := JString "loan";
             notes := JString ("Loan from " ++ ToString (nl_lender_name d));
             type := JString "income"; date := nl_date d |}
      else fst (process svc db req) = db /\ nl_principal_amount d = num 0
  end.
Proof.
  intros H.
  destruct (process_reply_inv svc db req output e H) as (p & inputText & _ & He & Hp & ->).
  rewrite Hp. cbn [fst snd]. apply extract_inv in He.
  destruct e as [d|d|d]; subst d;
    cbn [dispatch nl_principal_amount nl_currency nl_date nl_lender_name
         lr_amount lr_lender_name lr_date lr_currency
         tx_amount tx_type tx_currency tx_category tx_notes tx_date].
  - destruct (truthy (p_principal_amount p ||' num 0)) eqn:E.
    + rewrite !or_idempotent. split; reflexivity.
    + split; [reflexivity|now apply amount_zero_iff].
  - rewrite (truthy_or_default (p_lender_name p) (JString "Unknown") eq_refl), andb_true_r.
    destruct (truthy (p_amount p ||' num 0)) eqn:E.
    + rewrite !or_idempotent. destruct (recordLoanRepayment _ _ _ _ _ _). split; reflexivity.
    + split; [reflexivity|now apply amount_zero_iff].
  - assert (T : truthy (if strict_eq (p_type p) (JString "income")
                        then JString "income" else JString "expense") = true)
      by (destruct (strict_eq _ _); reflexivity).
    rewrite T, andb_true_r, !or_idempotent. split; reflexivity.
Qed.

Lemma handler_acts_on_the_replied_record_witness :
  exists d,
    snd (process (Fixtures.answering Fixtures.spent_200) Fixtures.ledger
           (Fixtures.typed "Spent 200 on shopping today"))
    = Reply (generateResponseMessage d) (Transaction d)
    /\ fst (process (Fixtures.answering Fixtures.spent_200) Fixtures.ledger
              (Fixtures.typed "Spent 200 on shopping today"))
       = if truthy (tx_amount d) then
           saveTransaction Fixtures.ledger {|
             userId := JString "user-a"; amount := tx_amount d;
             currency := tx_currency d; category := tx_category d;
             notes := tx_notes d; type := tx_type d; date := tx_date d |}
         else Fixtures.ledger.
Proof.
  eexists. split; [reflexivity|].
  apply (handler_acts_on_the_replied_record (Fixtures.answering Fixtures.spent_200)
           Fixtures.ledger (Fixtures.typed "Spent 200 on shopping today")
           _ (Transaction _) eq_refl).
Defined.

(** ** Repayments and the rest of the ledger *)

Section RepaymentFrame.

Variable db : Db.
Variables userId lenderName amount date currency : JsValue.

Lemma recordLoanRepayment_loans :
  loans (fst (recordLoanRepayment db userId lenderName amount date currency)) =
  match activeLoansMatching db userId lenderName with
  | [] => loans db
  | c :: _ =>
      map (fun l => if (l_id l =? l_id c)%nat
                    then with_balance l
                           (JNumber (num_add (Number (l_total_paid c)) (Number amount)))
                           (JNumber (Math_max (Fin 0)
                              (num_sub (Number (l_remaining_balance c)) (Number amount))))
                           (if num_le (num_sub (Number (l_remaining_balance c)) (Number amount))
                                      (Fin 0)
                            then paid_off else active)
                    else l) (loans db)
  end.
Proof.
  unfold recordLoanRepayment.
  destruct (activeLoansMatching db userId lenderName); reflexivity.
Qed.

Lemma recordLoanRepayment_ids :
  map l_id (loans (fst (recordLoanRepayment db userId lenderName amount date currency)))
  = map l_id (loans db).
Proof.
  rewrite recordLoanRepayment_loans.
  destruct (activeLoansMatching db userId lenderName) as [|c rest]; [reflexivity|].
  rewrite map_map. apply map_ext. intros l. now destruct (l_id l =? l_id c)%nat.
Qed.

(** A row whose id is not that of the first candidate is not touched. *)
Lemma recordLoanRepayment_other_rows (l : Loan) :
  In l (loans db) ->
  match activeLoansMatching db userId lenderName with
  | [] => True
  | c :: _ => l_id l <> l_id c
  end ->
  In l (loans (fst (recordLoanRepayment db userId lenderName amount date currency))).
Proof.
  intros Hin Hc. rewrite recordLoanRepayment_loans.
  destruct (activeLoansMatching db userId lenderName) as [|c rest]; [exact Hin|].
  apply in_map_iff. exists l. split; [|exact Hin].
  apply Nat.eqb_neq in Hc. now rewrite Hc.
Qed.

Lemma recordLoanRepayment_transactions :
  Supabase.transactions (fst (recordLoanRepayment db userId lenderName amount date currency)) =
  (Supabase.transactions db ++
   [{| t_id := next_id db;
       t_user_id := userId;
       t_amount := amount;
       t_currency := currency ||' JString "BDT";
       t_category := JString "loan_repayment";
       t_notes :=
         match activeLoansMatching db userId lenderName with
         | [] => JString ("Loan repayment to " ++ ToString lenderName
                          ++ " (no matching loan found)")
         | c :: _ => JString ("Loan repayment to " ++ ToString (l_lender_name c))
         end;
       t_type := JString "expense";
       t_date := date;
       t_created_at := next_id db |}])%list
  /\ Supabase.feedback (fst (recordLoanRepayment db userId lenderName amount date currency))
     = Supabase.feedback db
  /\ next_id (fst (recordLoanRepayment db userId lenderName amount date currency))
     = S (next_id db).
Proof.
  unfold recordLoanRepayment.
  destruct (activeLoansMatching db userId lenderName); repeat split.
Qed.

End RepaymentFrame.


(** A repayment whose insert fails after the update: the answer is 500,
    the loan is charged and the ledger has no row for it. *)
Example failed_insert_leaves_loan_charged :
  snd (Calls.handle (Fixtures.answering (Fixtures.repaid (JString "brac")))
         [true; true; false] Fixtures.ledger (Fixtures.typed "Paid 2000 to BRAC"))
  = ServerError "Failed to process request"
  /\ loanById
       (fst (Calls.handle (Fixtures.answering (Fixtures.repaid (JString "brac")))
               [true; true; false] Fixtures.ledger (Fixtures.typed "Paid 2000 to BRAC")))
       0
     = Some (Fixtures.loan_of 0 "user-a" "BRAC Bank" 2000 48000 active)
  /\ Supabase.transactions
       (fst (Calls.handle (Fixtures.answering (Fixtures.repaid (JString "brac")))
               [true; true; false] Fixtures.ledger (Fixtures.typed "Paid 2000 to BRAC")))
     = Supabase.transactions Fixtures.ledger.
Proof. split; [reflexivity|]. split; reflexivity. Qed.

(** X6: [recordLoanRepayment] run on its own while any of its three calls
    may fail.  When every call succeeds it writes what the embedding of
    the whole function writes, which adds one expense row for the caller
    with the amount, date and currency given.  Whatever fails, it either
    returns having written all of that, or throws having added no row,
    with the loans untouched or already charged: when a loan matched and
    the insert fails after the update, the loan stays charged and no
    expense row exists. *)
Theorem repayment_under_failing_calls
    (db : Db) (userId lenderName amount date currency : JsValue) (oks : list bool) :
  let whole := fst (recordLoanRepayment db userId lenderName amount date currency) in
  let ended := Calls.finish oks db (Calls.Select userId lenderName amount date currency) in
  Calls.finish [] db (Calls.Select userId lenderName amount date currency)
  = (whole, Calls.Returned)
  /\ (exists row,
        Supabase.transactions whole = (Supabase.transactions db ++ [row])%list
        /\ t_user_id row = userId
        /\ t_amount row = amount
        /\ t_currency row = currency ||' JString "BDT"
        /\ t_category row = JString "loan_repayment"
        /\ t_type row = JString "expense"
        /\ t_date row = date)
  /\ (snd ended = Calls.Returned /\ fst ended = whole
      \/ snd ended = Calls.Thrown
         /\ Supabase.transactions (fst ended) = Supabase.transactions db
         /\ Supabase.feedback (fst ended) = Supabase.feedback db
         /\ (loans (fst ended) = loans db \/ loans (fst ended) = loans whole))
  /\ (forall loan0 rest,
        activeLoansMatching db userId lenderName = loan0 :: rest ->
        let partial :=
          Calls.finish [true; true; false] db
            (Calls.Select userId lenderName amount date currency) in
        snd partial = Calls.Thrown
        /\ loans (fst partial) = loans whole
        /\ Supabase.transactions (fst partial) = Supabase.transactions db).
Proof.
  intros whole ended.
  destruct (recordLoanRepayment_transactions db userId lenderName amount date currency)
    as (Ht & _ & _).
  split; [|split; [eexists; split; [exact Ht|repeat split]|split]].
  - subst whole. unfold Calls.finish, recordLoanRepayment.
    cbn [Calls.alone hd tl Calls.advance Calls.perform].
    destruct (activeLoansMatching db userId lenderName); reflexivity.
  - apply finish_select.
  - intros loan0 rest Hm partial. subst partial whole.
    unfold Calls.finish, recordLoanRepayment.
    cbn [Calls.alone hd tl Calls.advance Calls.perform Calls.throw].
    rewrite Hm. repeat split.
Qed.

Section Isolation.

Variable db : Db.
Hypothesis db_wf : wf db = true.
Variable userId : JsValue.

Lemma recordLoanRepayment_isolated (lenderName amount date currency : JsValue) :
  (forall l, In l (loans db) -> l_user_id l <> userId ->
     In l (loans (fst (recordLoanRepayment db userId lenderName amount date currency))))
  /\ (forall l,
        In l (loans (fst (recordLoanRepayment db userId lenderName amount date currency))) ->
        In l (loans db) \/ l_user_id l = userId).
Proof.
  split.
  - intros l Hin Hu. apply recordLoanRepayment_other_rows; [exact Hin|].
    destruct (activeLoansMatching db userId lenderName) as [|c rest] eqn:E; [exact I|].
    destruct (activeLoansMatching_head _ _ _ _ _ E) as (Hc & _ & Hcu).
    intros Hid. apply Hu. rewrite (wf_unique db l c db_wf Hin Hc Hid).
    now apply eq_filter_true.
  - intros l. rewrite recordLoanRepayment_loans.
    destruct (activeLoansMatching db userId lenderName) as [|c rest] eqn:E; [now left|].
    destruct (activeLoansMatching_head _ _ _ _ _ E) as (Hc & _ & Hcu).
    intros Hin. apply in_map_iff in Hin as (x & Hx & Hin).
    destruct (l_id x =? l_id c)%nat eqn:Ex; [|subst; now left].
    apply Nat.eqb_eq in Ex. right. subst l. cbn [with_balance l_user_id].
    rewrite (wf_unique db x c db_wf Hin Hc Ex). now apply eq_filter_true.
Qed.

Lemma dispatch_isolated (svc : Services) (inputText : JsValue) (e : Extracted) :
  (exists added,
     Supabase.transactions (fst (dispatch svc db userId inputText e))
     = (Supabase.transactions db ++ added)%list
     /\ forall t, In t added -> t_user_id t = userId)
  /\ Supabase.feedback (fst (dispatch svc db userId inputText e)) = Supabase.feedback db
  /\ (forall l, In l (loans db) -> l_user_id l <> userId ->
        In l (loans (fst (dispatch svc db userId inputText e))))
  /\ (forall l, In l (loans (fst (dispatch svc db userId inputText e))) ->
        In l (loans db) \/ l_user_id l = userId).
Proof.
  assert (N : (exists added : list TransactionRow,
                 Supabase.transactions db = (Supabase.transactions db ++ added)%list
                 /\ forall t, In t added -> t_user_id t = userId)
              /\ Supabase.feedback db = Supabase.feedback db
              /\ (forall l, In l (loans db) -> l_user_id l <> userId -> In l (loans db))
              /\ (forall l, In l (loans db) -> In l (loans db) \/ l_user_id l = userId)).
  { split; [exists []; split; [now rewrite app_nil_r|contradiction]|]. auto. }
  destruct e as [d|d|d]; cbn [dispatch].
  - destruct (truthy (nl_principal_amount d)); [|exact N]. cbn.
    split; [eexists; split; [reflexivity|]|].
    { intros t [<-|[]]. reflexivity. }
    split; [reflexivity|]. split.
    + intros l Hin _. apply in_or_app. now left.
    + intros l Hin. apply in_app_iff in Hin as [Hin|[<-|[]]]; [now left|now right].
  - destruct (truthy (lr_amount d) && truthy (lr_lender_name d)); [|exact N].
    destruct (recordLoanRepayment db userId (lr_lender_name d) (lr_amount d)
                (lr_date d ||' JString (today svc)) (lr_currency d ||' JString "BDT"))
      as [db1 result] eqn:R.
    assert (F : db1 = fst (recordLoanRepayment db userId (lr_lender_name d) (lr_amount d)
                             (lr_date d ||' JString (today svc))
                             (lr_currency d ||' JString "BDT")))
      by now rewrite R.
    cbn [fst]. rewrite F.
    destruct (recordLoanRepayment_transactions db userId (lr_lender_name d) (lr_amount d)
                (lr_date d ||' JString (today svc)) (lr_currency d ||' JString "BDT"))
      as (Ht & Hf & _).
    split; [eexists; split; [exact Ht|]|].
    { intros t [<-|[]]. reflexivity. }
    split; [exact Hf|]. apply recordLoanRepayment_isolated.
  - destruct (truthy (tx_amount d) && truthy (tx_type d)); [|exact N]. cbn.
    split; [eexists; split; [reflexivity|]|].
    { intros t [<-|[]]. reflexivity. }
    auto.
Qed.

End Isolation.

(** X7: handling a request never touches what belongs to another user:
    on a store with unique loan ids, the transactions it adds carry the
    request's userId, every loan of another user is still there unchanged,
    every loan that is new or changed belongs to the request's user, and
    the feedback is as before. *)
Theorem request_touches_only_its_user (svc : Services) (db : Db) (req : Request) :
  wf db = true ->
  (exists added,
     Supabase.transactions (fst (process svc db req))
     = (Supabase.transactions db ++ added)%list
     /\ forall t, In t added -> t_user_id t = body_userId req)
  /\ Supabase.feedback (fst (process svc db req)) = Supabase.feedback db
  /\ (forall l, In l (loans db) -> l_user_id l <> body_userId req ->
        In l (loans (fst (process svc db req))))
  /\ (forall l, In l (loans (fst (process svc db req))) ->
        In l (loans db) \/ l_user_id l = body_userId req).
Proof.
  intros Hwf.
  destruct (process_cases svc db req) as [[r ->]|(i & e & He & ->)]; cbn [fst].
  - split; [exists []; split; [now rewrite app_nil_r|contradiction]|]. auto.
  - now apply dispatch_isolated.
Qed.

Lemma request_touches_only_its_user_witness :
  wf Fixtures.ledger = true
  /\ forall l,
       In l (loans Fixtures.ledger) -> l_user_id l <> JString "user-a" ->
       In l (loans (fst (process (Fixtures.answering (Fixtures.repaid (JString "bank")))
                           Fixtures.ledger (Fixtures.typed "Repaid 2000 to the bank")))).
Proof.
  split; [reflexivity|].
  apply (request_touches_only_its_user (Fixtures.answering (Fixtures.repaid (JString "bank")))
           Fixtures.ledger (Fixtures.typed "Repaid 2000 to the bank")).
  reflexivity.
Defined.



(** ** Origination *)

Section Origination.

Lemma strict_eq_refl (v : JsValue) : truthy v = true -> strict_eq v v = true.
Proof.
  destruct v as [| |b|[|c]|s]; simpl; try discriminate; intros _.
  - now destruct b.
  - apply Z.eqb_refl.
  - apply String.eqb_refl.
Qed.

Lemma prefixb_refl (p : list ascii) : prefixb p p = true.
Proof. rewrite <- (app_nil_r p) at 2. apply prefixb_app. Qed.

Lemma contains_ci_refl (name : string) : contains_ci name name = true.
Proof. unfold contains_ci. apply containsb_prefix, prefixb_refl. Qed.

Lemma activeLoansMatching_saveLoan (db : Db) (userId : JsValue) (d : NewLoanData) :
  truthy userId = true ->
  plain (ToString (nl_lender_name d)) = true ->
  activeLoansMatching (fst (saveLoan db userId d)) userId (nl_lender_name d)
  = (activeLoansMatching db userId (nl_lender_name d) ++ [snd (saveLoan db userId d)])%list.
Proof.
  intros Hu Hp. unfold activeLoansMatching. cbn [saveLoan fst snd loans].
  rewrite filter_app. f_equal. cbn [filter l_user_id l_status l_lender_name].
  unfold eq_filter. rewrite (strict_eq_refl _ Hu), ilike_plain by exact Hp.
  now rewrite contains_ci_refl.
Qed.

End Origination.

(** X9: a loan just saved starts active with nothing paid and the whole
    principal remaining, and a repayment naming its lender finds it: when
    the lender name holds no pattern character and no older active loan of
    the user matches it, repaying exactly the principal leaves the loan
    paid off with balance 0 and total_paid equal to the principal. *)
Theorem origination_then_full_repayment
    (db : Db) (userId : JsValue) (d : NewLoanData) (amount date currency : JsValue) (P : Z) :
  wf db = true ->
  truthy userId = true ->
  plain (ToString (nl_lender_name d)) = true ->
  activeLoansMatching db userId (nl_lender_name d) = [] ->
  Number (nl_principal_amount d) = Fin P ->
  Number amount = Fin P ->
  let db1 := fst (saveLoan db userId d) in
  let loan := snd (saveLoan db userId d) in
  l_status loan = active
  /\ l_total_paid loan = num 0
  /\ l_remaining_balance loan = nl_principal_amount d
  /\ loanById db1 (l_id loan) = Some loan
  /\ activeLoansMatching db1 userId (nl_lender_name d) = [loan]
  /\ exists stored,
       loanById (fst (recordLoanRepayment db1 userId (nl_lender_name d) amount date currency))
         (l_id loan) = Some stored
       /\ l_status stored = paid_off
       /\ l_remaining_balance stored = JNumber (Fin 0)
       /\ l_total_paid stored = JNumber (Fin P)
       /\ l_principal_amount stored = nl_principal_amount d.
Proof.
  intros Hwf Hu Hp Hnone HP HA db1 loan.
  assert (Hfresh : forall x, In x (loans db1) -> l_id x = l_id loan -> x = loan).
  { intros x Hx E. cbn in Hx. apply in_app_iff in Hx as [Hx|[<-|[]]]; [|reflexivity].
    apply (wf_bounded db x Hwf) in Hx. cbn in E. lia. }
  assert (Hm : activeLoansMatching db1 userId (nl_lender_name d) = [loan]).
  { unfold db1, loan. rewrite activeLoansMatching_saveLoan by assumption.
    now rewrite Hnone. }
  split; [reflexivity|]. split; [reflexivity|]. split; [reflexivity|].
  split.
  { unfold loanById.
    destruct (find (fun l => (l_id l =? l_id loan)%nat) (loans db1)) as [x|] eqn:F.
    - apply find_some in F as [Hx E]. apply Nat.eqb_eq in E. f_equal. now apply Hfresh.
    - assert (E : (l_id loan =? l_id loan)%nat = false).
      { apply (find_none _ _ F loan). cbn. apply in_or_app. right. now left. }
      rewrite Nat.eqb_refl in E. discriminate E. }
  split; [exact Hm|].
  destruct (repayment_stored db1 userId (nl_lender_name d) amount date currency _ _ Hm)
    as (x & Hx & Hid & Hf).
  assert (x = loan) by now apply Hfresh. subst x.
  eexists. split; [exact Hf|].
  cbn [with_balance l_status l_remaining_balance l_total_paid l_principal_amount].
  change (Number (l_remaining_balance loan)) with (Number (nl_principal_amount d)).
  change (Number (l_total_paid loan)) with (Fin 0).
  rewrite HP, HA. cbn [num_add num_sub num_le Math_max].
  rewrite Z.sub_diag. cbn. repeat split.
Qed.

Lemma origination_then_full_repayment_witness :
  wf empty = true
  /\ exists stored,
       loanById
         (fst (recordLoanRepayment
                 (fst (saveLoan empty (JString "user-a")
                         {| nl_lender_name := JString "BRAC Bank";
                            nl_loan_type := JString "bank";
                            nl_principal_amount := num 50000;
                            nl_interest_rate := num 12;
                            nl_tenure_months := num 24;
                            nl_monthly_installment := JNull;
                            nl_currency := JString "BDT";
                            nl_date := JString Fixtures.anchor;
                            nl_notes := JString "Loan from BRAC Bank" |}))
                 (JString "user-a") (JString "BRAC Bank") (num 50000)
                 (JString Fixtures.anchor) (JString "BDT"))) 0 = Some stored
       /\ l_status stored = paid_off.
Proof.
  split; [reflexivity|].
  destruct (origination_then_full_repayment empty (JString "user-a")
              {| nl_lender_name := JString "BRAC Bank";
                 nl_loan_type := JString "bank";
                 nl_principal_amount := num 50000;
                 nl_interest_rate := num 12;
                 nl_tenure_months := num 24;
                 nl_monthly_installment := JNull;
                 nl_currency := JString "BDT";
                 nl_date := JString Fixtures.anchor;
                 nl_notes := JString "Loan from BRAC Bank" |}
              (num 50000) (JString Fixtures.anchor) (JString "BDT") 5000000
              eq_refl eq_refl eq_refl eq_refl eq_refl eq_refl)
    as (_ & _ & _ & _ & _ & stored & Hf & Hs & _).
  exists stored. split; [exact Hf|exact Hs].
Defined.

(** ** Row ids *)

Section Ids.

Lemma existsb_eqb_In (x : nat) (l : list nat) : existsb (Nat.eqb x) l = true <-> In x l.
Proof.
  rewrite existsb_exists. split.
  - intros (y & Hy & E). apply Nat.eqb_eq in E. now subst.
  - intros H. exists x. split; [exact H|apply Nat.eqb_refl].
Qed.

Lemma nodupb_NoDup (l : list nat) : nodupb l = true <-> NoDup l.
Proof.
  induction l as [|x l IH]; simpl.
  - split; [constructor|reflexivity].
  - rewrite andb_true_iff, negb_true_iff, IH. split.
    + intros [Hx Hl]. constructor; [|exact Hl].
      intros Hin. apply existsb_eqb_In in Hin. congruence.
    + intros H. inversion H as [|? ? Hx Hl]; subst. split; [|exact Hl].
      destruct (existsb (Nat.eqb x) l) eqn:E; [|reflexivity].
      apply existsb_eqb_In in E. contradiction.
Qed.

Lemma NoDup_app_fresh (l : list nat) (n : nat) :
  NoDup l -> (forall x, In x l -> (x < n)%nat) -> NoDup (l ++ [n]).
Proof.
  induction 1 as [|x l Hx Hl IH]; intros Hb; simpl.
  - constructor; [simpl; tauto|constructor].
  - constructor.
    + intros Hin. apply in_app_iff in Hin as [Hin|[<-|[]]]; [contradiction|].
      specialize (Hb n (or_introl eq_refl)). lia.
    + apply IH. intros y Hy. apply Hb. now right.
Qed.

Lemma NoDup_map_filter {A : Type} (f : A -> nat) (g : A -> bool) (l : list A) :
  NoDup (map f l) -> NoDup (map f (filter g l)).
Proof.
  induction l as [|x l IH]; simpl; [auto|].
  intros H. inversion H as [|? ? Hx Hl]; subst.
  destruct (g x); [|now apply IH]. simpl. constructor; [|now apply IH].
  intros Hin. apply Hx. apply in_map_iff in Hin as (y & E & Hy).
  apply filter_In in Hy as [Hy _]. apply in_map_iff. eauto.
Qed.

(** Unique ids below the counter, for any table. *)
Lemma keyed_spec {A : Type} (key : A -> nat) (rows : list A) (next : nat) :
  nodupb (map key rows) && forallb (fun r => (key r <? next)%nat) rows = true <->
  NoDup (map key rows) /\ forall r, In r rows -> (key r < next)%nat.
Proof.
  rewrite andb_true_iff, nodupb_NoDup, forallb_forall.
  split; intros [H1 H2]; (split; [exact H1|]); intros r Hr.
  - now apply Nat.ltb_lt, H2.
  - now apply Nat.ltb_lt, H2.
Qed.

Lemma keyed_append {A : Type} (key : A -> nat) (rows : list A) (next : nat) (r : A) :
  key r = next ->
  (NoDup (map key rows) /\ forall x, In x rows -> (key x < next)%nat) ->
  NoDup (map key (rows ++ [r])) /\ forall x, In x (rows ++ [r]) -> (key x < S next)%nat.
Proof.
  intros E [H1 H2]. split.
  - rewrite map_app. cbn [map]. rewrite E. apply NoDup_app_fresh; [exact H1|].
    intros x Hx. apply in_map_iff in Hx as (y & <- & Hy). now apply H2.
  - intros x Hx. apply in_app_iff in Hx as [Hx|[<-|[]]]; [|lia].
    specialize (H2 x Hx). lia.
Qed.

Lemma keyed_later {A : Type} (key : A -> nat) (rows : list A) (next : nat) :
  (NoDup (map key rows) /\ forall x, In x rows -> (key x < next)%nat) ->
  NoDup (map key rows) /\ forall x, In x rows -> (key x < S next)%nat.
Proof. intros [H1 H2]. split; [exact H1|]. intros x Hx. specialize (H2 x Hx). lia. Qed.

Lemma keyed_filter {A : Type} (key : A -> nat) (g : A -> bool) (rows : list A) (next : nat) :
  (NoDup (map key rows) /\ forall x, In x rows -> (key x < next)%nat) ->
  NoDup (map key (filter g rows))
  /\ forall x, In x (filter g rows) -> (key x < next)%nat.
Proof.
  intros [H1 H2]. split; [now apply NoDup_map_filter|].
  intros x Hx. apply filter_In in Hx as [Hx _]. now apply H2.
Qed.

(** In the model the ids are drawn from the counter, so every call keeps
    them unique and below it. *)
Lemma step_keeps_ids (db : Db) (op : Op) :
  wf db = true -> Ledger.wf_transactions db = true ->
  wf (step db op) = true /\ Ledger.wf_transactions (step db op) = true.
Proof.
  unfold wf, Ledger.wf_transactions. rewrite !keyed_spec. intros L T.
  destruct op as [data|u n|tid|u s e|u d|u|lid|u ln a dt c|u un ue r cm]; cbn [step].
  - cbn. split; [now apply keyed_later|now apply keyed_append].
  - now split.
  - cbn. split; [exact L|now apply keyed_filter].
  - now split.
  - cbn. split; [now apply keyed_append|now apply keyed_later].
  - now split.
  - cbn. split; [now apply keyed_filter|exact T].
  - destruct (recordLoanRepayment_transactions db u ln a dt c) as (Ht & _ & Hn).
    rewrite Ht, Hn. split; [|now apply keyed_append].
    destruct (keyed_later _ _ _ L) as [L1 L2].
    rewrite recordLoanRepayment_ids. split; [exact L1|].
    intros x Hx.
    assert (Hid : In (l_id x) (map l_id (loans db))).
    { rewrite <- (recordLoanRepayment_ids db u ln a dt c). now apply in_map. }
    apply in_map_iff in Hid as (y & E & Hy). rewrite <- E. now apply L2.
  - cbn. split; [now apply keyed_later|now apply keyed_later].
Qed.

End Ids.

(** ** Deletions *)

Section Deletions.

Lemma filter_all {A : Type} (g : A -> bool) (l : list A) :
  (forall x, In x l -> g x = true) -> filter g l = l.
Proof.
  induction l as [|x l IH]; simpl; intros H; [reflexivity|].
  rewrite (H x (or_introl eq_refl)), IH; [reflexivity|]. intros y Hy. apply H. now right.
Qed.

Lemma filter_twice {A : Type} (g : A -> bool) (l : list A) :
  filter g (filter g l) = filter g l.
Proof.
  apply filter_all. intros x Hx. now apply filter_In in Hx.
Qed.

Lemma filter_drops_fresh {A : Type} (key : A -> nat) (rows : list A) (r : A) :
  (forall x, In x rows -> (key x < key r)%nat) ->
  filter (fun x => negb (key x =? key r)%nat) (rows ++ [r]) = rows.
Proof.
  intros H. rewrite filter_app. cbn [filter]. rewrite Nat.eqb_refl. cbn [negb].
  rewrite app_nil_r. apply filter_all. intros x Hx.
  apply negb_true_iff, Nat.eqb_neq. specialize (H x Hx). lia.
Qed.

End Deletions.

(** X11: deleting a transaction by id removes the rows with that id and
    nothing else: the other rows keep their order, loans and feedback are
    untouched, an id that is not in the table changes nothing, deleting
    twice is deleting once, and deleting the row a save has just inserted
    gives back the table as it was before the save. *)
Theorem deleteTransaction_is_exact (db : Db) (transactionId : nat) :
  Supabase.transactions (deleteTransaction db transactionId)
  = filter (fun t => negb (t_id t =? transactionId)%nat) (Supabase.transactions db)
  /\ loans (deleteTransaction db transactionId) = loans db
  /\ Supabase.feedback (deleteTransaction db transactionId) = Supabase.feedback db
  /\ ((forall t, In t (Supabase.transactions db) -> t_id t <> transactionId) ->
      deleteTransaction db transactionId = db)
  /\ deleteTransaction (deleteTransaction db transactionId) transactionId
     = deleteTransaction db transactionId
  /\ (Ledger.wf_transactions db = true ->
      forall data,
        Supabase.transactions (deleteTransaction (saveTransaction db data) (next_id db))
        = Supabase.transactions db).
Proof.
  split; [reflexivity|]. split; [reflexivity|]. split; [reflexivity|].
  split; [|split].
  - intros H. destruct db as [txs ls fb n]. unfold deleteTransaction. cbn in *.
    f_equal. apply filter_all. intros t Ht. now apply negb_true_iff, Nat.eqb_neq, H.
  - unfold deleteTransaction. cbn. now rewrite filter_twice.
  - intros Hwf data. unfold Ledger.wf_transactions in Hwf.
    apply keyed_spec in Hwf as [_ Hb]. cbn.
    apply (filter_drops_fresh t_id (Supabase.transactions db)
             {| t_id := next_id db; t_user_id := userId data; t_amount := amount data;
                t_currency := currency data; t_category := category data;
                t_notes := notes data; t_type := type data; t_date := date data;
                t_created_at := next_id db |}).
    exact Hb.
Qed.

(** X12: deleting a loan by id removes the loan rows with that id and
    nothing else: in particular the transactions derived from the loan
    stay in the ledger; an id that is not in the table changes nothing,
    deleting twice is deleting once, and deleting the loan a save has just
    inserted gives back the loans as they were. *)
Theorem deleteLoan_is_exact (db : Db) (loanId : nat) :
  loans (deleteLoan db loanId)
  = filter (fun l => negb (l_id l =? loanId)%nat) (loans db)
  /\ Supabase.transactions (deleteLoan db loanId) = Supabase.transactions db
  /\ Supabase.feedback (deleteLoan db loanId) = Supabase.feedback db
  /\ loanById (deleteLoan db loanId) loanId = None
  /\ ((forall l, In l (loans db) -> l_id l <> loanId) -> deleteLoan db loanId = db)
  /\ deleteLoan (deleteLoan db loanId) loanId = deleteLoan db loanId
  /\ (wf db = true ->
      forall userId data,
        loans (deleteLoan (fst (saveLoan db userId data))
                 (l_id (snd (saveLoan db userId data))))
        = loans db).
Proof.
  split; [reflexivity|]. split; [reflexivity|]. split; [reflexivity|].
  split; [|split; [|split]].
  - unfold loanById.
    destruct (find _ (loans (deleteLoan db loanId))) as [x|] eqn:F; [|reflexivity].
    apply find_some in F as [Hx E]. cbn in Hx. apply filter_In in Hx as [_ Hx].
    rewrite E in Hx. discriminate Hx.
  - intros H. destruct db as [txs ls fb n]. unfold deleteLoan. cbn in *.
    f_equal. apply filter_all. intros l Hl. now apply negb_true_iff, Nat.eqb_neq, H.
  - unfold deleteLoan. cbn. now rewrite filter_twice.
  - intros Hwf userId data. unfold wf in Hwf. apply keyed_spec in Hwf as [_ Hb]. cbn.
    apply (filter_drops_fresh l_id (loans db) (snd (saveLoan db userId data))).
    exact Hb.
Qed.

(** ** Listings *)

Section SortFacts.

Context {A : Type}.
Variable before : A -> A -> bool.
Hypothesis before_total : forall x y, before x y = false -> before y x = true.

Lemma insert_by_perm (x : A) (l : list A) : Permutation (insert_by before x l) (x :: l).
Proof.
  induction l as [|y l IH]; cbn [insert_by]; [reflexivity|].
  destruct (before x y); [reflexivity|].
  rewrite IH. apply perm_swap.
Qed.

Lemma sort_by_perm (l : list A) : Permutation (sort_by before l) l.
Proof.
  unfold sort_by. induction l as [|x l IH]; cbn [fold_right]; [reflexivity|].
  rewrite insert_by_perm. now constructor.
Qed.

Lemma insert_by_sorted (x : A) (l : list A) :
  Sorted (fun a b => before a b = true) l ->
  Sorted (fun a b => before a b = true) (insert_by before x l).
Proof.
  induction 1 as [|y l Hl IH Hy]; cbn [insert_by].
  - repeat constructor.
  - destruct (before x y) eqn:E.
    + constructor; [now constructor|now constructor].
    + constructor; [exact IH|].
      destruct l as [|z l]; cbn [insert_by].
      * constructor. now apply before_total.
      * destruct (before x z); constructor.
        -- now apply before_total.
        -- now inversion Hy.
Qed.

Lemma sort_by_sorted (l : list A) : Sorted (fun a b => before a b = true) (sort_by before l).
Proof.
  unfold sort_by. induction l as [|x l IH]; cbn [fold_right]; [constructor|].
  now apply insert_by_sorted.
Qed.

Lemma firstn_sorted (R : A -> A -> Prop) (n : nat) (l : list A) :
  Sorted R l -> Sorted R (firstn n l).
Proof.
  revert l. induction n as [|n IH]; intros l H; [constructor|].
  destruct l as [|x l]; [constructor|]. cbn [firstn].
  inversion H as [|? ? Hl Hx]; subst. constructor; [now apply IH|].
  destruct n; [constructor|]. destruct l as [|y l]; [constructor|].
  cbn [firstn]. constructor. now inversion Hx.
Qed.

End SortFacts.

Lemma newer_transaction_total (a b : TransactionRow) :
  newer_transaction a b = false -> newer_transaction b a = true.
Proof.
  unfold newer_transaction, String.ltb.
  set (da := ToString (t_date a)). set (db := ToString (t_date b)).
  rewrite (String.compare_antisym db da).
  destruct (String.compare da db) eqn:C; cbn [CompOpp]; intros H; try discriminate.
  - apply String.compare_eq_iff in C. rewrite C, String.eqb_refl in *.
    cbn [orb andb] in *. apply Nat.leb_gt in H. apply Nat.leb_le. lia.
  - reflexivity.
Qed.

(** X13: the transaction listing returns at most [limit] rows, all of
    them rows of the user asked for, each one at least as new as the next
    (later date first, later insertion first on equal dates); when the
    user has no more than [limit] rows it returns all of them, and the
    route lists at most 100. *)
Theorem listing_is_bounded_sorted_scoped (db : Db) (userId : JsValue) (limit : nat) :
  (List.length (getTransactions db userId limit) <= limit)%nat
  /\ (forall t, In t (getTransactions db userId limit) ->
        In t (Supabase.transactions db) /\ t_user_id t = userId)
  /\ Sorted (fun a b => newer_transaction a b = true) (getTransactions db userId limit)
  /\ ((List.length (filter (fun t => eq_filter (t_user_id t) userId) (Supabase.transactions db))
       <= limit)%nat ->
      Permutation (getTransactions db userId limit)
        (filter (fun t => eq_filter (t_user_id t) userId) (Supabase.transactions db)))
  /\ (List.length (Routes.listTransactions db userId) <= 100)%nat.
Proof.
  split; [apply firstn_le_length|].
  split; [apply getTransactions_own_rows|].
  split; [apply firstn_sorted, sort_by_sorted, newer_transaction_total|].
  split; [|apply firstn_le_length].
  intros H. unfold getTransactions. rewrite firstn_all2; [apply sort_by_perm|].
  now rewrite (Permutation_length (sort_by_perm newer_transaction _)).
Qed.

(** X14: the loan listing returns exactly the loans of the user asked
    for, each one created no earlier than the next. *)
Theorem loan_listing_is_sorted_scoped (db : Db) (userId : JsValue) :
  Permutation (getLoans db userId)
    (filter (fun l => eq_filter (l_user_id l) userId) (loans db))
  /\ (forall l, In l (getLoans db userId) -> In l (loans db) /\ l_user_id l = userId)
  /\ Sorted (fun a b => (l_created_at b <= l_created_at a)%nat) (getLoans db userId).
Proof.
  split; [apply sort_by_perm|]. split; [apply getLoans_own_rows|].
  assert (S : Sorted (fun a b => (l_created_at b <=? l_created_at a)%nat = true)
                (getLoans db userId)).
  { apply sort_by_sorted. intros x y H. apply Nat.leb_gt in H. apply Nat.leb_le. lia. }
  induction S as [|x l Hl IH Hx]; constructor; [exact IH|].
  destruct Hx as [|y l Hxy]; constructor. now apply Nat.leb_le.
Qed.

(** ** The summary *)

Section SummaryFacts.

Import JsMore.

Lemma total_app (kind : string) (a b : list Summary.Row) :
  Ledger.total kind (a ++ b) = Ledger.total kind a + Ledger.total kind b.
Proof. induction a as [|r a IH]; cbn [app Ledger.total]; [reflexivity|]. rewrite IH. lia. Qed.

Lemma all_finite_app (a b : list Summary.Row) :
  Ledger.all_finite (a ++ b) = Ledger.all_finite a && Ledger.all_finite b.
Proof. apply forallb_app. Qed.

Lemma adds_exactly_finite (rows : list Summary.Row) :
  Ledger.adds_exactly rows = true -> Ledger.all_finite rows = true.
Proof.
  unfold Ledger.adds_exactly, Ledger.all_finite. intros H.
  apply andb_true_iff in H as [H _]. rewrite forallb_forall in *.
  intros r Hr. specialize (H r Hr).
  now destruct (Summary.amount r) as [| |b|[|z]|t].
Qed.

Lemma magnitude_app (a b : list Summary.Row) :
  Ledger.magnitude (a ++ b) = Ledger.magnitude a + Ledger.magnitude b.
Proof.
  induction a as [|r a IH]; cbn [app Ledger.magnitude]; [reflexivity|]. rewrite IH. lia.
Qed.

Lemma magnitude_nonneg (rows : list Summary.Row) : 0 <= Ledger.magnitude rows.
Proof.
  induction rows as [|r rows IH]; cbn [Ledger.magnitude]; [lia|].
  destruct (Ledger.finite (Summary.amount r)); lia.
Qed.

(** Rows that add exactly still do when the last one is left out. *)
Lemma adds_exactly_app (a b : list Summary.Row) :
  Ledger.adds_exactly (a ++ b) = true -> Ledger.adds_exactly a = true.
Proof.
  unfold Ledger.adds_exactly. rewrite forallb_app, magnitude_app. intros H.
  apply andb_true_iff in H as [H M]. apply andb_true_iff in H as [H _].
  rewrite H. apply Z.leb_le in M. apply Z.leb_le.
  pose proof (magnitude_nonneg b). lia.
Qed.

(** The two running totals after the rows visited so far. *)
Lemma fold_visit_totals (rows : list Summary.Row) :
  Ledger.all_finite rows = true ->
  exists byCategory,
    fold_left Summary.visit rows (num 0, num 0, [])
    = (JNumber (Fin (Ledger.total "expense" rows)),
       JNumber (Fin (Ledger.total "income" rows)), byCategory).
Proof.
  induction rows as [|r rows IH] using rev_ind; intros H.
  - exists []. reflexivity.
  - rewrite all_finite_app in H. apply andb_true_iff in H as [Hrows Hr].
    destruct (IH Hrows) as [bc E]. rewrite fold_left_app, E, !total_app.
    cbn [fold_left Ledger.total]. cbn [Ledger.all_finite forallb] in Hr.
    unfold Summary.visit.
    destruct (Ledger.finite (Summary.amount r)) as [c|] eqn:F; [|discriminate Hr].
    assert (A : Summary.amount r = JNumber (Fin c)).
    { destruct (Summary.amount r) as [| |b|[|z]|s]; try discriminate F.
      now injection F as ->. }
    rewrite A. cbn [Ledger.finite].
    destruct (strict_eq (Summary.type r) (JString "expense")) eqn:T1.
    + apply strict_eq_string in T1. rewrite T1. cbn [strict_eq String.eqb Ascii.eqb Bool.eqb].
      eexists. cbn [js_plus Number num_add]. repeat f_equal; lia.
    + destruct (strict_eq (Summary.type r) (JString "income")) eqn:T2.
      * eexists. cbn [js_plus Number num_add]. repeat f_equal; lia.
      * eexists. repeat f_equal; lia.
Qed.

Lemma digit_of_spec (c : ascii) (k : nat) :
  digit_of c = Some k -> (k < 10)%nat /\ nat_of_ascii c = (48 + k)%nat.
Proof.
  unfold digit_of.
  destruct ((48 <=? nat_of_ascii c) && (nat_of_ascii c <=? 57))%nat eqn:E; [|discriminate].
  intros H. injection H as <-. apply andb_true_iff in E as [L U].
  apply Nat.leb_le in L, U. lia.
Qed.

(** Digits compare as the numbers they stand for. *)
Lemma digit_compare (c c' : ascii) (k k' : nat) :
  digit_of c = Some k -> digit_of c' = Some k' ->
  Ascii.compare c c' = Nat.compare k k'.
Proof.
  intros H H'. apply digit_of_spec in H as [_ H], H' as [_ H'].
  unfold Ascii.compare. rewrite Nnat.N2Nat.inj_compare.
  fold (nat_of_ascii c) (nat_of_ascii c'). rewrite H, H'.
  destruct (Nat.compare_spec k k');
    [apply Nat.compare_eq_iff|apply Nat.compare_lt_iff|apply Nat.compare_gt_iff]; lia.
Qed.

(** On dates in calendar form the order of the texts, which the model
    compares, is the order of the days, which the column compares. *)
Lemma text_order_is_day_order (a b : JsValue) :
  isCalendarDate a = true -> isCalendarDate b = true ->
  String.leb (ToString a) (ToString b) = (Ledger.day_number a <=? Ledger.day_number b).
Proof.
  destruct a as [| |?|?|s]; try discriminate. destruct b as [| |?|?|t]; try discriminate.
  unfold isCalendarDate, Ledger.day_number. cbn [ToString].
  do 10 (destruct s as [|? s]; [discriminate|]). destruct s; [|discriminate].
  do 10 (destruct t as [|? t]; [discriminate|]). destruct t; [|discriminate].
  cbn [list_ascii_of_string].
  repeat match goal with
  | |- context [digit_of ?c] =>
      let k := fresh "k" in let E := fresh "E" in
      destruct (digit_of c) as [k|] eqn:E; [|discriminate]
  end.
  intros Ha Hb.
  repeat match goal with
  | H : _ && _ = true |- _ => apply andb_true_iff in H as [H ?]
  end.
  repeat match goal with
  | H : Ascii.eqb _ _ = true |- _ => apply Ascii.eqb_eq in H; subst
  end.
  unfold String.leb. cbn [String.compare].
  repeat match goal with
  | H : digit_of ?c = Some ?k, H' : digit_of ?c' = Some ?k'
    |- context [Ascii.compare ?c ?c'] => rewrite (digit_compare c c' k k' H H')
  end.
  repeat match goal with
  | H : digit_of _ = Some _ |- _ => apply digit_of_spec in H as [H _]
  end.
  change (Ascii.compare "-" "-") with Eq. cbv iota.
  repeat match goal with
  | |- context [Nat.compare ?x ?y] =>
      destruct (Nat.compare_spec x y);
      [subst|symmetry; apply Z.leb_le; lia|symmetry; apply Z.leb_gt; lia]
  end.
  symmetry. apply Z.leb_le. lia.
Qed.

(** With dates in calendar form, the rows the query selects are the
    user's rows dated within the range. *)
Lemma selected_by_day (db : Db) (userId startDate endDate : JsValue) :
  Ledger.calendar_dates db userId startDate endDate = true ->
  Summary.selected db userId startDate endDate
  = Ledger.dated_rows db userId startDate endDate.
Proof.
  unfold Ledger.calendar_dates, Summary.selected, Ledger.dated_rows. intros H.
  apply andb_true_iff in H as [H He]. apply andb_true_iff in H as [H Hs].
  f_equal. induction (Supabase.transactions db) as [|t rows IH]; cbn [filter].
  - now destruct (truthy startDate), (truthy endDate).
  - cbn [forallb] in H. apply andb_true_iff in H as [Ht H]. specialize (IH H).
    destruct (eq_filter (t_user_id t) userId); cbn [negb orb andb] in Ht |- *;
      [|exact IH].
    unfold Ledger.within, Summary.gte, Summary.lte in *.
    destruct (truthy startDate), (truthy endDate); cbn [negb orb andb] in Hs, He |- *;
      cbn [filter];
      rewrite ?(text_order_is_day_order startDate (t_date t) Hs Ht),
              ?(text_order_is_day_order (t_date t) endDate Ht He).
    + destruct (Ledger.day_number startDate <=? Ledger.day_number (t_date t));
        cbn [filter andb]; [|exact IH].
      rewrite (text_order_is_day_order (t_date t) endDate Ht He).
      destruct (Ledger.day_number (t_date t) <=? Ledger.day_number endDate);
        [now rewrite IH|exact IH].
    + rewrite andb_true_r.
      destruct (Ledger.day_number startDate <=? Ledger.day_number (t_date t));
        [now rewrite IH|exact IH].
    + destruct (Ledger.day_number (t_date t) <=? Ledger.day_number endDate);
        [now rewrite IH|exact IH].
    + now rewrite IH.
Qed.

Lemma selected_own_rows (db : Db) (userId startDate endDate : JsValue) (r : Summary.Row) :
  In r (Summary.selected db userId startDate endDate) ->
  exists t,
    In t (Supabase.transactions db) /\ t_user_id t = userId
    /\ r = {| Summary.amount := t_amount t; Summary.type := t_type t;
              Summary.category := t_category t; Summary.currency := t_currency t |}.
Proof.
  unfold Summary.selected. intros H. apply in_map_iff in H as (t & <- & Ht).
  exists t. split; [|split; [|reflexivity]].
  - destruct (truthy endDate); [apply filter_In in Ht as [Ht _]|];
      (destruct (truthy startDate); [apply filter_In in Ht as [Ht _]|]);
      now apply filter_In in Ht.
  - apply eq_filter_true.
    destruct (truthy endDate); [apply filter_In in Ht as [Ht _]|];
      (destruct (truthy startDate); [apply filter_In in Ht as [Ht _]|]);
      now apply filter_In in Ht.
Qed.

End SummaryFacts.

(** X15: when the dates are in calendar form and the user's rows dated
    within the range add exactly (whole amounts, sums within 2^53), the
    summary's totalExpense is the sum of the amounts of those rows that
    are of type "expense", its totalIncome the sum over those of type
    "income", and its balance the income minus the expense; the rows it
    reports are rows of the user asked for, dated within the range. *)
Theorem summary_totals (db : Db) (userId startDate endDate : JsValue) :
  Ledger.calendar_dates db userId startDate endDate = true ->
  Ledger.adds_exactly (Ledger.dated_rows db userId startDate endDate) = true ->
  let s := Summary.getTransactionSummary db userId startDate endDate in
  let rows := Ledger.dated_rows db userId startDate endDate in
  Summary.totalExpense s = JNumber (Fin (Ledger.total "expense" rows))
  /\ Summary.totalIncome s = JNumber (Fin (Ledger.total "income" rows))
  /\ Summary.balance s
     = JNumber (Fin (Ledger.total "income" rows - Ledger.total "expense" rows))
  /\ forall r, In r (Summary.transactions s) ->
       exists t, In t (Supabase.transactions db) /\ t_user_id t = userId
                 /\ Ledger.within startDate endDate (t_date t) = true
                 /\ Summary.amount r = t_amount t /\ Summary.type r = t_type t.
Proof.
  intros Hd H s rows. apply adds_exactly_finite in H.
  unfold s, Summary.getTransactionSummary. rewrite (selected_by_day _ _ _ _ Hd).
  destruct (fold_visit_totals _ H) as [bc E]. fold rows in E |- *. rewrite E.
  cbn [Summary.transactions Summary.totalExpense Summary.totalIncome Summary.balance].
  repeat split.
  intros r Hr. unfold rows, Ledger.dated_rows in Hr.
  apply in_map_iff in Hr as (t & <- & Ht). apply filter_In in Ht as [Ht Hf].
  apply andb_true_iff in Hf as [Hu Hw].
  exists t. repeat split; [exact Ht|now apply eq_filter_true|exact Hw].
Qed.

Lemma summary_totals_witness :
  Summary.totalExpense
    (Summary.getTransactionSummary Fixtures.busy (JString "user-a")
       (JString "2025-11-01") (JString "2025-11-30"))
  = num 250
  /\ Summary.totalIncome
       (Summary.getTransactionSummary Fixtures.busy (JString "user-a")
          (JString "2025-11-01") (JString "2025-11-30"))
     = num 50000.
Proof.
  destruct (summary_totals Fixtures.busy (JString "user-a")
              (JString "2025-11-01") (JString "2025-11-30") eq_refl eq_refl)
    as (HE & HI & _).
  split; [exact HE|exact HI].
Defined.

Section ByCategoryFacts.

Import JsMore.

Lemma own_put_same (o : Summary.ByCategory) (key : string) (v : Summary.Totals) :
  Summary.own (Summary.put o key v) key = Some v.
Proof.
  induction o as [|[k w] o IH]; cbn [Summary.put Summary.own].
  - now rewrite String.eqb_refl.
  - destruct (String.eqb k key) eqn:E; cbn [Summary.own]; now rewrite E.
Qed.

Lemma own_put_other (o : Summary.ByCategory) (key key' : string) (v : Summary.Totals) :
  key <> key' -> Summary.own (Summary.put o key v) key' = Summary.own o key'.
Proof.
  intros N. induction o as [|[k w] o IH]; cbn [Summary.put Summary.own].
  - apply String.eqb_neq in N. now rewrite N.
  - destruct (String.eqb k key) eqn:E; cbn [Summary.own]; [|now rewrite IH].
    apply String.eqb_eq in E. subst k. apply String.eqb_neq in N. now rewrite N.
Qed.

Lemma category_total_app (b : bool) (key : string) (x y : list Summary.Row) :
  Ledger.category_total b key (x ++ y)
  = Ledger.category_total b key x + Ledger.category_total b key y.
Proof.
  induction x as [|r x IH]; cbn [app Ledger.category_total]; [reflexivity|]. rewrite IH. lia.
Qed.

Lemma category_total_absent (b : bool) (key : string) (rows : list Summary.Row) :
  Ledger.has_category key rows = false -> Ledger.category_total b key rows = 0.
Proof.
  unfold Ledger.has_category.
  induction rows as [|r rows IH]; cbn [existsb Ledger.category_total]; [reflexivity|].
  intros H. apply orb_false_iff in H as [E H]. rewrite E, IH by exact H. reflexivity.
Qed.

(** What [summary.byCategory] holds for a key after a run of rows. *)
Lemma fold_visit_byCategory (rows : list Summary.Row) :
  Ledger.all_finite rows = true ->
  (forall r, In r rows -> Summary.is_inherited (ToString (Summary.category r)) = false) ->
  forall key,
    Summary.own (snd (fold_left Summary.visit rows (num 0, num 0, []))) key
    = if Ledger.has_category key rows
      then Some {| Summary.expense := JNumber (Fin (Ledger.category_total true key rows));
                   Summary.income := JNumber (Fin (Ledger.category_total false key rows)) |}
      else None.
Proof.
  induction rows as [|r rows IH] using rev_ind; intros Hf Hi key; [reflexivity|].
  rewrite all_finite_app in Hf. apply andb_true_iff in Hf as [Hrows Hr].
  assert (Hi' : forall x, In x rows ->
                  Summary.is_inherited (ToString (Summary.category x)) = false)
    by (intros x Hx; apply Hi, in_or_app; now left).
  specialize (IH Hrows Hi').
  assert (Hk : Summary.is_inherited (ToString (Summary.category r)) = false)
    by (apply Hi, in_or_app; right; now left).
  rewrite fold_left_app. cbn [fold_left].
  destruct (fold_left Summary.visit rows (num 0, num 0, [])) as [[te ti] bc].
  cbn [snd] in IH. unfold Summary.visit. cbn [snd].
  cbn [Ledger.all_finite forallb] in Hr.
  destruct (Ledger.finite (Summary.amount r)) as [c|] eqn:F; [|discriminate Hr].
  assert (A : Summary.amount r = JNumber (Fin c)).
  { destruct (Summary.amount r) as [| |b|[|z]|s]; try discriminate F.
    now injection F as ->. }
  unfold Ledger.has_category. rewrite existsb_app, !category_total_app.
  fold (Ledger.has_category key rows). cbn [existsb Ledger.category_total]. rewrite F, Hk.
  set (k0 := ToString (Summary.category r)).
  assert (S : exists t,
            Summary.own (match Summary.own bc k0 with
                         | Some _ => bc
                         | None => Summary.put bc k0 {| Summary.expense := num 0;
                                                        Summary.income := num 0 |}
                         end) k0 = Some t
            /\ t = {| Summary.expense := JNumber (Fin (Ledger.category_total true k0 rows));
                      Summary.income := JNumber (Fin (Ledger.category_total false k0 rows)) |}).
  { rewrite (IH k0). destruct (Ledger.has_category k0 rows) eqn:Hc.
    - rewrite (IH k0), Hc. eauto.
    - rewrite own_put_same, !category_total_absent by exact Hc. eauto. }
  destruct S as (t & St & ->). rewrite St.
  destruct (String.eqb k0 key) eqn:K.
  - apply String.eqb_eq in K. subst key. rewrite orb_true_r. cbn [orb andb].
    destruct (strict_eq (Summary.type r) (JString "expense")) eqn:T;
      rewrite own_put_same; cbn [Bool.eqb Summary.expense Summary.income];
      rewrite A; cbn [js_plus Number num_add]; repeat f_equal; lia.
  - apply String.eqb_neq in K. rewrite orb_false_r. cbn [andb]. rewrite !Z.add_0_r.
    assert (O : Summary.own (match Summary.own bc k0 with
                             | Some _ => bc
                             | None => Summary.put bc k0 {| Summary.expense := num 0;
                                                            Summary.income := num 0 |}
                             end) key = Summary.own bc key).
    { destruct (Summary.own bc k0); [reflexivity|now apply own_put_other]. }
    destruct (strict_eq (Summary.type r) (JString "expense"));
      rewrite own_put_other, O by exact K; apply IH.
Qed.

End ByCategoryFacts.

(** X16: when the dates are in calendar form, the user's rows dated within
    the range add exactly and none of their categories is named like a
    property every object inherits, the summary holds an entry for exactly
    the categories that occur among those rows, with the sum of the
    category's expense rows as its expense and the sum of all its other
    rows as its income. *)
Theorem summary_by_category (db : Db) (userId startDate endDate : JsValue) (key : string) :
  Ledger.calendar_dates db userId startDate endDate = true ->
  Ledger.adds_exactly (Ledger.dated_rows db userId startDate endDate) = true ->
  (forall r, In r (Ledger.dated_rows db userId startDate endDate) ->
     Summary.is_inherited (ToString (Summary.category r)) = false) ->
  let rows := Ledger.dated_rows db userId startDate endDate in
  Summary.own (Summary.byCategory
                 (Summary.getTransactionSummary db userId startDate endDate)) key
  = if Ledger.has_category key rows
    then Some {| Summary.expense := JNumber (Fin (Ledger.category_total true key rows));
                 Summary.income := JNumber (Fin (Ledger.category_total false key rows)) |}
    else None.
Proof.
  intros Hd Hf Hi rows. apply adds_exactly_finite in Hf.
  unfold rows. rewrite <- (fold_visit_byCategory _ Hf Hi key).
  unfold Summary.getTransactionSummary. rewrite (selected_by_day _ _ _ _ Hd).
  now destruct (fold_left Summary.visit _ (num 0, num 0, [])) as [[te ti] bc].
Qed.

Lemma summary_by_category_witness :
  Summary.own (Summary.byCategory
                 (Summary.getTransactionSummary Fixtures.busy (JString "user-a")
                    (JString "2025-11-01") (JString "2025-11-30"))) "food"
  = Some {| Summary.expense := num 250; Summary.income := num 0 |}.
Proof.
  apply (summary_by_category Fixtures.busy (JString "user-a")
           (JString "2025-11-01") (JString "2025-11-30") "food").
  - reflexivity.
  - reflexivity.
  - intros r [<-|[<-|[<-|[]]]]; reflexivity.
Defined.

Section SummaryAfterSave.

Import JsMore.

Variable db : Db.
Variable data : NewTransaction.
Variables u startDate endDate : JsValue.

Hypothesis own_row : eq_filter (userId data) u = true.
Hypothesis after_start : truthy startDate = true -> Summary.gte (date data) startDate = true.
Hypothesis before_end : truthy endDate = true -> Summary.lte (date data) endDate = true.

Lemma selected_saveTransaction :
  Summary.selected (saveTransaction db data) u startDate endDate
  = (Summary.selected db u startDate endDate
     ++ [{| Summary.amount := amount data; Summary.type := type data;
            Summary.category := category data; Summary.currency := currency data |}])%list.
Proof.
  unfold Summary.selected. cbn [saveTransaction Supabase.transactions].
  rewrite filter_app. cbn [filter t_user_id]. rewrite own_row.
  destruct (truthy startDate) eqn:S, (truthy endDate) eqn:E;
    rewrite ?filter_app; cbn [filter t_date];
    rewrite ?(after_start eq_refl), ?(before_end eq_refl);
    rewrite ?filter_app; cbn [filter t_date];
    rewrite ?(after_start eq_refl), ?(before_end eq_refl);
    now rewrite map_app.
Qed.

End SummaryAfterSave.

(** X17: a saved expense shows in the summary: when an expense of a whole
    amount c is saved for the user, dated within the range asked for, all
    dates are in calendar form and the user's rows within the range add
    exactly afterwards, the summary's totalExpense rises by c, its
    totalIncome stays and its balance falls by c. *)
Theorem saved_expense_shows_in_summary
    (db : Db) (data : NewTransaction) (u startDate endDate : JsValue) (c : Z) :
  Ledger.calendar_dates (saveTransaction db data) u startDate endDate = true ->
  Ledger.adds_exactly
    (Ledger.dated_rows (saveTransaction db data) u startDate endDate) = true ->
  eq_filter (userId data) u = true ->
  Ledger.within startDate endDate (date data) = true ->
  type data = JString "expense" ->
  amount data = JNumber (Fin c) ->
  let before := Summary.getTransactionSummary db u startDate endDate in
  let after := Summary.getTransactionSummary (saveTransaction db data) u startDate endDate in
  exists E I,
    Summary.totalExpense before = JNumber (Fin E)
    /\ Summary.totalIncome before = JNumber (Fin I)
    /\ Summary.balance before = JNumber (Fin (I - E))
    /\ Summary.totalExpense after = JNumber (Fin (E + c))
    /\ Summary.totalIncome after = JNumber (Fin I)
    /\ Summary.balance after = JNumber (Fin (I - E - c)).
Proof.
  intros Hd Hx Hu Hw Ht Ha before after.
  rewrite <- (selected_by_day _ _ _ _ Hd) in Hx.
  assert (Hr : (truthy startDate = true -> Summary.gte (date data) startDate = true)
               /\ (truthy endDate = true -> Summary.lte (date data) endDate = true)).
  { unfold Ledger.calendar_dates in Hd.
    apply andb_true_iff in Hd as [Hd Hce]. apply andb_true_iff in Hd as [Hd Hcs].
    cbn [saveTransaction Supabase.transactions] in Hd.
    rewrite forallb_app in Hd. apply andb_true_iff in Hd as [_ Hd].
    cbn [forallb t_user_id t_date] in Hd. rewrite Hu in Hd. cbn [negb orb] in Hd.
    rewrite andb_true_r in Hd.
    unfold Ledger.within in Hw. apply andb_true_iff in Hw as [Hws Hwe].
    unfold Summary.gte, Summary.lte. split; intros T.
    - rewrite T in Hcs, Hws. cbn [negb orb] in Hcs, Hws.
      now rewrite text_order_is_day_order.
    - rewrite T in Hce, Hwe. cbn [negb orb] in Hce, Hwe.
      now rewrite text_order_is_day_order. }
  destruct Hr as [Hs He].
  assert (Hf' : Ledger.all_finite
                  (Summary.selected (saveTransaction db data) u startDate endDate) = true)
    by now apply adds_exactly_finite.
  assert (Hf : Ledger.all_finite (Summary.selected db u startDate endDate) = true).
  { rewrite selected_saveTransaction in Hx by assumption.
    now apply adds_exactly_app, adds_exactly_finite in Hx. }
  destruct (fold_visit_totals _ Hf) as [bc E1].
  destruct (fold_visit_totals _ Hf') as [bc' E2].
  rewrite selected_saveTransaction in E2 by assumption.
  exists (Ledger.total "expense" (Summary.selected db u startDate endDate)),
         (Ledger.total "income" (Summary.selected db u startDate endDate)).
  unfold before, after, Summary.getTransactionSummary.
  rewrite selected_saveTransaction by assumption. rewrite E1, E2, !total_app.
  cbn [Summary.totalExpense Summary.totalIncome Summary.balance Ledger.total
       Summary.type Summary.amount].
  rewrite Ht, Ha. unfold JsMore.js_minus. cbn. repeat split; do 2 f_equal; lia.
Qed.

Lemma saved_expense_shows_in_summary_witness :
  Summary.totalExpense
    (Summary.getTransactionSummary
       (saveTransaction Fixtures.busy
          {| userId := JString "user-a"; amount := num 30; currency := JString "BDT";
             category := JString "food"; notes := JString "tea";
             type := JString "expense"; date := JString "2025-11-30" |})
       (JString "user-a") (JString "2025-11-01") (JString "2025-11-30"))
  = num 280.
Proof.
  destruct (saved_expense_shows_in_summary Fixtures.busy
              {| userId := JString "user-a"; amount := num 30; currency := JString "BDT";
                 category := JString "food"; notes := JString "tea";
                 type := JString "expense"; date := JString "2025-11-30" |}
              (JString "user-a") (JString "2025-11-01") (JString "2025-11-30") 3000
              eq_refl eq_refl eq_refl eq_refl eq_refl eq_refl)
    as (E & I & HE & _ & _ & HA & _).
  rewrite HA. injection HE as <-. reflexivity.
Defined.

(** ** What other users see *)

Section OtherUsers.

Lemma filter_map_fixed {A : Type} (g : A -> bool) (f : A -> A) (l : list A) :
  (forall x, In x l -> g (f x) = g x) ->
  (forall x, In x l -> g x = true -> f x = x) ->
  filter g (map f l) = filter g l.
Proof.
  induction l as [|x l IH]; cbn [map filter]; intros H1 H2; [reflexivity|].
  rewrite (H1 x (or_introl eq_refl)).
  rewrite IH;
    [|intros y Hy; apply H1; now right|intros y Hy G; apply H2; [now right|exact G]].
  destruct (g x) eqn:G; [|reflexivity]. now rewrite (H2 x (or_introl eq_refl) G).
Qed.

Lemma filter_none {A : Type} (g : A -> bool) (l : list A) :
  (forall x, In x l -> g x = false) -> filter g l = [].
Proof.
  induction l as [|x l IH]; cbn [filter]; intros H; [reflexivity|].
  rewrite (H x (or_introl eq_refl)). apply IH. intros y Hy. apply H. now right.
Qed.

Lemma filter_andb {A : Type} (a b : A -> bool) (l : list A) :
  filter (fun x => a x && b x) l = filter b (filter a l).
Proof.
  induction l as [|x l IH]; cbn [filter]; [reflexivity|].
  destruct (a x); cbn [andb filter]; now rewrite IH.
Qed.

Variable db : Db.
Hypothesis db_wf : wf db = true.
Variables userId u : JsValue.
Hypothesis other : eq_filter userId u = false.

Lemma recordLoanRepayment_other_user (lenderName amount date currency : JsValue) :
  filter (fun l => eq_filter (l_user_id l) u)
    (loans (fst (recordLoanRepayment db userId lenderName amount date currency)))
  = filter (fun l => eq_filter (l_user_id l) u) (loans db).
Proof.
  rewrite recordLoanRepayment_loans.
  destruct (activeLoansMatching db userId lenderName) as [|c rest] eqn:E; [reflexivity|].
  destruct (activeLoansMatching_head _ _ _ _ _ E) as (Hc & _ & Hcu).
  apply eq_filter_true in Hcu.
  apply filter_map_fixed.
  - intros x _. now destruct (l_id x =? l_id c)%nat.
  - intros x Hx Hg. destruct (l_id x =? l_id c)%nat eqn:Ex; [|reflexivity].
    apply Nat.eqb_eq in Ex. rewrite (wf_unique db x c db_wf Hx Hc Ex), Hcu in Hg.
    congruence.
Qed.

Lemma dispatch_other_user (svc : Services) (inputText : JsValue) (e : Extracted) :
  filter (fun t => eq_filter (t_user_id t) u)
    (Supabase.transactions (fst (dispatch svc db userId inputText e)))
  = filter (fun t => eq_filter (t_user_id t) u) (Supabase.transactions db)
  /\ filter (fun l => eq_filter (l_user_id l) u)
       (loans (fst (dispatch svc db userId inputText e)))
     = filter (fun l => eq_filter (l_user_id l) u) (loans db).
Proof.
  split.
  - destruct (dispatch_isolated db db_wf userId svc inputText e) as ((added & -> & Ha) & _).
    rewrite filter_app, (filter_none _ added), app_nil_r; [reflexivity|].
    intros t Ht. now rewrite (Ha t Ht).
  - destruct e as [d|d|d]; cbn [dispatch].
    + destruct (truthy (nl_principal_amount d)); [|reflexivity]. cbn.
      rewrite filter_app. cbn [filter l_user_id]. rewrite other. apply app_nil_r.
    + destruct (truthy (lr_amount d) && truthy (lr_lender_name d)); [|reflexivity].
      destruct (recordLoanRepayment db userId (lr_lender_name d) (lr_amount d)
                  (lr_date d ||' JString (today svc)) (lr_currency d ||' JString "BDT"))
        as [db1 result] eqn:R.
      assert (F : db1 = fst (recordLoanRepayment db userId (lr_lender_name d) (lr_amount d)
                               (lr_date d ||' JString (today svc))
                               (lr_currency d ||' JString "BDT")))
        by now rewrite R.
      cbn [fst]. rewrite F. apply recordLoanRepayment_other_user.
    + destruct (truthy (tx_amount d) && truthy (tx_type d)); reflexivity.
Qed.

End OtherUsers.

(** X18: what a request of one user does is invisible to every other
    user: on a store with unique loan ids, the transaction listing, the
    loan listing, the summary and the repayment candidates of a user other
    than the request's are the same before and after the request. *)
Theorem other_users_see_no_change (svc : Services) (db : Db) (req : Request) (u : JsValue) :
  wf db = true ->
  eq_filter (body_userId req) u = false ->
  (forall limit,
     getTransactions (fst (process svc db req)) u limit = getTransactions db u limit)
  /\ getLoans (fst (process svc db req)) u = getLoans db u
  /\ (forall startDate endDate,
        Summary.getTransactionSummary (fst (process svc db req)) u startDate endDate
        = Summary.getTransactionSummary db u startDate endDate)
  /\ (forall lenderName,
        activeLoansMatching (fst (process svc db req)) u lenderName
        = activeLoansMatching db u lenderName).
Proof.
  intros Hwf Ho.
  assert (H : filter (fun t => eq_filter (t_user_id t) u)
                (Supabase.transactions (fst (process svc db req)))
              = filter (fun t => eq_filter (t_user_id t) u) (Supabase.transactions db)
              /\ filter (fun l => eq_filter (l_user_id l) u)
                   (loans (fst (process svc db req)))
                 = filter (fun l => eq_filter (l_user_id l) u) (loans db)).
  { destruct (process_cases svc db req) as [[r ->]|(i & e & He & ->)]; cbn [fst].
    - now split.
    - now apply dispatch_other_user. }
  destruct H as [Ht Hl].
  split; [|split; [|split]].
  - intros limit. unfold getTransactions. now rewrite Ht.
  - unfold getLoans. now rewrite Hl.
  - intros s e. unfold Summary.getTransactionSummary, Summary.selected. now rewrite Ht.
  - intros lenderName. unfold activeLoansMatching.
    rewrite !(filter_andb (fun l => eq_filter (l_user_id l) u && status_eqb (l_status l) active)),
            !(filter_andb (fun l => eq_filter (l_user_id l) u)).
    now rewrite Hl.
Qed.

Lemma other_users_see_no_change_witness :
  wf Fixtures.ledger = true
  /\ getLoans (fst (process (Fixtures.answering (Fixtures.repaid (JString "bank")))
                      Fixtures.ledger (Fixtures.typed "Repaid 2000 to the bank")))
       (JString "user-b")
     = getLoans Fixtures.ledger (JString "user-b").
Proof.
  split; [reflexivity|].
  apply (other_users_see_no_change (Fixtures.answering (Fixtures.repaid (JString "bank")))
           Fixtures.ledger (Fixtures.typed "Repaid 2000 to the bank") (JString "user-b"));
    reflexivity.
Defined.

(** ** The feedback route *)

(** X19: the feedback route, for a request that carries a userId and a
    rating that reads as a number of whole hundredths: the request is
    turned down with 400 exactly when that number is below 1 or above 5.
    A request turned down leaves the store as it was, and so does one
    whose insert fails (answer 500); when the insert succeeds, one
    feedback row is added, with the userId and the rating as they were
    sent, and no transaction and no loan is touched.  With an insert that
    succeeds the route is [Routes.feedback]. *)
Theorem feedback_validation (ok : bool) (db : Db) (body : Routes.FeedbackBody) (c : Z) :
  truthy (Routes.userId body) = true ->
  Number (Routes.rating body) = Fin c ->
  (snd (Calls.feedbackRoute ok db body)
   = Calls.Answered (Routes.Rejected "rating must be between 1 and 5")
   <-> c < 100 \/ 500 < c)
  /\ match snd (Calls.feedbackRoute ok db body) with
     | Calls.Answered (Routes.Rejected _) => fst (Calls.feedbackRoute ok db body) = db
     | Calls.Failed _ => ok = false /\ fst (Calls.feedbackRoute ok db body) = db
     | Calls.Answered (Routes.Submitted _) =>
         ok = true
         /\ 100 <= c <= 500
         /\ Supabase.transactions (fst (Calls.feedbackRoute ok db body))
            = Supabase.transactions db
         /\ loans (fst (Calls.feedbackRoute ok db body)) = loans db
         /\ exists row,
              Supabase.feedback (fst (Calls.feedbackRoute ok db body))
              = (Supabase.feedback db ++ [row])%list
              /\ f_user_id row = Routes.userId body
              /\ f_rating row = Routes.rating body
     end
  /\ Calls.feedbackRoute true db body
     = (fst (Routes.feedback db body), Calls.Answered (snd (Routes.feedback db body))).
Proof.
  intros Hu Hc.
  assert (Ht : 100 <= c -> truthy (Routes.rating body) = true).
  { intros Hle. destruct (Routes.rating body) as [| |b|[|z]|r].
    - discriminate Hc.
    - cbn in Hc. injection Hc as Hc. lia.
    - destruct b; [reflexivity|]. cbn in Hc. injection Hc as Hc. lia.
    - discriminate Hc.
    - cbn in Hc. injection Hc as Hc. cbn. apply negb_true_iff, Z.eqb_neq. lia.
    - destruct r; [|reflexivity]. cbn in Hc. injection Hc as Hc. lia. }
  unfold Calls.feedbackRoute, Routes.feedback. rewrite Hu, Hc. cbn [negb JsMore.num_lt].
  destruct (Z.ltb_spec c 100) as [L|L].
  - rewrite orb_true_r. cbn [orb fst snd]. repeat split; auto.
  - rewrite (Ht L). cbn [negb orb].
    destruct (Z.ltb_spec 500 c) as [G|G]; cbn [fst snd].
    + repeat split; auto.
    + unfold Calls.advance. destruct ok; cbn [Calls.perform Calls.throw fst snd].
      * split; [split; [discriminate|lia]|]. split; [|reflexivity].
        split; [reflexivity|]. split; [lia|]. split; [reflexivity|].
        split; [reflexivity|]. eexists. repeat split.
      * split; [split; [discriminate|lia]|]. split; [|reflexivity]. split; reflexivity.
Qed.

Lemma feedback_validation_witness :
  snd (Calls.feedbackRoute true Fixtures.ledger
         {| Routes.userId := JString "user-a"; Routes.userName := JNull;
            Routes.userEmail := JNull; Routes.rating := num 7;
            Routes.comment := JString "too many stars" |})
  = Calls.Answered (Routes.Rejected "rating must be between 1 and 5")
  /\ map f_rating
       (Supabase.feedback
          (fst (Calls.feedbackRoute true Fixtures.ledger
                  {| Routes.userId := JString "user-a"; Routes.userName := JNull;
                     Routes.userEmail := JNull; Routes.rating := JString "4";
                     Routes.comment := JNull |}))) = [JString "4"].
Proof.
  split.
  - apply (feedback_validation true Fixtures.ledger
             {| Routes.userId := JString "user-a"; Routes.userName := JNull;
                Routes.userEmail := JNull; Routes.rating := num 7;
                Routes.comment := JString "too many stars" |} 700 eq_refl eq_refl).
    right. lia.
  - destruct (feedback_validation true Fixtures.ledger
                {| Routes.userId := JString "user-a"; Routes.userName := JNull;
                   Routes.userEmail := JNull; Routes.rating := JString "4";
                   Routes.comment := JNull |} 400 eq_refl eq_refl) as (_ & H & _).
    cbn in H. destruct H as (_ & _ & _ & _ & row & E & _ & R).
    reflexivity.
Defined.

(** ** Lender names without pattern characters *)

(** X20: for a lender name that holds none of the characters
    [%], [_], [*] and backslash, the candidates of a repayment are exactly
    the user's active loans whose stored lender name contains the name,
    compared case-insensitively, in table order. *)
Theorem plain_lender_candidates (db : Db) (userId lenderName : JsValue) :
  plain (ToString lenderName) = true ->
  activeLoansMatching db userId lenderName
  = filter (fun l =>
              eq_filter (l_user_id l) userId
              && status_eqb (l_status l) active
              && contains_ci (ToString lenderName) (ToString (l_lender_name l)))
      (loans db).
Proof.
  intros Hp. unfold activeLoansMatching. apply filter_ext. intros l.
  now rewrite ilike_plain.
Qed.

Lemma plain_lender_candidates_witness :
  plain "brac" = true
  /\ activeLoansMatching Fixtures.ledger (JString "user-a") (JString "brac")
     = filter (fun l =>
                 eq_filter (l_user_id l) (JString "user-a")
                 && status_eqb (l_status l) active
                 && contains_ci "brac" (ToString (l_lender_name l)))
         (loans Fixtures.ledger).
Proof.
  split; [reflexivity|].
  apply (plain_lender_candidates Fixtures.ledger (JString "user-a") (JString "brac")).
  reflexivity.
Defined.

(** X21: a repayment to a lender name without pattern characters that no
    active loan of the user contains, whatever the case, changes no loan,
    appends one expense row of category "loan_repayment" whose notes
    contain "no matching loan found", and returns no loan. *)
Theorem plain_lender_without_match_is_plain_expense
    (db : Db) (userId lenderName amount date currency : JsValue) :
  plain (ToString lenderName) = true ->
  (forall l, In l (loans db) -> eq_filter (l_user_id l) userId = true ->
             l_status l = active ->
             contains_ci (ToString lenderName) (ToString (l_lender_name l)) = false) ->
  loans (fst (recordLoanRepayment db userId lenderName amount date currency)) = loans db
  /\ loan (snd (recordLoanRepayment db userId lenderName amount date currency)) = None
  /\ exists row,
       Supabase.transactions (fst (recordLoanRepayment db userId lenderName amount date currency))
       = (Supabase.transactions db ++ [row])%list
       /\ t_user_id row = userId
       /\ t_amount row = amount
       /\ t_type row = JString "expense"
       /\ t_category row = JString "loan_repayment"
       /\ exists s, t_notes row = JString s
                    /\ contains "no matching loan found" s = true.
Proof.
  intros Hp Hn. apply unmatched_repayment_is_plain_expense.
  now apply plain_lender_without_substring_match.
Qed.

Lemma plain_lender_without_match_is_plain_expense_witness :
  plain "Rahim" = true
  /\ loan (snd (recordLoanRepayment Fixtures.ledger (JString "user-a") (JString "Rahim")
                  (num 100) (JString Fixtures.anchor) (JString "BDT"))) = None.
Proof.
  split; [reflexivity|].
  apply (plain_lender_without_match_is_plain_expense Fixtures.ledger (JString "user-a")
           (JString "Rahim") (num 100) (JString Fixtures.anchor) (JString "BDT")).
  - reflexivity.
  - intros l [<-|[<-|[<-|[]]]] Hu Ha; first [reflexivity|discriminate Ha|discriminate Hu].
Defined.

(** X22: an empty lender name is contained in every name: the candidates
    of a repayment to the empty name are all the active loans of the
    user. *)
Theorem empty_lender_matches_every_active_loan (db : Db) (userId : JsValue) :
  activeLoansMatching db userId (JString EmptyString)
  = filter (fun l => eq_filter (l_user_id l) userId && status_eqb (l_status l) active)
      (loans db).
Proof.
  unfold activeLoansMatching. apply filter_ext. intros l.
  rewrite ilike_plain by reflexivity.
  unfold contains_ci. cbn [ToString list_ascii_of_string map].
  rewrite containsb_prefix by reflexivity. apply andb_true_r.
Qed.

(** ** Paid-off loans under overlapping requests *)

Section PaidOffRequests.

Import Calls.

Variable l : Loan.

Lemma perform_keeps_row (db : Db) (p : Pending) :
  In l (loans db) ->
  updates (l_id l) p = false ->
  deletes (l_id l) p = false ->
  In l (loans (fst (perform db p))) /\ deletes (l_id l) (snd (perform db p)) = false.
Proof.
  intros Hin Hu Hd.
  destruct p as [u ln a d c|loan0 u a d c|data|u data next| |tid|lid|u un ue r c| |];
    cbn [perform].
  - destruct (activeLoansMatching db u ln); cbn; auto.
  - cbn [fst snd deletes updateLoan loans]. split; [|reflexivity].
    apply in_map_iff. exists l. split; [|exact Hin].
    cbn [updates] in Hu. rewrite Nat.eqb_sym in Hu. now rewrite Hu.
  - cbn. auto.
  - cbn [fst snd saveLoan loans]. split; [apply in_or_app; now left|now destruct next].
  - cbn. auto.
  - cbn. auto.
  - cbn [fst snd deleteLoan loans deletes]. split; [|reflexivity].
    apply filter_In. split; [exact Hin|].
    cbn [deletes] in Hd. rewrite Nat.eqb_sym in Hd. now rewrite Hd.
  - cbn. auto.
  - cbn. auto.
  - cbn. auto.
Qed.

Lemma deletes_throw (p : Pending) : deletes (l_id l) (throw p) = false.
Proof. now destruct p. Qed.

Lemma deletes_first_call (t : Task) :
  deletes (l_id l) (first_call t) = starts_delete (l_id l) (Start t).
Proof. destruct t as [[]|]; reflexivity. Qed.

Hypothesis l_paid_off : l_status l = paid_off.

Lemma play_keeps_row (events : list Event) (s : System) :
  settled l s ->
  In l (loans (store s)) ->
  existsb (deletes (l_id l)) (in_flight s) = false ->
  existsb (starts_delete (l_id l)) events = false ->
  In l (loans (store (play s events))).
Proof.
  revert s. induction events as [|e events IH]; intros s Hs Hin Hd He; [exact Hin|].
  cbn [existsb] in He. apply orb_false_iff in He as [He Hes].
  cbn [play fold_left].
  apply IH; [now apply react_keeps_paid_off| | |exact Hes].
  - destruct e as [t|i ok]; cbn [react]; [exact Hin|].
    destruct (nth_error (in_flight s) i) as [p|] eqn:Hn; [|exact Hin].
    destruct Hs as (_ & _ & Hu).
    pose proof (existsb_nth_error _ _ _ _ Hu Hn) as Hup.
    pose proof (existsb_nth_error _ _ _ _ Hd Hn) as Hdp.
    unfold advance. destruct ok; [|exact Hin].
    destruct (perform_keeps_row (store s) p Hin Hup Hdp) as [H _].
    now destruct (perform (store s) p).
  - destruct e as [t|i ok]; cbn [react].
    + cbn [in_flight]. rewrite existsb_app, Hd. cbn [existsb].
      now rewrite deletes_first_call, He.
    + destruct (nth_error (in_flight s) i) as [p|] eqn:Hn; [|exact Hd].
      destruct Hs as (_ & _ & Hu).
      pose proof (existsb_nth_error _ _ _ _ Hu Hn) as Hup.
      pose proof (existsb_nth_error _ _ _ _ Hd Hn) as Hdp.
      unfold advance. destruct ok.
      * destruct (perform_keeps_row (store s) p Hin Hup Hdp) as [_ H].
        destruct (perform (store s) p) as [db' p']. cbn [in_flight].
        now apply existsb_put.
      * cbn [in_flight]. apply existsb_put; [exact Hd|apply deletes_throw].
Qed.

End PaidOffRequests.

(** X24: a payoff outlasts every request that does not overlap it: when a
    loan is paid_off, no repayment that read it earlier is still to write
    its update and no deletion of it is under way or started, then however
    the calls of the functions started afterwards interleave, succeed or
    fail, the loan stays in the loans table as it is; and nothing the
    handler of [/api/process] asks of the store is a deletion. *)
Theorem paid_off_survives_requests
    (s : Calls.System) (events : list Calls.Event) (l : Loan) :
  wf (Calls.store s) = true ->
  In l (loans (Calls.store s)) ->
  l_status l = paid_off ->
  existsb (Calls.updates (l_id l)) (Calls.in_flight s) = false ->
  existsb (Calls.deletes (l_id l)) (Calls.in_flight s) = false ->
  existsb (Calls.starts_delete (l_id l)) events = false ->
  In l (loans (Calls.store (Calls.play s events)))
  /\ (forall l', In l' (loans (Calls.store (Calls.play s events))) ->
        l_id l' = l_id l -> l' = l)
  /\ (forall svc userId inputText e t,
        Calls.task svc userId inputText e = Some t ->
        Calls.starts_delete (l_id l) (Calls.Start t) = false).
Proof.
  intros Hwf Hin Hp Hu Hd He.
  assert (Hs : Calls.settled l s).
  { split; [|split; [now apply wf_bounded|exact Hu]].
    intros l' Hl' E. now apply (wf_unique (Calls.store s)). }
  split; [now apply play_keeps_row|]. split.
  - now destruct (play_keeps_paid_off l Hp events s Hs) as (Hsame & _).
  - intros svc userId inputText e t Ht.
    destruct e as [d|d|d]; cbn [Calls.task] in Ht.
    + destruct (truthy (nl_principal_amount d)); [|discriminate Ht].
      now injection Ht as <-.
    + destruct (truthy (lr_amount d) && truthy (lr_lender_name d)); [|discriminate Ht].
      now injection Ht as <-.
    + destruct (truthy (tx_amount d) && truthy (tx_type d)); [|discriminate Ht].
      now injection Ht as <-.
Qed.

Lemma paid_off_survives_requests_witness :
  wf Fixtures.ledger = true
  /\ In (Fixtures.loan_of 1 "user-a" "Rahim" 5000 0 paid_off)
       (loans (Calls.store (Calls.play Overlap.at_rest Overlap.rahim_again))).
Proof.
  split; [reflexivity|].
  apply (paid_off_survives_requests Overlap.at_rest Overlap.rahim_again
           (Fixtures.loan_of 1 "user-a" "Rahim" 5000 0 paid_off));
    [reflexivity|simpl; tauto|reflexivity|reflexivity|reflexivity|reflexivity].
Defined.

(** ** Telling the outcomes of a repayment apart *)

Lemma append_cancel (p a b : string) : p ++ a = p ++ b -> a = b.
Proof.
  induction p as [|c p IH]; cbn [append]; intros H; [exact H|].
  injection H as H. now apply IH.
Qed.

(** X25: the reply to a repayment tells its outcome: for one extracted
    record, two results of which one carries a loan and the other none, or
    which carry loans of different status, are rendered as different
    messages. *)
Theorem repayment_reply_tells_the_outcome
    (d : RepaymentData) (r r' : RepaymentResult) :
  match loan r, loan r' with
  | None, None => False
  | Some a, Some b => l_status a <> l_status b
  | _, _ => True
  end ->
  generateRepaymentResponseMessage d r <> generateRepaymentResponseMessage d r'.
Proof.
  unfold generateRepaymentResponseMessage.
  destruct (loan r) as [a|], (loan r') as [b|]; intros Hd H; try contradiction.
  - rewrite <- !append_assoc in H.
    repeat (apply append_cancel in H || rewrite !append_assoc in H).
    destruct (l_status a), (l_status b); try (now apply Hd); cbn in H; discriminate H.
  - cbn in H. discriminate H.
  - cbn in H. discriminate H.
Qed.

Lemma repayment_reply_tells_the_outcome_witness :
  loan (snd Fixtures.underscore_repayment)
  = Some (Fixtures.loan_of 0 "user-a" "BRAC Bank" 2000 48000 active)
  /\ loan (snd (recordLoanRepayment Fixtures.ledger (JString "user-a") (JString "Rahim")
                  (num 2000) (JString Fixtures.anchor) (JString "BDT")))
     = None
  /\ generateRepaymentResponseMessage
       {| lr_lender_name := JString "Rahim"; lr_amount := num 2000;
          lr_currency := JString "BDT"; lr_date := JString Fixtures.anchor;
          lr_notes := JNull |}
       (snd Fixtures.underscore_repayment)
     <> generateRepaymentResponseMessage
          {| lr_lender_name := JString "Rahim"; lr_amount := num 2000;
             lr_currency := JString "BDT"; lr_date := JString Fixtures.anchor;
             lr_notes := JNull |}
          (snd (recordLoanRepayment Fixtures.ledger (JString "user-a") (JString "Rahim")
                  (num 2000) (JString Fixtures.anchor) (JString "BDT"))).
Proof.
  split; [reflexivity|]. split; [reflexivity|].
  apply (repayment_reply_tells_the_outcome
           {| lr_lender_name := JString "Rahim"; lr_amount := num 2000;
              lr_currency := JString "BDT"; lr_date := JString Fixtures.anchor;
              lr_notes := JNull |}
           (snd Fixtures.underscore_repayment)
           (snd (recordLoanRepayment Fixtures.ledger (JString "user-a") (JString "Rahim")
                   (num 2000) (JString Fixtures.anchor) (JString "BDT")))).
  exact I.
Defined.
